(** * pythia-python: the price service (src/price-service.py)

    A shallow embedding of [HermesClient] and [PriceService] and the
    properties of the resolution / fetch / normalisation pipeline.

    Python values are the JSON-like values the program handles; exceptions
    are values of an error monad that also threads the logger calls and the
    HTTP requests sent.  What lives outside the repository (the HTTP
    session, the chat-completion client, the builtin [eval], the C library's
    [strtod] and [pow], the tz database) is a field of the record [Env]. *)

From Stdlib Require Import ZArith List String Ascii Bool Lia SpecFloat.
From Stdlib Require Import DecimalString.
From Stdlib Require QArith Qpower Qabs Zdivisibility.
Import ListNotations.

Open Scope string_scope.
Open Scope Z_scope.

Set Warnings "-register-all".

(** ** Python values *)

Module Py.

(** A Python [float] is an IEEE 754 binary64 number. *)
Definition pyfloat : Type := spec_float.
Definition prec : Z := 53.
Definition emax : Z := 1024.

(** The values of JSON documents and of the classifier's reply.  Numbers
    with a fraction are left out: the services send mantissas as strings and
    exponents and publish times as integers.  Dictionaries have string
    keys. *)
Inductive pyval : Type :=
| VNone
| VBool (b : bool)
| VInt (z : Z)
| VStr (s : string)
| VList (l : list pyval)
| VDict (d : list (string * pyval)).

(** Exception classes the program raises or names in an [except] clause.
    [KeyboardInterrupt] and [SystemExit] derive from [BaseException] only;
    [ConnectTimeout] derives from both [ConnectionError] and [Timeout];
    requests' [JSONDecodeError] from [RequestException] and [ValueError]. *)
Inductive exn_class : Type :=
| KeyboardInterrupt
| SystemExit
| KeyError
| TypeError
| ValueError
| OverflowError
| StopIteration
| OtherException (name : string)
| ReadTimeout
| ConnectTimeout
| ConnectionError
| HTTPError
| JSONDecodeError
| OtherRequestException (name : string).

(** An exception: its class and [str(e)]. *)
Record exn : Type := mkExn { exn_cls : exn_class; exn_str : string }.

Definition is_Exception (c : exn_class) : bool :=
  match c with
  | KeyboardInterrupt | SystemExit => false
  | _ => true
  end.

Definition is_RequestException (c : exn_class) : bool :=
  match c with
  | ReadTimeout | ConnectTimeout | ConnectionError | HTTPError
  | JSONDecodeError | OtherRequestException _ => true
  | _ => false
  end.

Definition is_Timeout (c : exn_class) : bool :=
  match c with
  | ReadTimeout | ConnectTimeout => true
  | _ => false
  end.

Definition is_ConnectionError (c : exn_class) : bool :=
  match c with
  | ConnectionError | ConnectTimeout => true
  | _ => false
  end.

Definition is_HTTPError (c : exn_class) : bool :=
  match c with
  | HTTPError => true
  | _ => false
  end.

Definition is_ValueError (c : exn_class) : bool :=
  match c with
  | ValueError | JSONDecodeError => true
  | _ => false
  end.

Inductive result (A : Type) : Type :=
| Ok (a : A)
| Raise (e : exn).
Arguments Ok {A} a.
Arguments Raise {A} e.

Definition dq : string := String (ascii_of_nat 34) EmptyString.
Definition sq : string := String (ascii_of_nat 39) EmptyString.

(** [str(KeyError(k))] is [repr(k)]; the keys used here need no escaping. *)
Definition key_error (k : string) : exn := mkExn KeyError (sq ++ k ++ sq).

Definition type_name (v : pyval) : string :=
  match v with
  | VNone => "NoneType"
  | VBool _ => "bool"
  | VInt _ => "int"
  | VStr _ => "str"
  | VList _ => "list"
  | VDict _ => "dict"
  end.

(** *** Truth value, [bool(v)] *)
Definition truthy (v : pyval) : bool :=
  match v with
  | VNone => false
  | VBool b => b
  | VInt z => negb (z =? 0)
  | VStr s => negb (String.eqb s EmptyString)
  | VList l => match l with [] => false | _ => true end
  | VDict d => match d with [] => false | _ => true end
  end.

(** *** Dictionaries: association lists, read at the first binding of a key *)
Fixpoint dict_get (d : list (string * pyval)) (k : string) : option pyval :=
  match d with
  | [] => None
  | (k', v) :: d' => if String.eqb k' k then Some v else dict_get d' k
  end.

(** *** Equality, [a == b] *)

Fixpoint py_eq (a b : pyval) {struct a} : bool :=
  match a, b with
  | VNone, VNone => true
  | VBool x, VBool y => Bool.eqb x y
  | VBool x, VInt y => Z.b2z x =? y
  | VInt x, VBool y => x =? Z.b2z y
  | VInt x, VInt y => x =? y
  | VStr x, VStr y => String.eqb x y
  | VList xs, VList ys =>
      (fix go (xs ys : list pyval) {struct xs} : bool :=
         match xs, ys with
         | [], [] => true
         | x :: xs', y :: ys' => py_eq x y && go xs' ys'
         | _, _ => false
         end) xs ys
  | VDict d1, VDict d2 =>
      (List.length d1 =? List.length d2)%nat &&
      (fix go (d : list (string * pyval)) {struct d} : bool :=
         match d with
         | [] => true
         | (k, v) :: d' =>
             match dict_get d2 k with
             | Some v' => py_eq v v'
             | None => false
             end && go d'
         end) d1
  | _, _ => false
  end.

(** *** Subscription, [v[k]] with a string key *)
Definition getitem (v : pyval) (k : string) : result pyval :=
  match v with
  | VDict d =>
      match dict_get d k with
      | Some x => Ok x
      | None => Raise (key_error k)
      end
  | VStr _ => Raise (mkExn TypeError "string indices must be integers")
  | VList _ =>
      Raise (mkExn TypeError "list indices must be integers or slices, not str")
  | _ =>
      Raise (mkExn TypeError
               (sq ++ type_name v ++ sq ++ " object is not subscriptable"))
  end.

(** *** Membership, [k in v] with a string [k] *)
Fixpoint is_prefix (p s : string) : bool :=
  match p, s with
  | EmptyString, _ => true
  | String a p', String b s' => Ascii.eqb a b && is_prefix p' s'
  | _, _ => false
  end.

Fixpoint is_substring (p s : string) : bool :=
  is_prefix p s ||
  match s with
  | EmptyString => false
  | String _ s' => is_substring p s'
  end.

Definition contains (v : pyval) (k : string) : result bool :=
  match v with
  | VDict d => Ok (match dict_get d k with Some _ => true | None => false end)
  | VList l => Ok (existsb (fun x => py_eq x (VStr k)) l)
  | VStr s => Ok (is_substring k s)
  | _ =>
      Raise (mkExn TypeError
               ("argument of type " ++ sq ++ type_name v ++ sq
                ++ " is not iterable"))
  end.

(** *** Iteration, [for x in v] *)
Fixpoint chars (s : string) : list pyval :=
  match s with
  | EmptyString => []
  | String a s' => VStr (String a EmptyString) :: chars s'
  end.

Definition iter (v : pyval) : result (list pyval) :=
  match v with
  | VList l => Ok l
  | VStr s => Ok (chars s)
  | VDict d => Ok (map (fun kv => VStr (fst kv)) d)
  | _ =>
      Raise (mkExn TypeError
               (sq ++ type_name v ++ sq ++ " object is not iterable"))
  end.

(** *** Sequencing of computations that may raise *)
Definition bind {A B} (r : result A) (k : A -> result B) : result B :=
  match r with
  | Ok a => k a
  | Raise e => Raise e
  end.

Definition ret {A} (a : A) : result A := Ok a.

End Py.

Declare Scope py_scope.
Delimit Scope py_scope with py.
Notation "x <- m ;; k" := (Py.bind m (fun x => k))
  (at level 61, m at next level, right associativity) : py_scope.

Module Comprehension.
Import Py.
Local Open Scope py_scope.

(** [[f x for x in l]] where [f] may raise: the elements are computed in
    order and the first exception ends the comprehension. *)
Fixpoint mapM {A B} (f : A -> result B) (l : list A) : result (list B) :=
  match l with
  | [] => Ok []
  | x :: l' =>
      y <- f x ;;
      ys <- mapM f l' ;;
      ret (y :: ys)
  end.

End Comprehension.

(** ** Effects: logger calls, HTTP requests sent, exceptions *)

Module Eff.
Import Py.

Inductive level : Type := INFO | WARNING | ERROR.

(** An argument interpolated into a log message. *)
Inductive log_arg : Type :=
| AVal (v : pyval)
| AVals (l : list pyval)
| AExn (e : exn)
| AInt (z : Z).

(** A logger call: its level, the text of the f-string with [{}] for each
    interpolation, and the interpolated values. *)
Record log_entry : Type := mkLog {
  log_level : level;
  log_fmt : string;
  log_args : list log_arg
}.

(** [session.get(url, params=..., timeout=...)]. *)
Record request : Type := mkRequest {
  req_url : string;
  req_params : list (string * pyval);
  req_timeout : option Z
}.

(** What a GET comes back with: an exception of the transport, or a response
    with its status code and its body ([None] when the body is not JSON). *)
Inductive net_outcome : Type :=
| NetRaise (e : exn)
| NetResponse (status : Z) (body : option pyval).

Record state : Type := mkState {
  st_log : list log_entry;
  st_sent : list request
}.

Definition init_state : state := mkState [] [].

(** The collaborators outside the repository. *)
Record Env : Type := mkEnv {
  (** the HTTP session: the answer to a request, given the requests sent
      before it *)
  http_get : list request -> request -> net_outcome;
  (** [openai_client.chat.completions.create], as the content of the first
      choice for a given system prompt *)
  chat_create : string -> result (option string);
  (** the builtin [eval] on a string, as the value or exception it ends
      with; what the evaluated code does besides is not modelled *)
  py_eval : string -> result pyval;
  (** [float(s)] on a string: [None] when it is not a number *)
  strtod : string -> option pyfloat;
  (** [10 ** x] on a float: [None] when the result is out of range *)
  pow10 : pyfloat -> option pyfloat;
  (** pytz's America/New_York: offset from UTC in seconds and abbreviation
      in force at a UTC instant (seconds since the epoch) *)
  ny_zone : Z -> Z * string
}.

Definition M (A : Type) : Type := state -> result A * state.

Definition raise {A} (e : exn) : M A := fun s => (Raise e, s).

Definition ret {A} (a : A) : M A := fun s => (Ok a, s).

Definition bind {A B} (m : M A) (k : A -> M B) : M B :=
  fun s =>
    match m s with
    | (Ok a, s') => k a s'
    | (Raise e, s') => (Raise e, s')
    end.

Definition lift {A} (r : result A) : M A := fun s => (r, s).

(** [try: m  except C as e: h e] where [C] is the set of classes [catches]. *)
Definition try_except {A} (m : M A) (catches : exn_class -> bool)
    (h : exn -> M A) : M A :=
  fun s =>
    match m s with
    | (Ok a, s') => (Ok a, s')
    | (Raise e, s') =>
        if catches (exn_cls e) then h e s' else (Raise e, s')
    end.

(** [try: x = m; k x  except ...: h], where the handler [h] sees whether the
    local variable [x] was bound when the exception was raised.  What the
    handler raises is not handled again. *)
Definition try_binding {A B} (m : M A) (k : A -> M B)
    (h : option A -> exn -> M B) : M B :=
  fun s =>
    match m s with
    | (Raise e, s') => h None e s'
    | (Ok a, s') =>
        match k a s' with
        | (Ok b, s'') => (Ok b, s'')
        | (Raise e, s'') => h (Some a) e s''
        end
    end.

(** [logging.basicConfig(level=logging.ERROR)]: what the root logger
    writes out. *)
Definition enabled (l : level) : bool :=
  match l with
  | ERROR => true
  | _ => false
  end.

Definition written (s : state) : list log_entry :=
  filter (fun e => enabled (log_level e)) (st_log s).

Definition logger (l : level) (fmt : string) (args : list log_arg) : M unit :=
  fun s => (Ok tt, mkState (st_log s ++ [mkLog l fmt args])%list (st_sent s)).

Definition send (env : Env) (r : request) : M net_outcome :=
  fun s => (Ok (http_get env (st_sent s) r),
            mkState (st_log s) (st_sent s ++ [r])%list).

End Eff.

Declare Scope eff_scope.
Delimit Scope eff_scope with eff.
Notation "x <- m ;; k" := (Eff.bind m (fun x => k))
  (at level 61, m at next level, right associativity) : eff_scope.
Notation "m ;;; k" := (Eff.bind m (fun _ => k))
  (at level 61, right associativity) : eff_scope.

(** ** Dates and times: [datetime.fromtimestamp], [astimezone], [strftime] *)

Module Datetime.
Import Py.

Definition is_leap (y : Z) : bool :=
  (y mod 4 =? 0) && (negb (y mod 100 =? 0) || (y mod 400 =? 0)).

(** Number of days before January 1st of year [y]. *)
Definition days_before_year (y : Z) : Z :=
  let p := y - 1 in p * 365 + p / 4 - p / 100 + p / 400.

Definition days_in_month (y m : Z) : Z :=
  match m with
  | 2 => if is_leap y then 29 else 28
  | 4 | 6 | 9 | 11 => 30
  | _ => 31
  end.

Definition DAYS_BEFORE_MONTH (m : Z) : Z :=
  match m with
  | 1 => 0 | 2 => 31 | 3 => 59 | 4 => 90 | 5 => 120 | 6 => 151
  | 7 => 181 | 8 => 212 | 9 => 243 | 10 => 273 | 11 => 304 | 12 => 334
  | _ => 0
  end.

Definition DAYS_IN_MONTH (m : Z) : Z :=
  match m with
  | 2 => 28
  | 4 | 6 | 9 | 11 => 30
  | _ => 31
  end.

Definition days_before_month (y m : Z) : Z :=
  DAYS_BEFORE_MONTH m + (if (2 <? m) && is_leap y then 1 else 0).

(** Proleptic Gregorian ordinal of a date: January 1st of year 1 is day 1. *)
Definition ymd2ord (y m d : Z) : Z :=
  days_before_year y + days_before_month y m + d.

Definition DI400Y : Z := 146097.
Definition DI100Y : Z := 36524.
Definition DI4Y : Z := 1461.

(** The date of an ordinal, by the 400/100/4/1-year cycles. *)
Definition ord2ymd (n : Z) : Z * Z * Z :=
  let n := n - 1 in
  let n400 := n / DI400Y in
  let n := n mod DI400Y in
  let year := n400 * 400 + 1 in
  let n100 := n / DI100Y in
  let n := n mod DI100Y in
  let n4 := n / DI4Y in
  let n := n mod DI4Y in
  let n1 := n / 365 in
  let n := n mod 365 in
  let year := year + n100 * 100 + n4 * 4 + n1 in
  if (n1 =? 4) || (n100 =? 4) then (year - 1, 12, 31)
  else
    let leapyear := (n1 =? 3) && (negb (n4 =? 24) || (n100 =? 3)) in
    let month := Z.shiftr (n + 50) 5 in
    let preceding :=
      DAYS_BEFORE_MONTH month + (if (2 <? month) && leapyear then 1 else 0) in
    if n <? preceding then
      let month := month - 1 in
      let preceding :=
        preceding
        - (DAYS_IN_MONTH month + (if (month =? 2) && leapyear then 1 else 0)) in
      (year, month, n - preceding + 1)
    else (year, month, n - preceding + 1).

(** An aware datetime, to the second. *)
Record datetime : Type := mkDatetime {
  year : Z; month : Z; day : Z;
  hour : Z; minute : Z; second : Z;
  utcoffset : Z;
  tzname : string
}.

(** Ordinal of 1970-01-01. *)
Definition EPOCH_ORD : Z := 719163.

(** Seconds since the epoch of 0001-01-01T00:00:00 and 9999-12-31T23:59:59. *)
Definition MIN_TS : Z := (1 - EPOCH_ORD) * 86400.
Definition MAX_TS : Z := (3652059 - EPOCH_ORD) * 86400 + 86399.

(** The wall clock [local] seconds after the epoch, as date and time. *)
Definition of_seconds (local off : Z) (name : string) : datetime :=
  let '(y, m, d) := ord2ymd (EPOCH_ORD + local / 86400) in
  let s := local mod 86400 in
  mkDatetime y m d (s / 3600) (s mod 3600 / 60) (s mod 60) off name.

(** Seconds since the epoch of the instant a datetime denotes. *)
Definition timestamp (dt : datetime) : Z :=
  (ymd2ord (year dt) (month dt) (day dt) - EPOCH_ORD) * 86400
  + hour dt * 3600 + minute dt * 60 + second dt - utcoffset dt.

(** [datetime.fromtimestamp(ts, tz=pytz.UTC)]: an integer (or bool) number
    of seconds; a value that does not fit the platform's [time_t] is an
    [OverflowError], a year outside 1..9999 an error as well, taken here to
    be the [ValueError] of the range check. *)
Definition fromtimestamp_utc (ts : pyval) : result datetime :=
  match (match ts with
         | VInt t => Some t
         | VBool b => Some (Z.b2z b)
         | _ => None
         end) with
  | None =>
      Raise (mkExn TypeError
               (sq ++ type_name ts ++ sq
                ++ " object cannot be interpreted as an integer"))
  | Some t =>
      if (t <? - 2 ^ 63) || (2 ^ 63 <=? t) then
        Raise (mkExn OverflowError "timestamp out of range for platform time_t")
      else if (t <? MIN_TS) || (MAX_TS <? t) then
        Raise (mkExn ValueError "year is out of range")
      else Ok (of_seconds t 0 "UTC")
  end.

(** [dt.astimezone(tz)] for a pytz zone [zone]: the offset and abbreviation
    in force at the instant, added to the UTC wall clock; a result outside
    years 1..9999 is an [OverflowError]. *)
Definition astimezone (zone : Z -> Z * string) (dt : datetime)
  : result datetime :=
  let utc := timestamp dt in
  let '(off, name) := zone utc in
  let local := utc + off in
  if (local <? MIN_TS) || (MAX_TS <? local) then
    Raise (mkExn OverflowError "date value out of range")
  else Ok (of_seconds local off name).

Definition month_name (m : Z) : string :=
  match m with
  | 1 => "January" | 2 => "February" | 3 => "March" | 4 => "April"
  | 5 => "May" | 6 => "June" | 7 => "July" | 8 => "August"
  | 9 => "September" | 10 => "October" | 11 => "November" | _ => "December"
  end.

Definition dec (n : Z) : string := NilZero.string_of_uint (N.to_uint (Z.to_N n)).

(** Two decimal digits, zero padded. *)
Definition two (n : Z) : string := dec (n / 10) ++ dec (n mod 10).

Definition hour12 (h : Z) : Z := if h mod 12 =? 0 then 12 else h mod 12.
Definition am_pm (h : Z) : string := if h <? 12 then "AM" else "PM".

(** [dt.strftime("%B %d, %Y %I:%M %p %Z")], in the C locale.  The year is
    written without padding, as the C library does; years from 1000 on have
    four digits either way. *)
Definition strftime (dt : datetime) : string :=
  month_name (month dt) ++ " " ++ two (day dt) ++ ", " ++ dec (year dt)
  ++ " " ++ two (hour12 (hour dt)) ++ ":" ++ two (minute dt)
  ++ " " ++ am_pm (hour dt) ++ " " ++ tzname dt.

(** *** The United States rule in force since 2007, for the examples:
    daylight time from 02:00 local on the second Sunday of March to 02:00
    local on the first Sunday of November. *)

(** Day of the week of an ordinal, Monday is 0. *)
Definition weekday (ord : Z) : Z := (ord + 6) mod 7.

(** Ordinal of the first Sunday on or after day [d] of month [m], year [y]. *)
Definition sunday_from (y m d : Z) : Z :=
  let o := ymd2ord y m d in o + (6 - weekday o).

Definition us_eastern (utc : Z) : Z * string :=
  let '(y, _, _) := ord2ymd (EPOCH_ORD + utc / 86400) in
  let start := (sunday_from y 3 8 - EPOCH_ORD) * 86400 + 7 * 3600 in
  let stop := (sunday_from y 11 1 - EPOCH_ORD) * 86400 + 6 * 3600 in
  if (start <=? utc) && (utc <? stop) then (-14400, "EDT")
  else (-18000, "EST").

(** *** Vocabulary of the calendar's properties *)

(** Month and day of the [n]-th day (from 0) of a year. *)
Definition month_day (n : Z) (leapyear : bool) : Z * Z :=
  let month := Z.shiftr (n + 50) 5 in
  let preceding :=
    DAYS_BEFORE_MONTH month + (if (2 <? month) && leapyear then 1 else 0) in
  if n <? preceding then
    let month := month - 1 in
    let preceding :=
      preceding
      - (DAYS_IN_MONTH month + (if (month =? 2) && leapyear then 1 else 0)) in
    (month, n - preceding + 1)
  else (month, n - preceding + 1).

Definition month_day_ok (leapyear : bool) (n : Z) : bool :=
  let '(m, d) := month_day n leapyear in
  (1 <=? m) && (m <=? 12) && (1 <=? d)
  && (d <=? DAYS_IN_MONTH m + (if (m =? 2) && leapyear then 1 else 0))
  && (DAYS_BEFORE_MONTH m + (if (2 <? m) && leapyear then 1 else 0) + d
      =? n + 1).

(** A date of the Gregorian calendar. *)
Definition valid_date (y m d : Z) : Prop :=
  1 <= m <= 12 /\ 1 <= d <= days_in_month y m.

(** Ordinals of 1000-01-01 and 9999-12-31. *)
Definition ORD_1000 : Z := 364878.
Definition ORD_MAX : Z := 3652059.

(** Seconds since the epoch of 1000-01-01T00:00:00. *)
Definition Y1000_TS : Z := (ORD_1000 - EPOCH_ORD) * 86400.

End Datetime.

(** ** The data classes *)

Module PriceFeed.
Import Py.
(** Data class for price feed information. *)
Record t : Type := mk { id : pyval; description : pyval }.
End PriceFeed.

Module PriceData.
Import Py.
(** Data class for price information. *)
Record t : Type := mk {
  id : pyval;
  price : pyfloat;
  confidence_interval : pyfloat;
  description : pyval;
  time : string
}.
End PriceData.

(** ** HermesClient: client for the Hermes API *)

Module HermesClient.
Import Py Eff.
Local Open Scope eff_scope.

Record t : Type := mk { BASE_URL : string }.

Record response : Type := mkResponse {
  status_code : Z;
  body : option pyval
}.

(** [self.session.get(...)]: the request is sent and its outcome is either
    raised or bound as the response. *)
Definition session_get (env : Env) (r : request) : M response :=
  out <- send env r ;;
  match out with
  | NetRaise e => raise e
  | NetResponse status b => ret (mkResponse status b)
  end.

(** [response.raise_for_status()]: an [HTTPError] for 4xx and 5xx.  Of its
    text the reason phrase and the URL are left out. *)
Definition raise_for_status (r : response) : M unit :=
  let c := status_code r in
  if (400 <=? c) && (c <? 500) then
    raise (mkExn HTTPError (Datetime.dec c ++ " Client Error"))
  else if (500 <=? c) && (c <? 600) then
    raise (mkExn HTTPError (Datetime.dec c ++ " Server Error"))
  else ret tt.

(** [response.json()]. *)
Definition json (r : response) : M pyval :=
  match body r with
  | Some v => ret v
  | None => raise (mkExn JSONDecodeError "Expecting value")
  end.

(** Fetch all available price feeds. *)
Definition get_price_feeds (env : Env) (self : t) : M pyval :=
  response <- session_get env
                (mkRequest (BASE_URL self ++ "/v2/price_feeds") [] None) ;;
  raise_for_status response ;;;
  json response.

Definition is_dict (v : pyval) : bool :=
  match v with
  | VDict _ => true
  | _ => false
  end.

(** The [except] clauses of [get_latest_prices], in their order; [response]
    is the local variable of that name, unbound when [session.get] raised. *)
Definition latest_prices_except (feed_ids : list pyval)
    (response : option response) (e : exn) : M pyval :=
  let c := exn_cls e in
  if is_Timeout c then
    logger ERROR "Request timed out while fetching prices for feeds: {}"
      [AVals feed_ids] ;;;
    raise e
  else if is_ConnectionError c then
    logger ERROR "Connection error while fetching prices: {}" [AExn e] ;;;
    raise e
  else if is_HTTPError c then
    match response with
    | Some r =>
        logger ERROR "HTTP error {} while fetching prices: {}"
          [AInt (status_code r); AExn e] ;;;
        raise e
    | None =>
        raise (mkExn (OtherException "UnboundLocalError")
                 "cannot access local variable 'response' where it is not associated with a value")
    end
  else if is_ValueError c then
    logger ERROR "Invalid response format from API: {}" [AExn e] ;;;
    raise e
  else if is_Exception c then
    logger ERROR "Unexpected error while fetching prices: {}" [AExn e] ;;;
    raise e
  else raise e.

(** The statements of the [try] block of [get_latest_prices] that follow
    the binding of [response]. *)
Definition checked_data (response : response) : M pyval :=
  raise_for_status response ;;;
  data <- json response ;;
  if negb (is_dict data) then
    raise (mkExn ValueError "Unexpected API response format")
  else
    has <- lift (contains data "parsed") ;;
    if negb has then
      raise (mkExn ValueError "Unexpected API response format")
    else ret data.

Definition get_latest_prices (env : Env) (self : t) (feed_ids : list pyval)
  : M pyval :=
  let url := BASE_URL self ++ "/v2/updates/price/latest" in
  let query_params := map (fun id_ => ("ids[]", id_)) feed_ids in
  try_binding
    (session_get env (mkRequest url query_params (Some 30)))
    checked_data
    (latest_prices_except feed_ids).

End HermesClient.
(** ** PriceService: processing price-related requests *)

Module PriceService.
Import Eff Py.
Local Open Scope py_scope.

Record t : Type := mk {
  hermes_client : HermesClient.t;
  price_feeds : pyval
}.

(** [__init__]: the catalog is fetched once, when the service is built. *)
Definition init (env : Env) (base_url : string) : M t :=
  let client := HermesClient.mk base_url in
  (feeds <- HermesClient.get_price_feeds env client ;;
   Eff.ret (mk client feeds))%eff.

(** The condition of the comprehension in [process_tickers]:
    ["base" in item["attributes"] and item["attributes"]["base"] == ticker]. *)
Definition base_is (item ticker : pyval) : result bool :=
  attrs <- getitem item "attributes" ;;
  has <- contains attrs "base" ;;
  if has then
    attrs <- getitem item "attributes" ;;
    base <- getitem attrs "base" ;;
    ret (py_eq base ticker)
  else ret false.

(** [PriceFeed(id=item["id"], description=item["attributes"]["description"])]. *)
Definition feed_of (item : pyval) : result PriceFeed.t :=
  i <- getitem item "id" ;;
  attrs <- getitem item "attributes" ;;
  d <- getitem attrs "description" ;;
  ret (PriceFeed.mk i d).

(** The comprehension over the catalog, for one ticker. *)
Fixpoint feeds_for (ticker : pyval) (items : list pyval)
  : result (list PriceFeed.t) :=
  match items with
  | [] => ret []
  | item :: rest =>
      b <- base_is item ticker ;;
      if b then
        f <- feed_of item ;;
        fs <- feeds_for ticker rest ;;
        ret (f :: fs)
      else feeds_for ticker rest
  end.

(** The loop over the tickers, extending [price_feeds]. *)
Fixpoint extend_all (self : t) (tickers : list pyval)
    (price_feeds : list PriceFeed.t) : result (list PriceFeed.t) :=
  match tickers with
  | [] => ret price_feeds
  | ticker :: rest =>
      items <- iter (PriceService.price_feeds self) ;;
      feeds <- feeds_for ticker items ;;
      extend_all self rest (price_feeds ++ feeds)%list
  end.

(** Process tickers and return corresponding price feeds. *)
Definition process_tickers (self : t) (tickers : pyval)
  : result (list PriceFeed.t) :=
  if negb (truthy tickers) then ret []
  else
    ts <- iter tickers ;;
    extend_all self ts [].

(** [float(v)]. *)
Definition float (env : Env) (v : pyval) : result pyfloat :=
  let of_int n :=
    match binary_normalize prec emax n 0 false with
    | S754_infinity _ =>
        Raise (mkExn OverflowError "int too large to convert to float")
    | f => Ok f
    end in
  match v with
  | VInt n => of_int n
  | VBool b => of_int (Z.b2z b)
  | VStr s =>
      match strtod env s with
      | Some f => Ok f
      | None =>
          Raise (mkExn ValueError
                   ("could not convert string to float: " ++ sq ++ s ++ sq))
      end
  | _ =>
      Raise (mkExn TypeError
               ("float() argument must be a string or a real number, not "
                ++ sq ++ type_name v ++ sq))
  end.

(** [10 ** x] for a float [x]. *)
Definition pow (env : Env) (x : pyfloat) : result pyfloat :=
  match pow10 env x with
  | Some f => Ok f
  | None =>
      Raise (mkExn OverflowError "(34, 'Numerical result out of range')")
  end.

(** [float(price["price"][field]) * 10 ** float(price["price"]["expo"])]. *)
Definition scaled (env : Env) (price : pyval) (field : string)
  : result pyfloat :=
  p <- getitem price "price" ;;
  m <- getitem p field ;;
  m <- float env m ;;
  p <- getitem price "price" ;;
  e <- getitem p "expo" ;;
  e <- float env e ;;
  pw <- pow env e ;;
  ret (SFmul prec emax m pw).

(** [next(feed.description for feed in price_feeds
          if feed.id == price["id"])]. *)
Fixpoint next_description (price_feeds : list PriceFeed.t) (price : pyval)
  : result pyval :=
  match price_feeds with
  | [] => Raise (mkExn StopIteration EmptyString)
  | feed :: rest =>
      i <- getitem price "id" ;;
      if py_eq (PriceFeed.id feed) i then ret (PriceFeed.description feed)
      else next_description rest price
  end.

(** The [time] field of a record. *)
Definition display_time (env : Env) (price : pyval) : result string :=
  p <- getitem price "price" ;;
  ts <- getitem p "publish_time" ;;
  utc <- Datetime.fromtimestamp_utc ts ;;
  local <- Datetime.astimezone (ny_zone env) utc ;;
  ret (Datetime.strftime local).

(** One [PriceData(...)] of the comprehension in [fetch_prices]. *)
Definition price_data (env : Env) (price_feeds : list PriceFeed.t)
    (price : pyval) : result PriceData.t :=
  i <- getitem price "id" ;;
  pr <- scaled env price "price" ;;
  conf <- scaled env price "conf" ;;
  d <- next_description price_feeds price ;;
  tm <- display_time env price ;;
  ret (PriceData.mk i pr conf d tm).

(** The comprehension of [fetch_prices]: the raw points of the response,
    in order, against the resolved feeds. *)
Definition normalize (env : Env) (price_feeds : list PriceFeed.t)
    (prices : list pyval) : result (list PriceData.t) :=
  Comprehension.mapM (price_data env price_feeds) prices.

Local Close Scope py_scope.
Local Open Scope eff_scope.
Import Eff.

(** Fetch prices for given tickers. *)
Definition fetch_prices (env : Env) (self : t) (tickers : pyval)
  : M (list PriceData.t) :=
  try_except
    (price_feeds <- lift (process_tickers self tickers) ;;
     match price_feeds with
     | [] =>
         logger WARNING "No price feeds found for tickers: {}"
           [AVal tickers] ;;;
         ret []
     | _ =>
         let feed_ids := map PriceFeed.id price_feeds in
         response_data <-
           HermesClient.get_latest_prices env (hermes_client self) feed_ids ;;
         parsed <- lift (getitem response_data "parsed") ;;
         prices <- lift (iter parsed) ;;
         lift (normalize env price_feeds prices)
     end)
    is_RequestException
    (fun e => logger ERROR "Error fetching prices: {}" [AExn e] ;;; raise e).

(** The system prompt of [analyze_message]. *)
Definition prompt (message : string) : string :=
  "

        Your name is Pythia. You are the price oracle of the Pyth Network. You speak truth and only truth.
        You are a helpful assistant that can answer questions and provide information.
        For now you tell the prices if you feel they have been asked.

        Analyze the following message:
        1. Determine if it's asking for a price. Reply in True/False. Please make sure with capital first letter.
        2. If yes, extract the symbols/tickers mentioned and convert them to proper format.
        3. If no, provide a friendly response to continue the conversation.

        Message: " ++ dq ++ message ++ dq ++ "

        Response format:
        {
            " ++ dq ++ "is_price_request" ++ dq ++ ": True/False,
            " ++ dq ++ "tickers" ++ dq ++ ": [" ++ dq ++ "symbol1" ++ dq
  ++ ", " ++ dq ++ "symbol2" ++ dq ++ "],
            " ++ dq ++ "chat_response" ++ dq ++ ": " ++ dq
  ++ "Response if not a price request" ++ dq ++ "
        }
        ".

(** [eval(content)]: the builtin, on the content of the reply. *)
Definition eval (env : Env) (content : option string) : result pyval :=
  match content with
  | Some src => py_eval env src
  | None =>
      Raise (mkExn TypeError
               "eval() arg 1 must be a string, bytes or code object")
  end.

(** Analyze message for price requests using GPT. *)
Definition analyze_message (env : Env) (message : string) : M pyval :=
  try_except
    (content <- lift (chat_create env (prompt message)) ;;
     lift (eval env content))
    is_Exception
    (fun e =>
       logger ERROR "Error processing message with GPT: {}" [AExn e] ;;;
       raise e).

(** What [handle_message] returns: a list of [PriceData] or any other
    value. *)
Inductive reply : Type :=
| Prices (l : list PriceData.t)
| Value (v : pyval).

(** Handle user message and return appropriate response. *)
Definition handle_message (env : Env) (self : t) (message : string)
  : M reply :=
  try_except
    (analysis <- analyze_message env message ;;
     logger INFO "Message analysis: {}" [AVal analysis] ;;;
     flag <- lift (getitem analysis "is_price_request") ;;
     if truthy flag then
       tickers <- lift (getitem analysis "tickers") ;;
       l <- fetch_prices env self tickers ;;
       ret (Prices l)
     else
       r <- lift (getitem analysis "chat_response") ;;
       ret (Value r))
    is_Exception
    (fun e =>
       logger ERROR "Error handling message: {}" [AExn e] ;;;
       ret (Value (VStr ("An error occurred: " ++ exn_str e)))).

End PriceService.

(** ** The interactive loop *)

Module Main.
Import Py Eff PriceService.

(** What [input] meets: a line of text or an interrupt from the keyboard.
    The end of the list of events is the end of the input. *)
Inductive event : Type :=
| Line (text : string)
| Interrupt.

(** A call that writes to the terminal.  Formatted values are kept as
    values: [PrintPrice p] is [print(f"Price: ${p:,.2f}")]. *)
Inductive out : Type :=
| Prompt (text : string)
| Print (text : string)
| PrintDescription (d : pyval)
| PrintRule (n : Z)
| PrintPrice (p : pyfloat)
| PrintConfidence (c : pyfloat)
| PrintTime (t : string)
| PrintResponse (r : reply)
| PrintError (e : exn).

Definition nl : string := String (ascii_of_nat 10) EmptyString.

(** [s.lower()], on the letters A to Z.  For the comparison with [exit]
    this is all of it: the one other character whose lower case holds one
    of these letters (U+0130) gets a combining mark with it. *)
Definition lower_char (c : ascii) : ascii :=
  let n := nat_of_ascii c in
  if ((65 <=? n) && (n <=? 90))%nat then ascii_of_nat (n + 32) else c.

Fixpoint lower (s : string) : string :=
  match s with
  | EmptyString => EmptyString
  | String c s' => String (lower_char c) (lower s')
  end.

(** [len(v)]; a string is a sequence of characters, one [ascii] each. *)
Definition len (v : pyval) : result Z :=
  match v with
  | VStr s => Ok (Z.of_nat (String.length s))
  | VList l => Ok (Z.of_nat (List.length l))
  | VDict d => Ok (Z.of_nat (List.length d))
  | _ =>
      Raise (mkExn TypeError
               ("object of type " ++ sq ++ type_name v ++ sq
                ++ " has no len()"))
  end.

(** The five [print] calls for one record; [len] may raise after the
    first. *)
Definition print_price (price : PriceData.t) : list out * result unit :=
  match len (PriceData.description price) with
  | Raise e => ([PrintDescription (PriceData.description price)], Raise e)
  | Ok n =>
      ([PrintDescription (PriceData.description price);
        PrintRule n;
        PrintPrice (PriceData.price price);
        PrintConfidence (PriceData.confidence_interval price);
        PrintTime (PriceData.time price)],
       Ok tt)
  end.

(** [for price in response: ...]. *)
Fixpoint print_prices (response : list PriceData.t)
  : list out * result unit :=
  match response with
  | [] => ([], Ok tt)
  | price :: rest =>
      match print_price price with
      | (o, Raise e) => (o, Raise e)
      | (o, Ok _) =>
          let '(o', r) := print_prices rest in ((o ++ o')%list, r)
      end
  end.

(** The response is pretty printed when it is a list of [PriceData], which
    the empty list is, and printed as it is otherwise. *)
Definition print_response (response : reply) : list out * result unit :=
  match response with
  | Prices l => print_prices l
  | Value (VList []) => ([], Ok tt)
  | _ => ([PrintResponse response], Ok tt)
  end.

(** How one turn of the loop ends. *)
Inductive step : Type :=
| Next
| Stop
| Propagate (e : exn).

Definition eof_error : exn :=
  mkExn (OtherException "EOFError") "EOF when reading a line".

Definition keyboard_interrupt : exn := mkExn KeyboardInterrupt EmptyString.

Definition is_KeyboardInterrupt (c : exn_class) : bool :=
  match c with
  | KeyboardInterrupt => true
  | _ => false
  end.

(** The [except] clauses of the loop, after what was printed so far. *)
Definition loop_except (printed : list out) (e : exn) : step * list out :=
  if is_KeyboardInterrupt (exn_cls e) then
    (Stop, (printed ++ [Print (nl ++ "Goodbye!")])%list)
  else if is_Exception (exn_cls e) then
    (Next, (printed ++ [PrintError e])%list)
  else (Propagate e, printed).

(** The body of [while True]: one [try] statement. *)
Definition turn (env : Env) (service : PriceService.t)
    (input : option event) (s : state) : (step * list out) * state :=
  let asked := [Prompt (nl ++ "Enter your message: ")] in
  match input with
  | None => (loop_except asked eof_error, s)
  | Some Interrupt => (loop_except asked keyboard_interrupt, s)
  | Some (Line user_message) =>
      if String.eqb (lower user_message) "exit" then
        ((Stop, (asked ++ [Print "Goodbye!"])%list), s)
      else
        match handle_message env service user_message s with
        | (Raise e, s') => (loop_except asked e, s')
        | (Ok response, s') =>
            match print_response response with
            | (o, Ok _) => ((Next, (asked ++ o)%list), s')
            | (o, Raise e) => (loop_except (asked ++ o)%list e, s')
            end
        end
  end.

(** How [main] ends, when it does within the turns it is given. *)
Inductive outcome : Type :=
| Exited
| Raised (e : exn)
| Running.

(** [while True], for at most [fuel] turns. *)
Fixpoint loop (fuel : nat) (env : Env) (service : PriceService.t)
    (inputs : list event) (s : state) : (outcome * list out) * state :=
  match fuel with
  | O => ((Running, []), s)
  | S fuel' =>
      match turn env service (hd_error inputs) s with
      | ((Stop, o), s') => ((Exited, o), s')
      | ((Propagate e, o), s') => ((Raised e, o), s')
      | ((Next, o), s') =>
          let '((r, o'), s'') := loop fuel' env service (tl inputs) s' in
          ((r, (o ++ o')%list), s'')
      end
  end.

Definition greeting : list out :=
  [Print "Hello! I am Pythia.";
   Print "I am the price oracle of the Pyth Network. I speak truth and only truth."].

(** Main entry point for the application. *)
Definition main (env : Env) (base_url : string) (fuel : nat)
    (inputs : list event) (s : state) : (outcome * list out) * state :=
  match init env base_url s with
  | (Raise e, s') => ((Raised e, []), s')
  | (Ok service, s') =>
      let '((r, o), s'') := loop fuel env service inputs s' in
      ((r, (greeting ++ o)%list), s'')
  end.

End Main.

(** ** Vocabulary of the properties

    The components of the specification, as it words them, and names for
    the log entries and requests of the program. *)

Module Trace.
Import Py Eff HermesClient PriceService.

(** What [next] raises on an exhausted generator. *)
Definition stop_iteration : exn := mkExn StopIteration EmptyString.

(** The two requests of the client. *)
Definition latest_request (self : HermesClient.t) (feed_ids : list pyval)
  : request :=
  mkRequest (BASE_URL self ++ "/v2/updates/price/latest")
    (map (fun id_ => ("ids[]", id_)) feed_ids) (Some 30).

Definition feeds_request (base_url : string) : request :=
  mkRequest (base_url ++ "/v2/price_feeds") [] None.

(** A state after more logger calls and requests. *)
Definition logged (s : state) (l : list log_entry) (r : list request)
  : state :=
  mkState (st_log s ++ l) (st_sent s ++ r).

Definition add_log (s : state) (l : list log_entry) : state :=
  mkState (st_log s ++ l) (st_sent s).

(** The logger calls of the [except] clauses. *)
Definition timed_out_entry (feed_ids : list pyval) : log_entry :=
  mkLog ERROR "Request timed out while fetching prices for feeds: {}"
    [AVals feed_ids].

Definition info_entry (analysis : pyval) : log_entry :=
  mkLog INFO "Message analysis: {}" [AVal analysis].

Definition handling_entry (e : exn) : log_entry :=
  mkLog ERROR "Error handling message: {}" [AExn e].

Definition gpt_entry (e : exn) : log_entry :=
  mkLog ERROR "Error processing message with GPT: {}" [AExn e].

(** The string [handle_message] returns for an exception. *)
Definition error_reply (e : exn) : reply :=
  Value (VStr ("An error occurred: " ++ exn_str e)).

End Trace.

Module PriceNormalizer.
Import Py Eff PriceService.

Definition is_ok {A} (r : result A) : bool :=
  match r with
  | Ok _ => true
  | Raise _ => false
  end.

(** A raw point whose id equals the id of no feed. *)
Definition orphan (feeds : list PriceFeed.t) (price : pyval) : bool :=
  match getitem price "id" with
  | Ok i => forallb (fun f => negb (py_eq (PriceFeed.id f) i)) feeds
  | Raise _ => false
  end.

(** A well-formed raw point: it has an id, its mantissas and exponent
    scale, and its publish time is a date. *)
Definition convertible (env : Env) (price : pyval) : bool :=
  is_ok (getitem price "id")
  && is_ok (scaled env price "price")
  && is_ok (scaled env price "conf")
  && is_ok (display_time env price).

End PriceNormalizer.

Module FeedCatalog.
Import Py.

(** An entry that exposes an id and, among its attributes, a description. *)
Definition well_formed (item : pyval) : bool :=
  match item with
  | VDict d =>
      match dict_get d "id", dict_get d "attributes" with
      | Some _, Some (VDict a) =>
          match dict_get a "description" with
          | Some _ => true
          | None => false
          end
      | _, _ => false
      end
  | _ => false
  end.

(** An entry that lacks a field the catalog requires: an id, or a
    description among its attributes. *)
Definition lacks_required_field (item : pyval) : bool :=
  negb (well_formed item).

(** The base symbol of an entry, when it has one. *)
Definition base_symbol (item : pyval) : option pyval :=
  match item with
  | VDict d =>
      match dict_get d "attributes" with
      | Some (VDict a) => dict_get a "base"
      | _ => None
      end
  | _ => None
  end.

Definition has_symbol (symbol : string) (item : pyval) : bool :=
  match base_symbol item with
  | Some (VStr b) => String.eqb b symbol
  | _ => false
  end.

Definition field (item : pyval) (path : list string) : pyval :=
  fold_left
    (fun v k =>
       match v with
       | VDict d => match dict_get d k with Some x => x | None => VNone end
       | _ => VNone
       end)
    path item.

Definition descriptor (item : pyval) : PriceFeed.t :=
  PriceFeed.mk (field item ["id"]) (field item ["attributes"; "description"]).

(** All descriptors whose base symbol is exactly [symbol]. *)
Definition findBySymbol (catalog : list pyval) (symbol : string)
  : list PriceFeed.t :=
  map descriptor (filter (has_symbol symbol) catalog).

End FeedCatalog.

Module TickerResolver.
Import Py FeedCatalog.

(** The matches of each ticker, one ticker after the other. *)
Definition resolve (catalog : list pyval) (tickers : list string)
  : list PriceFeed.t :=
  flat_map (findBySymbol catalog) tickers.

End TickerResolver.

Module IntentClassifier.
Import Py.

Definition is_str (v : pyval) : bool :=
  match v with
  | VStr _ => true
  | _ => false
  end.

(** The schema of the reply: a boolean [is_price_request], a list of
    strings [tickers] and a string [chat_response]. *)
Definition conforms (v : pyval) : bool :=
  match v with
  | VDict d =>
      match dict_get d "is_price_request", dict_get d "tickers",
            dict_get d "chat_response" with
      | Some (VBool _), Some (VList ts), Some (VStr _) => forallb is_str ts
      | _, _, _ => false
      end
  | _ => false
  end.

End IntentClassifier.

Module Raises.
Import Py Eff.

(** A computation whose exceptions all derive from [Exception]. *)
Definition raises_Exception {A} (r : result A) : Prop :=
  forall e, r = Raise e -> is_Exception (exn_cls e) = true.

Definition raisesM_Exception {A} (m : M A) : Prop :=
  forall s e s', m s = (Raise e, s') -> is_Exception (exn_cls e) = true.

(** The HTTP session raises [Exception]s only: no interrupt, no exit of
    the interpreter. *)
Definition session_raises_Exception (env : Env) : Prop :=
  forall sent r e,
    http_get env sent r = NetRaise e -> is_Exception (exn_cls e) = true.

End Raises.

(** ** A concrete world, for the examples *)

Module Example.
Import Py Eff.

Definition obj (l : list (string * pyval)) : pyval := VDict l.

(** Two venues for BTC, one feed for ETH, and an entry without a base. *)
Definition catalog_items : list pyval :=
  [
    obj [("id", VStr "e62d");
         ("attributes", obj [("base", VStr "BTC");
                             ("description", VStr "BITCOIN / US DOLLAR")])];
    obj [("id", VStr "ff61");
         ("attributes", obj [("base", VStr "ETH");
                             ("description", VStr "ETHEREUM / US DOLLAR")])];
    obj [("id", VStr "c96b");
         ("attributes", obj [("base", VStr "BTC");
                             ("description", VStr "BITCOIN / TETHER")])];
    obj [("id", VStr "0a11");
         ("attributes", obj [("description", VStr "UNLISTED")])]
  ].

Definition catalog : pyval := VList catalog_items.

Definition base_url : string := "https://hermes.example".

Definition service : PriceService.t :=
  PriceService.mk (HermesClient.mk base_url) catalog.

Definition raw (i mantissa conf : string) (expo publish_time : Z) : pyval :=
  obj [("id", VStr i);
       ("price", obj [("price", VStr mantissa); ("conf", VStr conf);
                      ("expo", VInt expo);
                      ("publish_time", VInt publish_time)])].

(** Decimal digits, with an optional sign: the mantissas of the examples. *)
Fixpoint digits (s : string) (acc : Z) : option Z :=
  match s with
  | EmptyString => Some acc
  | String c s' =>
      let n := Z.of_nat (nat_of_ascii c) - 48 in
      if (0 <=? n) && (n <=? 9) then digits s' (acc * 10 + n) else None
  end.

Definition strtod_digits (s : string) : option pyfloat :=
  match s with
  | EmptyString => None
  | String "-" s' =>
      match s' with
      | EmptyString => None
      | _ => option_map (fun n => binary_normalize prec emax (- n) 0 true)
               (digits s' 0)
      end
  | _ => option_map (fun n => binary_normalize prec emax n 0 false)
           (digits s 0)
  end.

(** [10 ** x] for the integral exponents between -22 and 22, where the
    power of ten (or its inverse) is a binary64 number and one correctly
    rounded operation gives the result. *)
Definition pow10_small (x : pyfloat) : option pyfloat :=
  let ten_to n := binary_normalize prec emax (10 ^ n) 0 false in
  match x with
  | S754_zero _ => Some (ten_to 0)
  | S754_finite sgn m e =>
      let v := if 0 <=? e then Z.pos m * 2 ^ e else Z.pos m / 2 ^ (- e) in
      let whole := (0 <=? e) || (Z.pos m mod 2 ^ (- e) =? 0) in
      if whole && (v <=? 22) then
        if sgn then Some (SFdiv prec emax (ten_to 0) (ten_to v))
        else Some (ten_to v)
      else None
  | _ => None
  end.

(** A world from its HTTP service, its classifier and its evaluator. *)
Definition world (net : list request -> request -> net_outcome)
    (chat : string -> result (option string))
    (ev : string -> result pyval) : Env :=
  mkEnv net chat ev strtod_digits pow10_small Datetime.us_eastern.

Definition offline : list request -> request -> net_outcome :=
  fun _ _ => NetRaise (mkExn ConnectionError "Connection refused").
Definition silent : string -> result (option string) :=
  fun _ => Ok None.
Definition no_eval : string -> result pyval :=
  fun _ => Raise (mkExn (OtherException "SyntaxError") "invalid syntax").

Definition env0 : Env := world offline silent no_eval.

(** *** Replies of the classifier, and what [eval] makes of them *)

Definition q (s : string) : string := dq ++ s ++ dq.

(** A price request for ETH, with an empty [chat_response]. *)
Definition reply_eth : string :=
  "{" ++ q "is_price_request" ++ ": True, " ++ q "tickers" ++ ": ["
  ++ q "ETH" ++ "], " ++ q "chat_response" ++ ": " ++ dq ++ dq ++ "}".

Definition value_eth : pyval :=
  obj [("is_price_request", VBool true);
       ("tickers", VList [VStr "ETH"]);
       ("chat_response", VStr EmptyString)].

(** [{"is_price_request": "False", "tickers": [], "chat_response": "Hi!"}]:
    the flag is a string. *)
Definition reply_quoted : string :=
  "{" ++ q "is_price_request" ++ ": " ++ q "False" ++ ", " ++ q "tickers"
  ++ ": [], " ++ q "chat_response" ++ ": " ++ q "Hi!" ++ "}".

Definition value_quoted : pyval :=
  obj [("is_price_request", VStr "False");
       ("tickers", VList []);
       ("chat_response", VStr "Hi!")].

(** [eval] on these two replies; [1/0] raises, as does any other text
    here. *)
Definition eval_replies (src : string) : result pyval :=
  if String.eqb src reply_eth then Ok value_eth
  else if String.eqb src reply_quoted then Ok value_quoted
  else if String.eqb src "1/0" then
    Raise (mkExn (OtherException "ZeroDivisionError") "division by zero")
  else Raise (mkExn (OtherException "SyntaxError") "invalid syntax").

Definition read_timeout : exn := mkExn ReadTimeout "Read timed out.".

(** A point published on March 3rd, 2024 at 19:15 UTC. *)
Definition march_point : pyval :=
  raw "e62d" "6512345000000" "2100000000" (-8) 1709493300.

(** The raw point of the specification's test. *)
Definition test_asset : pyval := raw "X" "12345" "67" (-2) 1700000000.

(** A Hermes service: the catalog, and for the latest prices of any feeds
    one point of ETH followed by a point of a feed nobody asked for. *)
Definition eth_point : pyval :=
  raw "ff61" "345012000000" "150000000" (-8) 1709493300.

Definition stray_point : pyval := raw "ffff" "1" "1" 0 1709493300.

Definition hermes (points : list pyval)
  : list request -> request -> net_outcome :=
  fun _ r =>
    if String.eqb (req_url r) (base_url ++ "/v2/price_feeds")
    then NetResponse 200 (Some catalog)
    else NetResponse 200 (Some (obj [("parsed", VList points)])).

Definition asking_eth (points : list pyval) : Env :=
  world (hermes points) (fun _ => Ok (Some reply_eth)) eval_replies.

(** A service that answers every request with one entry, which has a base
    symbol and neither id nor description. *)
Definition bare_entry : pyval :=
  obj [("attributes", obj [("base", VStr "BTC")])].

Definition bare_world : Env :=
  world (fun _ _ => NetResponse 200 (Some (VList [bare_entry])))
    silent no_eval.

(** A classifier that puts the flag in quotes. *)
Definition quoting : Env :=
  world offline (fun _ => Ok (Some reply_quoted))
    eval_replies.

Definition timing_out : Env :=
  world (fun _ _ => NetRaise read_timeout)
    (fun _ => Ok (Some reply_eth)) eval_replies.

End Example.

(** ** Vocabulary of further properties *)

Module Shapes.
Import Py Eff HermesClient PriceService.

(** A status for which [raise_for_status] raises. *)
Definition is_error_status (c : Z) : bool := (400 <=? c) && (c <? 600).

(** A JSON value that is an object with a ["parsed"] member. *)
Definition has_parsed (v : pyval) : bool :=
  match v with
  | VDict d =>
      match dict_get d "parsed" with
      | Some _ => true
      | None => false
      end
  | _ => false
  end.

(** A body from which [get_latest_prices] returns nothing. *)
Definition unusable_body (body : option pyval) : bool :=
  match body with
  | Some v => negb (has_parsed v)
  | None => true
  end.

(** The logger calls of [get_latest_prices] and [fetch_prices]. *)
Definition invalid_format_entry (e : exn) : log_entry :=
  mkLog ERROR "Invalid response format from API: {}" [AExn e].

Definition http_error_entry (c : Z) (e : exn) : log_entry :=
  mkLog ERROR "HTTP error {} while fetching prices: {}" [AInt c; AExn e].

Definition connection_entry (e : exn) : log_entry :=
  mkLog ERROR "Connection error while fetching prices: {}" [AExn e].

Definition unexpected_entry (e : exn) : log_entry :=
  mkLog ERROR "Unexpected error while fetching prices: {}" [AExn e].

Definition fetching_entry (e : exn) : log_entry :=
  mkLog ERROR "Error fetching prices: {}" [AExn e].

Definition no_feeds_entry (tickers : pyval) : log_entry :=
  mkLog WARNING "No price feeds found for tickers: {}" [AVal tickers].

(** A state after one more request. *)
Definition sent_one (s : state) (r : request) : state :=
  mkState (st_log s) (st_sent s ++ [r]).

(** An entry whose base symbol is none of the tickers: the condition of
    the comprehension is false for each of them. *)
Definition matches_none (item : pyval) (tickers : list pyval) : bool :=
  forallb
    (fun ticker =>
       match base_is item ticker with
       | Ok false => true
       | _ => false
       end)
    tickers.

(** Raising nothing but a [KeyError] or a [TypeError]. *)
Definition raises_Key_or_Type {A} (r : result A) : Prop :=
  forall e, r = Raise e -> exn_cls e = KeyError \/ exn_cls e = TypeError.

(** The session, the classifier and [eval] raise [Exception]s only. *)
Definition collaborators_raise_Exception (env : Env) : Prop :=
  Raises.session_raises_Exception env
  /\ (forall p e,
        chat_create env p = Raise e -> is_Exception (exn_cls e) = true)
  /\ (forall src e,
        py_eval env src = Raise e -> is_Exception (exn_cls e) = true).

(** An event that ends the loop: the word [exit] in any case, or an
    interrupt. *)
Definition ends_loop (ev : Main.event) : bool :=
  match ev with
  | Main.Line text => String.eqb (Main.lower text) "exit"
  | Main.Interrupt => true
  end.

(** The catalog request got no catalog: the session raised, the status was
    an error or the body was not JSON. *)
Definition no_catalog (out : net_outcome) : bool :=
  match out with
  | NetRaise _ => true
  | NetResponse c body =>
      is_error_status c
      || match body with Some _ => false | None => true end
  end.

(** What the loop writes when it asks for a message. *)
Definition asked : list Main.out :=
  [Main.Prompt (Main.nl ++ "Enter your message: ")].

(** What a turn writes at the end of the input. *)
Definition eof_turn : list Main.out :=
  asked ++ [Main.PrintError Main.eof_error].

(** The five lines of a record whose description has the length [n]. *)
Definition record_lines (r : PriceData.t) (n : Z) : list Main.out :=
  [Main.PrintDescription (PriceData.description r);
   Main.PrintRule n;
   Main.PrintPrice (PriceData.price r);
   Main.PrintConfidence (PriceData.confidence_interval r);
   Main.PrintTime (PriceData.time r)].

(** What [main] writes for records whose descriptions have a length. *)
Definition lines_of (l : list PriceData.t) : list Main.out :=
  flat_map
    (fun r =>
       match Main.len (PriceData.description r) with
       | Ok n => record_lines r n
       | Raise _ => []
       end)
    l.

Definition has_len (r : PriceData.t) : bool :=
  match Main.len (PriceData.description r) with
  | Ok _ => true
  | Raise _ => false
  end.

End Shapes.

(** ** Worlds for the further examples *)

Module Scenario.
Import Py Eff.

(** A service that answers every request the same way. *)
Definition answering (out : net_outcome) : Env :=
  Example.world (fun _ _ => out) (fun _ => Ok (Some Example.reply_eth))
    Example.eval_replies.

Definition eth_ids : list pyval := [VStr "ff61"].

Definition client : HermesClient.t := HermesClient.mk Example.base_url.

Definition connection_refused : exn :=
  mkExn ConnectionError "Connection refused".

Definition interrupted : exn := mkExn KeyboardInterrupt EmptyString.

End Scenario.

(** ** The numbers that floats and decimal prices denote *)

Module Rational.
Import Py QArith_base.


(** The price a mantissa [m] and an exponent [e] stand for: [m] times ten
    to the [e]. *)
Definition decimal (m e : Z) : Q :=
  Qmult (inject_Z m) (Qpower (inject_Z 10) e).

End Rational.

(** * Properties *)

(** ** The calendar *)

Module DatetimeFacts.
Import Py Datetime.

Ltac zdiv := Z.div_mod_to_equations; lia.

Lemma month_day_table_common :
  forallb (fun k => month_day_ok false (Z.of_nat k)) (seq 0 365) = true.
Proof. vm_compute. reflexivity. Qed.

Lemma month_day_table_leap :
  forallb (fun k => month_day_ok true (Z.of_nat k)) (seq 0 366) = true.
Proof. vm_compute. reflexivity. Qed.

Lemma month_day_sound (leapyear : bool) (n : Z) :
  0 <= n < 365 + (if leapyear then 1 else 0) ->
  month_day_ok leapyear n = true.
Proof.
  intros Hn.
  assert (Hk : exists k, n = Z.of_nat k /\ (k < 365 + (if leapyear then 1 else 0))%nat).
  { exists (Z.to_nat n). destruct leapyear; lia. }
  destruct Hk as [k [-> Hk]].
  destruct leapyear.
  - pose proof month_day_table_leap as T.
    rewrite forallb_forall in T. apply T. apply in_seq. lia.
  - pose proof month_day_table_common as T.
    rewrite forallb_forall in T. apply T. apply in_seq. lia.
Qed.

Lemma is_leap_cycles (q n100 n4 n1 : Z) :
  0 <= n100 <= 3 -> 0 <= n4 <= 24 -> 0 <= n1 <= 3 ->
  is_leap (q * 400 + 1 + n100 * 100 + n4 * 4 + n1)
  = (n1 =? 3) && (negb (n4 =? 24) || (n100 =? 3)).
Proof.
  intros H100 H4 H1. unfold is_leap.
  destruct (Z.eqb_spec n1 3), (Z.eqb_spec n4 24), (Z.eqb_spec n100 3);
    cbn [andb orb negb];
    repeat match goal with
           | |- context [?a mod ?b =? 0] => destruct (Z.eqb_spec (a mod b) 0)
           end; cbn [andb orb negb]; try reflexivity; exfalso; zdiv.
Qed.

Lemma days_before_year_cycles (q n100 n4 n1 : Z) :
  0 <= n100 <= 3 -> 0 <= n4 <= 24 -> 0 <= n1 <= 3 ->
  days_before_year (q * 400 + 1 + n100 * 100 + n4 * 4 + n1)
  = q * DI400Y + n100 * DI100Y + n4 * DI4Y + n1 * 365.
Proof.
  intros H100 H4 H1. unfold days_before_year, DI400Y, DI100Y, DI4Y. zdiv.
Qed.

Lemma is_leap_400 (q : Z) : is_leap (q * 400) = true.
Proof.
  unfold is_leap.
  replace (q * 400 mod 4) with 0 by zdiv.
  replace (q * 400 mod 400) with 0 by zdiv.
  cbn. apply orb_true_r.
Qed.

Lemma days_before_year_400 (q : Z) :
  days_before_year (q * 400) = q * DI400Y - 366.
Proof. unfold days_before_year, DI400Y. zdiv. Qed.

Lemma ord2ymd_unfold (n : Z) :
  ord2ymd n =
  let n0 := n - 1 in
  let n400 := n0 / DI400Y in
  let r := n0 mod DI400Y in
  let n100 := r / DI100Y in
  let r2 := r mod DI100Y in
  let n4 := r2 / DI4Y in
  let r3 := r2 mod DI4Y in
  let n1 := r3 / 365 in
  let r4 := r3 mod 365 in
  let y := n400 * 400 + 1 + n100 * 100 + n4 * 4 + n1 in
  if (n1 =? 4) || (n100 =? 4) then (y - 1, 12, 31)
  else
    let '(m, d) :=
      month_day r4 ((n1 =? 3) && (negb (n4 =? 24) || (n100 =? 3))) in
    (y, m, d).
Proof.
  unfold ord2ymd, month_day. cbv zeta.
  destruct ((_ =? 4) || (_ =? 4)); [reflexivity|].
  destruct (_ <? _); reflexivity.
Qed.

Lemma days_in_month_table (y m : Z) :
  1 <= m <= 12 ->
  days_in_month y m
  = DAYS_IN_MONTH m + (if (m =? 2) && is_leap y then 1 else 0).
Proof.
  intros Hm. unfold days_in_month, DAYS_IN_MONTH.
  assert (m = 1 \/ m = 2 \/ m = 3 \/ m = 4 \/ m = 5 \/ m = 6 \/ m = 7
          \/ m = 8 \/ m = 9 \/ m = 10 \/ m = 11 \/ m = 12) as Hc by lia.
  repeat (destruct Hc as [-> | Hc]); try subst m; cbn;
    try reflexivity; destruct (is_leap y); reflexivity.
Qed.

(** [ord2ymd] inverts [ymd2ord] and yields dates of the calendar. *)
Lemma ord2ymd_correct (n : Z) :
  let '(y, m, d) := ord2ymd n in
  valid_date y m d /\ ymd2ord y m d = n.
Proof.
  rewrite ord2ymd_unfold. cbv zeta.
  set (n0 := n - 1).
  set (n400 := n0 / DI400Y). set (r := n0 mod DI400Y).
  set (n100 := r / DI100Y). set (r2 := r mod DI100Y).
  set (n4 := r2 / DI4Y). set (r3 := r2 mod DI4Y).
  set (n1 := r3 / 365). set (r4 := r3 mod 365).
  assert (E0 : n0 = n400 * DI400Y + r /\ 0 <= r < DI400Y)
    by (unfold n400, r, DI400Y; zdiv).
  assert (E1 : r = n100 * DI100Y + r2 /\ 0 <= r2 < DI100Y)
    by (unfold n100, r2, DI100Y; zdiv).
  assert (E2 : r2 = n4 * DI4Y + r3 /\ 0 <= r3 < DI4Y)
    by (unfold n4, r3, DI4Y; zdiv).
  assert (E3 : r3 = n1 * 365 + r4 /\ 0 <= r4 < 365)
    by (unfold n1, r4; zdiv).
  clearbody n400 r n100 r2 n4 r3 n1 r4.
  unfold DI400Y, DI100Y, DI4Y in *.
  assert (B100 : 0 <= n100 <= 4) by lia.
  assert (B4 : 0 <= n4 <= 24) by lia.
  assert (B1 : 0 <= n1 <= 4) by lia.
  destruct (Z.eqb_spec n1 4) as [H1 | H1];
    [| destruct (Z.eqb_spec n100 4) as [H100 | H100]]; cbn [orb].
  - (* the last day of a four-year cycle *)
    assert (r4 = 0) by lia. subst n1 r4.
    assert (L : 0 <= n100 <= 3) by lia.
    replace (n400 * 400 + 1 + n100 * 100 + n4 * 4 + 4 - 1)
      with (n400 * 400 + 1 + n100 * 100 + n4 * 4 + 3) by lia.
    unfold valid_date, ymd2ord, days_before_month.
    rewrite days_before_year_cycles by lia.
    rewrite is_leap_cycles by lia.
    unfold days_in_month, DI400Y, DI100Y, DI4Y. cbn.
    destruct (Z.eqb_spec n4 24), (Z.eqb_spec n100 3); cbn; lia.
  - (* the last day of a 400-year cycle *)
    assert (r2 = 0 /\ n4 = 0 /\ r3 = 0 /\ n1 = 0 /\ r4 = 0) by lia.
    destruct H as (-> & -> & -> & -> & ->). subst n100.
    replace (n400 * 400 + 1 + 4 * 100 + 0 * 4 + 0 - 1)
      with ((n400 + 1) * 400) by lia.
    unfold valid_date, ymd2ord, days_before_month.
    rewrite is_leap_400, days_before_year_400.
    unfold days_in_month, DAYS_BEFORE_MONTH, DI400Y.
    change (2 <? 12) with true. cbn [andb]. lia.
  - assert (L100 : 0 <= n100 <= 3) by lia.
    assert (L1 : 0 <= n1 <= 3) by lia.
    set (leapyear := (n1 =? 3) && (negb (n4 =? 24) || (n100 =? 3))).
    assert (Hr4 : 0 <= r4 < 365 + (if leapyear then 1 else 0))
      by (destruct leapyear; lia).
    pose proof (month_day_sound leapyear r4 Hr4) as T.
    unfold month_day_ok in T.
    destruct (month_day r4 leapyear) as [m d].
    repeat rewrite andb_true_iff in T.
    destruct T as ((((T1 & T2) & T3) & T4) & T5).
    apply Z.leb_le in T1, T2, T3, T4. apply Z.eqb_eq in T5.
    unfold valid_date, ymd2ord, days_before_month.
    rewrite days_in_month_table by lia.
    rewrite days_before_year_cycles by lia.
    rewrite is_leap_cycles by lia. fold leapyear.
    unfold DI400Y, DI100Y, DI4Y. lia.
Qed.

Lemma ord2ymd_year_bounds (n : Z) :
  ORD_1000 <= n <= ORD_MAX ->
  let '(y, _, _) := ord2ymd n in 1000 <= y <= 9999.
Proof.
  unfold ORD_1000, ORD_MAX. intros Hn.
  rewrite ord2ymd_unfold. cbv zeta.
  set (n0 := n - 1).
  set (n400 := n0 / DI400Y). set (r := n0 mod DI400Y).
  set (n100 := r / DI100Y). set (r2 := r mod DI100Y).
  set (n4 := r2 / DI4Y). set (r3 := r2 mod DI4Y).
  set (n1 := r3 / 365). set (r4 := r3 mod 365).
  assert (E0 : n0 = n400 * DI400Y + r /\ 0 <= r < DI400Y)
    by (unfold n400, r, DI400Y; zdiv).
  assert (E1 : r = n100 * DI100Y + r2 /\ 0 <= r2 < DI100Y)
    by (unfold n100, r2, DI100Y; zdiv).
  assert (E2 : r2 = n4 * DI4Y + r3 /\ 0 <= r3 < DI4Y)
    by (unfold n4, r3, DI4Y; zdiv).
  assert (E3 : r3 = n1 * 365 + r4 /\ 0 <= r4 < 365)
    by (unfold n1, r4; zdiv).
  assert (E : n0 = n - 1) by reflexivity.
  clearbody n0 n400 r n100 r2 n4 r3 n1 r4.
  unfold DI400Y, DI100Y, DI4Y in *.
  assert (B100 : 0 <= n100 <= 4) by lia.
  assert (B4 : 0 <= n4 <= 24) by lia.
  assert (B1 : 0 <= n1 <= 4) by lia.
  assert (B400 : 2 <= n400 <= 24) by lia.
  destruct ((n1 =? 4) || (n100 =? 4)) eqn:X.
  - apply orb_true_iff in X. rewrite !Z.eqb_eq in X. lia.
  - apply orb_false_iff in X. rewrite !Z.eqb_neq in X.
    destruct (month_day _ _). lia.
Qed.

Lemma of_seconds_fields (local off : Z) (name : string) :
  let dt := of_seconds local off name in
  valid_date (year dt) (month dt) (day dt)
  /\ 0 <= hour dt < 24 /\ 0 <= minute dt < 60 /\ 0 <= second dt < 60
  /\ (ymd2ord (year dt) (month dt) (day dt) - EPOCH_ORD) * 86400
     + hour dt * 3600 + minute dt * 60 + second dt = local
  /\ utcoffset dt = off /\ tzname dt = name.
Proof.
  unfold of_seconds.
  pose proof (ord2ymd_correct (EPOCH_ORD + local / 86400)) as C.
  destruct (ord2ymd (EPOCH_ORD + local / 86400)) as [[y m] d].
  destruct C as [V E]. cbn [year month day hour minute second utcoffset tzname].
  rewrite E. repeat split; try apply V; try zdiv.
Qed.

Lemma of_seconds_year (local off : Z) (name : string) :
  Y1000_TS <= local <= MAX_TS ->
  1000 <= year (of_seconds local off name) <= 9999.
Proof.
  intros H. unfold of_seconds.
  pose proof (ord2ymd_year_bounds (EPOCH_ORD + local / 86400)) as B.
  destruct (ord2ymd (EPOCH_ORD + local / 86400)) as [[y m] d].
  cbn [year]. apply B.
  unfold Y1000_TS, MAX_TS, ORD_1000, ORD_MAX, EPOCH_ORD in *. zdiv.
Qed.

Lemma timestamp_of_seconds (local off : Z) (name : string) :
  timestamp (of_seconds local off name) = local - off.
Proof.
  pose proof (of_seconds_fields local off name) as F. cbv zeta in F.
  destruct F as (_ & _ & _ & _ & E & O & _).
  unfold timestamp. rewrite O. lia.
Qed.

Lemma hour12_range (h : Z) :
  0 <= h < 24 -> 1 <= hour12 h <= 12 /\ (h - hour12 h) mod 12 = 0.
Proof.
  intros Hh. unfold hour12.
  destruct (Z.eqb_spec (h mod 12) 0); zdiv.
Qed.

(** *** The text of [strftime] *)

Lemma month_name_table (m : Z) :
  1 <= m <= 12 ->
  month_name m
  = nth (Z.to_nat (m - 1))
      ["January"; "February"; "March"; "April"; "May"; "June"; "July";
       "August"; "September"; "October"; "November"; "December"] EmptyString.
Proof.
  intros Hm.
  assert (m = 1 \/ m = 2 \/ m = 3 \/ m = 4 \/ m = 5 \/ m = 6 \/ m = 7
          \/ m = 8 \/ m = 9 \/ m = 10 \/ m = 11 \/ m = 12) as Hc by lia.
  repeat (destruct Hc as [-> | Hc]); try subst m; reflexivity.
Qed.

(** A number below ten is written as the character of its digit. *)
Lemma dec_digit (k : Z) :
  0 <= k <= 9 -> dec k = String (ascii_of_nat (48 + Z.to_nat k)) EmptyString.
Proof.
  intros Hk.
  assert (k = 0 \/ k = 1 \/ k = 2 \/ k = 3 \/ k = 4 \/ k = 5 \/ k = 6
          \/ k = 7 \/ k = 8 \/ k = 9) as Hc by lia.
  repeat (destruct Hc as [-> | Hc]); try subst k; reflexivity.
Qed.

Lemma two_digits (n : Z) :
  0 <= n < 100 ->
  two n = String (ascii_of_nat (48 + Z.to_nat (n / 10)))
            (String (ascii_of_nat (48 + Z.to_nat (n mod 10))) EmptyString).
Proof.
  intros Hn. unfold two.
  rewrite !dec_digit by zdiv. reflexivity.
Qed.

Lemma dec_year_table :
  forallb
    (fun k =>
       let y := Z.of_nat k in
       String.eqb (dec y)
         (String (ascii_of_nat (48 + Z.to_nat (y / 1000)))
            (String (ascii_of_nat (48 + Z.to_nat (y / 100 mod 10)))
               (String (ascii_of_nat (48 + Z.to_nat (y / 10 mod 10)))
                  (String (ascii_of_nat (48 + Z.to_nat (y mod 10)))
                     EmptyString)))))
    (seq (10 * 100) (90 * 100)) = true.
Proof. vm_compute. reflexivity. Qed.

(** A year of four digits is written with its four digits. *)
Lemma dec_year (y : Z) :
  1000 <= y <= 9999 ->
  dec y = String (ascii_of_nat (48 + Z.to_nat (y / 1000)))
            (String (ascii_of_nat (48 + Z.to_nat (y / 100 mod 10)))
               (String (ascii_of_nat (48 + Z.to_nat (y / 10 mod 10)))
                  (String (ascii_of_nat (48 + Z.to_nat (y mod 10)))
                     EmptyString))).
Proof.
  intros Hy. pose proof dec_year_table as T.
  rewrite forallb_forall in T.
  specialize (T (Z.to_nat y)).
  cbv zeta in T. rewrite Z2Nat.id in T by lia.
  apply String.eqb_eq, T, in_seq. lia.
Qed.

(** The text of a datetime whose fields are in range, character by
    character. *)
Lemma strftime_text (dt : datetime) :
  1 <= month dt <= 12 -> 1 <= day dt <= 31 -> 1000 <= year dt <= 9999 ->
  0 <= hour dt < 24 -> 0 <= minute dt < 60 ->
  let digit :=
    fun n : Z => String (ascii_of_nat (48 + Z.to_nat n)) EmptyString in
  let h12 := if hour dt mod 12 =? 0 then 12 else hour dt mod 12 in
  strftime dt
  = nth (Z.to_nat (month dt - 1))
      ["January"; "February"; "March"; "April"; "May"; "June"; "July";
       "August"; "September"; "October"; "November"; "December"] EmptyString
    ++ " " ++ digit (day dt / 10) ++ digit (day dt mod 10) ++ ", "
    ++ digit (year dt / 1000) ++ digit (year dt / 100 mod 10)
    ++ digit (year dt / 10 mod 10) ++ digit (year dt mod 10) ++ " "
    ++ digit (h12 / 10) ++ digit (h12 mod 10) ++ ":"
    ++ digit (minute dt / 10) ++ digit (minute dt mod 10) ++ " "
    ++ (if hour dt <? 12 then "AM" else "PM") ++ " " ++ tzname dt.
Proof.
  intros Hm Hd Hy Hh Hmi. cbv zeta. unfold strftime.
  pose proof (hour12_range (hour dt) Hh) as [H12 _].
  rewrite month_name_table by assumption.
  rewrite (two_digits (day dt)) by lia.
  rewrite (two_digits (hour12 (hour dt))) by lia.
  rewrite (two_digits (minute dt)) by lia.
  rewrite dec_year by assumption.
  unfold hour12, am_pm. reflexivity.
Qed.

Lemma days_in_month_le (y m : Z) : days_in_month y m <= 31.
Proof.
  unfold days_in_month.
  destruct m as [|p|p]; try lia.
  repeat (destruct p as [p|p|]; try lia); destruct (is_leap y); lia.
Qed.

End DatetimeFacts.

(** ** The normaliser *)

Module NormalizerFacts.
Import Py Eff Datetime DatetimeFacts PriceService Trace PriceNormalizer.

(** C9.  The time of a record is the wall clock of the publish instant in
    the America/New_York zone, written as the English name of the month, the
    day in two digits, a comma, the year in four digits, the hour of the
    12-hour clock in two digits, a colon, the minute in two digits, AM
    before noon and PM from noon on, and the zone's abbreviation, single
    spaces between.  For a publish time [t] (Unix seconds, within the range
    of [datetime]) the zone gives the offset and the abbreviation in force
    at [t]; the date [y]-[mo]-[d] and the time [H]:[Mi]:[S] shown are those
    of the calendar that lie [t] plus the offset seconds after
    1970-01-01T00:00:00, for local years of four digits.  The hour shown is
    12 for the hours 0 and 12 and the hour modulo 12 otherwise. *)
Theorem display_time_eastern (env : Env) (price p : pyval) (t : Z) :
  getitem price "price" = Ok p ->
  getitem p "publish_time" = Ok (VInt t) ->
  MIN_TS <= t <= MAX_TS ->
  Y1000_TS <= t + fst (ny_zone env t) <= MAX_TS ->
  exists y mo d H Mi S : Z,
    valid_date y mo d /\ 1000 <= y <= 9999
    /\ 0 <= H < 24 /\ 0 <= Mi < 60 /\ 0 <= S < 60
    /\ (ymd2ord y mo d - EPOCH_ORD) * 86400 + H * 3600 + Mi * 60 + S
       = t + fst (ny_zone env t)
    /\ let digit :=
         fun n : Z => String (ascii_of_nat (48 + Z.to_nat n)) EmptyString in
       let h12 := if H mod 12 =? 0 then 12 else H mod 12 in
       let text :=
         nth (Z.to_nat (mo - 1))
           ["January"; "February"; "March"; "April"; "May"; "June"; "July";
            "August"; "September"; "October"; "November"; "December"]
           EmptyString
         ++ " " ++ digit (d / 10) ++ digit (d mod 10) ++ ", "
         ++ digit (y / 1000) ++ digit (y / 100 mod 10)
         ++ digit (y / 10 mod 10) ++ digit (y mod 10) ++ " "
         ++ digit (h12 / 10) ++ digit (h12 mod 10) ++ ":"
         ++ digit (Mi / 10) ++ digit (Mi mod 10) ++ " "
         ++ (if H <? 12 then "AM" else "PM") ++ " "
         ++ snd (ny_zone env t) in
       display_time env price = Ok text
       /\ forall feeds r,
            price_data env feeds price = Ok r -> PriceData.time r = text.
Proof.
  intros Hp Ht Rt Rl.
  pose proof (of_seconds_fields (t + fst (ny_zone env t))
                (fst (ny_zone env t)) (snd (ny_zone env t))) as F.
  cbv zeta in F.
  set (dt := of_seconds (t + fst (ny_zone env t)) (fst (ny_zone env t))
               (snd (ny_zone env t))) in *.
  destruct F as (V & FH & FM & FS & E & _ & N).
  pose proof (of_seconds_year (t + fst (ny_zone env t))
                (fst (ny_zone env t)) (snd (ny_zone env t)) Rl) as Y.
  fold dt in Y.
  assert (Rl' : MIN_TS <= t + fst (ny_zone env t) <= MAX_TS).
  { unfold Y1000_TS, ORD_1000, MIN_TS, EPOCH_ORD in *. lia. }
  assert (D : display_time env price = Ok (strftime dt)).
  { unfold display_time. rewrite Hp. cbn [Py.bind]. rewrite Ht. cbn [Py.bind].
    unfold fromtimestamp_utc.
    assert (B : (t <? - 2 ^ 63) || (2 ^ 63 <=? t) = false).
    { unfold MIN_TS, MAX_TS, EPOCH_ORD in Rt.
      apply orb_false_iff; split; [apply Z.ltb_ge | apply Z.leb_gt]; lia. }
    rewrite B.
    assert (B' : (t <? MIN_TS) || (MAX_TS <? t) = false).
    { apply orb_false_iff; split; apply Z.ltb_ge; lia. }
    rewrite B'. cbn [Py.bind]. unfold astimezone.
    rewrite timestamp_of_seconds, Z.sub_0_r.
    destruct (ny_zone env t) as [off name] eqn:Z0. cbn [fst snd] in *.
    assert (B'' : (t + off <? MIN_TS) || (MAX_TS <? t + off) = false).
    { apply orb_false_iff; split; apply Z.ltb_ge; lia. }
    rewrite B''. reflexivity. }
  exists (year dt), (month dt), (day dt), (hour dt), (minute dt), (second dt).
  assert (V' : 1 <= month dt <= 12 /\ 1 <= day dt <= 31).
  { destruct V as [Vm Vd].
    pose proof (days_in_month_le (year dt) (month dt)). lia. }
  pose proof (strftime_text dt (proj1 V') (proj2 V') Y FH FM) as S.
  cbv zeta in S. rewrite N in S.
  repeat (split; [assumption|]).
  cbv zeta.
  split; [rewrite D, S; reflexivity|].
  intros feeds r Hr. unfold price_data in Hr.
  destruct (getitem price "id"); [cbn [Py.bind] in Hr | discriminate].
  destruct (scaled env price "price"); [cbn [Py.bind] in Hr | discriminate].
  destruct (scaled env price "conf"); [cbn [Py.bind] in Hr | discriminate].
  destruct (next_description feeds price); [cbn [Py.bind] in Hr | discriminate].
  rewrite D in Hr. cbn [Py.bind Py.ret] in Hr.
  injection Hr as <-. cbn [PriceData.time]. exact S.
Qed.

(** A morning instant: 13:00 UTC on March 3rd, 2024 is 8 o'clock in New
    York. *)
Lemma display_time_eastern_witness :
  (exists y mo d H Mi S : Z,
     valid_date y mo d /\ 1000 <= y <= 9999
     /\ 0 <= H < 24 /\ 0 <= Mi < 60 /\ 0 <= S < 60
     /\ (ymd2ord y mo d - EPOCH_ORD) * 86400 + H * 3600 + Mi * 60 + S
        = 1709470800 + fst (ny_zone Example.env0 1709470800)
     /\ let digit :=
          fun n : Z => String (ascii_of_nat (48 + Z.to_nat n)) EmptyString in
        let h12 := if H mod 12 =? 0 then 12 else H mod 12 in
        let text :=
          nth (Z.to_nat (mo - 1))
            ["January"; "February"; "March"; "April"; "May"; "June"; "July";
             "August"; "September"; "October"; "November"; "December"]
            EmptyString
          ++ " " ++ digit (d / 10) ++ digit (d mod 10) ++ ", "
          ++ digit (y / 1000) ++ digit (y / 100 mod 10)
          ++ digit (y / 10 mod 10) ++ digit (y mod 10) ++ " "
          ++ digit (h12 / 10) ++ digit (h12 mod 10) ++ ":"
          ++ digit (Mi / 10) ++ digit (Mi mod 10) ++ " "
          ++ (if H <? 12 then "AM" else "PM") ++ " "
          ++ snd (ny_zone Example.env0 1709470800) in
        display_time Example.env0
          (Example.raw "e62d" "6512345000000" "2100000000" (-8) 1709470800)
        = Ok text
        /\ forall feeds r,
             price_data Example.env0 feeds
               (Example.raw "e62d" "6512345000000" "2100000000" (-8)
                  1709470800) = Ok r ->
             PriceData.time r = text)
  /\ display_time Example.env0
       (Example.raw "e62d" "6512345000000" "2100000000" (-8) 1709470800)
     = Ok "March 03, 2024 08:00 AM EST".
Proof.
  split.
  - apply (display_time_eastern Example.env0
             (Example.raw "e62d" "6512345000000" "2100000000" (-8) 1709470800)
             (Example.obj [("price", VStr "6512345000000");
                           ("conf", VStr "2100000000");
                           ("expo", VInt (-8));
                           ("publish_time", VInt 1709470800)])
             1709470800).
    + reflexivity.
    + reflexivity.
    + vm_compute. split; discriminate.
    + vm_compute. split; discriminate.
  - vm_compute. reflexivity.
Defined.

(** Midnight and noon are hour 12, the first AM, the second PM; the hours
    before noon are AM, single digits are padded with a zero. *)
Example display_time_midnight :
  display_time Example.env0 (Example.raw "e62d" "1" "1" 0 1709442000)
  = Ok "March 03, 2024 12:00 AM EST".
Proof. vm_compute. reflexivity. Qed.

Example display_time_noon :
  display_time Example.env0 (Example.raw "e62d" "1" "1" 0 1709485200)
  = Ok "March 03, 2024 12:00 PM EST".
Proof. vm_compute. reflexivity. Qed.

Example display_time_morning :
  display_time Example.env0 (Example.raw "e62d" "1" "1" 0 1709474705)
  = Ok "March 03, 2024 09:05 AM EST".
Proof. vm_compute. reflexivity. Qed.

Example display_time_last_minute :
  display_time Example.env0 (Example.raw "e62d" "1" "1" 0 1735016399)
  = Ok "December 23, 2024 11:59 PM EST".
Proof. vm_compute. reflexivity. Qed.

(** The example of the specification, under the rule in force since 2007. *)
Example display_time_march_2024 :
  display_time Example.env0 Example.march_point
  = Ok "March 03, 2024 02:15 PM EST".
Proof. vm_compute. reflexivity. Qed.

(** In summer the same wall clock is daylight time. *)
Example display_time_july_2024 :
  display_time Example.env0 (Example.raw "e62d" "1" "1" 0 1720030500)
  = Ok "July 03, 2024 02:15 PM EDT".
Proof. vm_compute. reflexivity. Qed.

(** The raw point of the specification's test, with float parsing and
    powers of ten rounded correctly: the price is the binary64 number
    nearest to 123.45, the confidence the one nearest to 0.67. *)
Example price_data_test_asset :
  price_data Example.env0
    [PriceFeed.mk (VStr "X") (VStr "Test Asset")] Example.test_asset
  = Ok (PriceData.mk (VStr "X")
          (S754_finite false 8687021468732621 (-46))
          (S754_finite false 6034823500676465 (-53))
          (VStr "Test Asset") "November 14, 2023 05:13 PM EST").
Proof. vm_compute. reflexivity. Qed.

(** *** The description lookup *)

Lemma next_description_find (feeds : list PriceFeed.t) (price i : pyval) :
  getitem price "id" = Ok i ->
  next_description feeds price
  = match find (fun f => py_eq (PriceFeed.id f) i) feeds with
    | Some f => Ok (PriceFeed.description f)
    | None => Raise stop_iteration
    end.
Proof.
  intros Hi. induction feeds as [| f feeds IH]; [reflexivity|].
  cbn [next_description find]. rewrite Hi. cbn [Py.bind].
  destruct (py_eq (PriceFeed.id f) i); [reflexivity | exact IH].
Qed.

Lemma orphan_find (feeds : list PriceFeed.t) (price i : pyval) :
  getitem price "id" = Ok i ->
  orphan feeds price = true ->
  find (fun f => py_eq (PriceFeed.id f) i) feeds = None.
Proof.
  intros Hi. unfold orphan. rewrite Hi. intros Ho.
  induction feeds as [| f feeds IH]; [reflexivity|].
  cbn in Ho |- *. apply andb_true_iff in Ho as [H1 H2].
  destruct (py_eq (PriceFeed.id f) i); [discriminate | auto].
Qed.

Lemma price_data_orphan (env : Env) (feeds : list PriceFeed.t) (p : pyval) :
  orphan feeds p = true ->
  (exists e, price_data env feeds p = Raise e)
  /\ (convertible env p = true -> price_data env feeds p = Raise stop_iteration).
Proof.
  intros Ho. unfold price_data, convertible.
  destruct (getitem p "id") as [i |] eqn:Hi;
    [| unfold orphan in Ho; rewrite Hi in Ho; discriminate].
  cbn [Py.bind is_ok andb].
  rewrite (next_description_find feeds p i Hi), (orphan_find feeds p i Hi Ho).
  destruct (scaled env p "price"); cbn [Py.bind is_ok andb];
    [| split; [eauto | discriminate]].
  destruct (scaled env p "conf"); cbn [Py.bind is_ok andb];
    [| split; [eauto | discriminate]].
  split; [eauto | reflexivity].
Qed.

Lemma price_data_convertible (env : Env) (feeds : list PriceFeed.t)
    (p : pyval) :
  convertible env p = true ->
  (exists r, price_data env feeds p = Ok r)
  \/ price_data env feeds p = Raise stop_iteration.
Proof.
  unfold convertible, price_data. intros Hc.
  destruct (getitem p "id") as [i |] eqn:Hi; [| discriminate].
  rewrite (next_description_find feeds p i Hi).
  destruct (scaled env p "price"); [| discriminate].
  destruct (scaled env p "conf"); [| discriminate].
  destruct (display_time env p); [| cbn in Hc; discriminate].
  cbn [Py.bind].
  destruct (find _ feeds); cbn [Py.bind Py.ret]; eauto.
Qed.

(** C3.  When the id of some raw point equals the id of no feed of the
    supplied list, the whole normalisation raises and returns no record;
    the exception is the [StopIteration] of the failed lookup whenever the
    points are well formed (each has an id, scalable mantissas and a
    publish time that is a date). *)
Theorem normalize_unknown_feed (env : Env) (feeds : list PriceFeed.t)
    (prices : list pyval) :
  existsb (orphan feeds) prices = true ->
  (exists e, normalize env feeds prices = Raise e)
  /\ (forallb (convertible env) prices = true ->
      normalize env feeds prices = Raise stop_iteration).
Proof.
  unfold normalize.
  induction prices as [| p prices IH]; [discriminate|].
  cbn [existsb forallb Comprehension.mapM]. intros Ho.
  destruct (orphan feeds p) eqn:Hp.
  - destruct (price_data_orphan env feeds p Hp) as [[e He] Hs]. split.
    + exists e. rewrite He. reflexivity.
    + intros Hc. apply andb_true_iff in Hc as [Hc _].
      rewrite (Hs Hc). reflexivity.
  - cbn [orb] in Ho. destruct (IH Ho) as [[e He] Hs]. split.
    + destruct (price_data env feeds p) as [r | e'];
        cbn [Py.bind]; [rewrite He; cbn [Py.bind]|]; eauto.
    + intros Hc. apply andb_true_iff in Hc as [Hc Hcs].
      destruct (price_data_convertible env feeds p Hc) as [[r Hr] | Hr];
        rewrite Hr; cbn [Py.bind]; [rewrite (Hs Hcs)|]; reflexivity.
Qed.

Lemma normalize_unknown_feed_witness :
  normalize Example.env0
    [PriceFeed.mk (VStr "e62d") (VStr "BITCOIN / US DOLLAR")]
    [Example.march_point; Example.raw "ffff" "1" "1" 0 1709493300]
  = Raise stop_iteration.
Proof.
  destruct (normalize_unknown_feed Example.env0
              [PriceFeed.mk (VStr "e62d") (VStr "BITCOIN / US DOLLAR")]
              [Example.march_point; Example.raw "ffff" "1" "1" 0 1709493300])
    as [_ H].
  - vm_compute. reflexivity.
  - apply H. vm_compute. reflexivity.
Defined.

(** C10.  The description of a record is that of the first feed, in the
    order of the resolved list, whose id equals the id of the raw point:
    the feeds after it, duplicates of its id included, are not looked at and
    raise nothing.  Every record made from the point carries that
    description, and when the point converts the record is made: its id is
    that of the point and its description that of the first match. *)
Theorem next_description_first_match (env : Env)
    (pre post : list PriceFeed.t) (f : PriceFeed.t) (price i : pyval) :
  getitem price "id" = Ok i ->
  forallb (fun g => negb (py_eq (PriceFeed.id g) i)) pre = true ->
  py_eq (PriceFeed.id f) i = true ->
  next_description (pre ++ f :: post) price = Ok (PriceFeed.description f)
  /\ price_data env (pre ++ f :: post) price = price_data env [f] price
  /\ (forall r,
        price_data env (pre ++ f :: post) price = Ok r ->
        PriceData.description r = PriceFeed.description f)
  /\ (forall pr conf tm,
        scaled env price "price" = Ok pr ->
        scaled env price "conf" = Ok conf ->
        display_time env price = Ok tm ->
        price_data env (pre ++ f :: post) price
        = Ok (PriceData.mk i pr conf (PriceFeed.description f) tm)).
Proof.
  intros Hi Hpre Hf.
  assert (N : next_description (pre ++ f :: post) price
              = Ok (PriceFeed.description f)).
  { rewrite (next_description_find _ price i Hi).
    induction pre as [| g pre IH]; cbn [app find].
    - rewrite Hf. reflexivity.
    - cbn [forallb] in Hpre. apply andb_true_iff in Hpre as [Hg Hpre].
      apply negb_true_iff in Hg. rewrite Hg. exact (IH Hpre). }
  split; [exact N|]. split; [| split].
  - unfold price_data. rewrite N.
    rewrite (next_description_find [f] price i Hi). cbn [find]. rewrite Hf.
    reflexivity.
  - intros r. unfold price_data. rewrite Hi, N. cbn [Py.bind].
    destruct (scaled env price "price"); [| discriminate]. cbn [Py.bind].
    destruct (scaled env price "conf"); [| discriminate]. cbn [Py.bind].
    destruct (display_time env price); [| discriminate].
    cbn [Py.bind Py.ret]. intros H. injection H as <-. reflexivity.
  - intros pr conf tm Hp Hc Ht. unfold price_data.
    rewrite Hi, N, Hp, Hc, Ht. reflexivity.
Qed.

Lemma next_description_first_match_witness :
  price_data Example.env0
    [PriceFeed.mk (VStr "ff61") (VStr "ETHEREUM / US DOLLAR");
     PriceFeed.mk (VStr "e62d") (VStr "BITCOIN / US DOLLAR");
     PriceFeed.mk (VStr "e62d") (VStr "BITCOIN / TETHER")]
    Example.march_point
  = Ok (PriceData.mk (VStr "e62d")
          (S754_finite false 8950498814486119 (-37))
          (S754_finite false 5910974510923776 (-48))
          (VStr "BITCOIN / US DOLLAR") "March 03, 2024 02:15 PM EST").
Proof.
  apply (next_description_first_match Example.env0
           [PriceFeed.mk (VStr "ff61") (VStr "ETHEREUM / US DOLLAR")]
           [PriceFeed.mk (VStr "e62d") (VStr "BITCOIN / TETHER")]
           (PriceFeed.mk (VStr "e62d") (VStr "BITCOIN / US DOLLAR"))
           Example.march_point (VStr "e62d"));
    vm_compute; reflexivity.
Defined.

End NormalizerFacts.

(** ** The resolver *)

Module ResolverFacts.
Import Py Eff PriceService FeedCatalog TickerResolver.

(** *** The catalog as the specification reads it *)

Lemma py_eq_str (v : pyval) (s : string) :
  py_eq v (VStr s) = match v with VStr b => String.eqb b s | _ => false end.
Proof. destruct v; reflexivity. Qed.

Lemma base_is_has_symbol (item : pyval) (symbol : string) :
  well_formed item = true ->
  base_is item (VStr symbol) = Ok (has_symbol symbol item).
Proof.
  unfold well_formed, base_is, has_symbol, base_symbol.
  destruct item as [| | | | | d]; try discriminate.
  cbn [getitem].
  destruct (dict_get d "id"); [| discriminate].
  destruct (dict_get d "attributes") as [[| | | | | a] |]; try discriminate.
  intros _. cbn [Py.bind contains getitem].
  destruct (dict_get a "base") as [b |]; cbn [Py.bind Py.ret]; [| reflexivity].
  rewrite py_eq_str. reflexivity.
Qed.

Lemma feed_of_descriptor (item : pyval) :
  well_formed item = true -> feed_of item = Ok (descriptor item).
Proof.
  unfold well_formed, feed_of, descriptor, field.
  destruct item as [| | | | | d]; try discriminate.
  cbn [getitem fold_left].
  destruct (dict_get d "id"); [| discriminate].
  destruct (dict_get d "attributes") as [[| | | | | a] |]; try discriminate.
  cbn [Py.bind getitem].
  destruct (dict_get a "description"); [| discriminate].
  reflexivity.
Qed.

Lemma feeds_for_findBySymbol (catalog : list pyval) (symbol : string) :
  forallb well_formed catalog = true ->
  feeds_for (VStr symbol) catalog = Ok (findBySymbol catalog symbol).
Proof.
  unfold findBySymbol.
  induction catalog as [| item catalog IH]; [reflexivity|].
  cbn [forallb feeds_for filter]. intros H.
  apply andb_true_iff in H as [Hw Hc].
  rewrite (base_is_has_symbol item symbol Hw). cbn [Py.bind].
  destruct (has_symbol symbol item).
  - rewrite (feed_of_descriptor item Hw). cbn [Py.bind].
    rewrite (IH Hc). reflexivity.
  - exact (IH Hc).
Qed.

Lemma extend_all_resolve (self : t) (catalog : list pyval)
    (tickers : list string) (acc : list PriceFeed.t) :
  price_feeds self = VList catalog ->
  forallb well_formed catalog = true ->
  extend_all self (map VStr tickers) acc
  = Ok (acc ++ resolve catalog tickers)%list.
Proof.
  intros Hs Hc. revert acc.
  induction tickers as [| ticker tickers IH]; intros acc.
  - cbn. rewrite app_nil_r. reflexivity.
  - cbn [map extend_all]. rewrite Hs. cbn [iter Py.bind].
    rewrite (feeds_for_findBySymbol catalog ticker Hc). cbn [Py.bind].
    rewrite IH. unfold resolve. cbn [flat_map]. rewrite app_assoc.
    reflexivity.
Qed.

(** C5.  On a catalog whose entries expose an id and a description,
    resolution returns, ticker after ticker in the order of the input, the
    descriptors of all entries whose base symbol is the very string of the
    ticker, in the order of the catalog, duplicates kept; entries without a
    base symbol match no ticker. *)
Theorem process_tickers_resolve (client : HermesClient.t)
    (catalog : list pyval) (tickers : list string) :
  forallb well_formed catalog = true ->
  process_tickers (mk client (VList catalog)) (VList (map VStr tickers))
  = Ok (resolve catalog tickers)
  /\ (forall symbol item,
        base_symbol item = None -> has_symbol symbol item = false)
  /\ (forall symbol item b,
        base_symbol item = Some (VStr b) ->
        (has_symbol symbol item = true <-> b = symbol)).
Proof.
  intros Hc. split; [| split].
  - unfold process_tickers.
    destruct tickers as [| ticker tickers]; [reflexivity|].
    cbn [map truthy negb iter Py.bind].
    exact (extend_all_resolve (mk client (VList catalog)) catalog
             (ticker :: tickers) [] eq_refl Hc).
  - intros symbol item H. unfold has_symbol. rewrite H. reflexivity.
  - intros symbol item b H. unfold has_symbol. rewrite H.
    apply String.eqb_eq.
Qed.

Lemma process_tickers_resolve_witness :
  process_tickers Example.service (VList [VStr "BTC"; VStr "ETH"; VStr "btc"])
  = Ok [PriceFeed.mk (VStr "e62d") (VStr "BITCOIN / US DOLLAR");
        PriceFeed.mk (VStr "c96b") (VStr "BITCOIN / TETHER");
        PriceFeed.mk (VStr "ff61") (VStr "ETHEREUM / US DOLLAR")].
Proof.
  exact (proj1 (process_tickers_resolve
                  (HermesClient.mk "https://hermes.example")
                  Example.catalog_items ["BTC"; "ETH"; "btc"] eq_refl)).
Defined.

End ResolverFacts.

(** ** The Hermes client and the fetch path *)

Module FetchFacts.
Import Py Eff HermesClient PriceService Trace FeedCatalog.

Lemma latest_prices_except_sent (feed_ids : list pyval)
    (o : option response) (e : exn) (s : state) :
  st_sent (snd (latest_prices_except feed_ids o e s)) = st_sent s.
Proof.
  unfold latest_prices_except.
  destruct (is_Timeout _); [reflexivity|].
  destruct (is_ConnectionError _); [reflexivity|].
  destruct (is_HTTPError _); [destruct o; reflexivity|].
  destruct (is_ValueError _); [reflexivity|].
  destruct (is_Exception _); reflexivity.
Qed.

Lemma checked_data_state (r : response) (s : state) :
  snd (checked_data r s) = s.
Proof.
  unfold checked_data, raise_for_status, json, Eff.bind, Eff.raise, Eff.ret,
    Eff.lift.
  destruct ((400 <=? _) && (_ <? 500)); [reflexivity|].
  destruct ((500 <=? _) && (_ <? 600)); [reflexivity|].
  destruct (body r) as [v |]; [| reflexivity].
  destruct (negb (is_dict v)); [reflexivity|].
  destruct (contains v "parsed") as [[|] |]; reflexivity.
Qed.

(** Whatever the service answers, one request is sent, with a timeout of
    30 seconds. *)
Lemma get_latest_prices_sent (env : Env) (self : HermesClient.t)
    (feed_ids : list pyval) (s : state) :
  st_sent (snd (get_latest_prices env self feed_ids s))
  = (st_sent s ++ [latest_request self feed_ids])%list.
Proof.
  unfold get_latest_prices. fold (latest_request self feed_ids).
  set (req := latest_request self feed_ids).
  unfold try_binding, session_get, Eff.bind, send.
  destruct (http_get env (st_sent s) req) as [e | status b].
  - cbn [Eff.raise]. rewrite latest_prices_except_sent. reflexivity.
  - cbn [Eff.ret].
    pose proof (checked_data_state (mkResponse status b)
                  (mkState (st_log s) (st_sent s ++ [req]))) as K.
    destruct (checked_data _ _) as [[d | e] s2]; cbn [snd] in K |- *.
    + subst s2. reflexivity.
    + rewrite latest_prices_except_sent. subst s2. reflexivity.
Qed.

Lemma get_latest_prices_raise_timeout (env : Env) (self : HermesClient.t)
    (feed_ids : list pyval) (e : exn) (s : state) :
  http_get env (st_sent s) (latest_request self feed_ids) = NetRaise e ->
  is_Timeout (exn_cls e) = true ->
  get_latest_prices env self feed_ids s
  = (Raise e,
     logged s [timed_out_entry feed_ids] [latest_request self feed_ids]).
Proof.
  intros Hnet Ht.
  unfold get_latest_prices. fold (latest_request self feed_ids).
  unfold try_binding, session_get, Eff.bind, send. rewrite Hnet.
  cbn [Eff.raise]. unfold latest_prices_except. rewrite Ht.
  reflexivity.
Qed.

Lemma is_Timeout_RequestException (c : exn_class) :
  is_Timeout c = true -> is_RequestException c = true.
Proof. destruct c; cbn; congruence. Qed.

(** C6.  The request for the latest prices carries a timeout of 30 seconds
    and is the only request of the call, whatever comes back.  When it times
    out, [get_latest_prices] logs the fact and raises the [Timeout] it got:
    nothing is returned and no second request is sent; [fetch_prices] logs
    once more and raises the same exception. *)
Theorem get_latest_prices_timeout (env : Env) (self : HermesClient.t)
    (feed_ids : list pyval) (e : exn) (s : state) :
  http_get env (st_sent s) (latest_request self feed_ids) = NetRaise e ->
  is_Timeout (exn_cls e) = true ->
  req_timeout (latest_request self feed_ids) = Some 30
  /\ (forall env' s',
        st_sent (snd (get_latest_prices env' self feed_ids s'))
        = (st_sent s' ++ [latest_request self feed_ids])%list)
  /\ get_latest_prices env self feed_ids s
     = (Raise e,
        logged s [timed_out_entry feed_ids] [latest_request self feed_ids])
  /\ (forall svc tickers f fs,
        hermes_client svc = self ->
        process_tickers svc tickers = Ok (f :: fs) ->
        map PriceFeed.id (f :: fs) = feed_ids ->
        fetch_prices env svc tickers s
        = (Raise e,
           logged s
             [timed_out_entry feed_ids;
              mkLog ERROR "Error fetching prices: {}" [AExn e]]
             [latest_request self feed_ids])).
Proof.
  intros Hnet Ht.
  split; [reflexivity|].
  split; [intros env' s'; apply get_latest_prices_sent|].
  split; [exact (get_latest_prices_raise_timeout env self feed_ids e s Hnet Ht)|].
  intros svc tickers f fs Hc Hp Hids.
  unfold fetch_prices, try_except, Eff.bind, Eff.lift. rewrite Hp.
  rewrite Hc, Hids.
  rewrite (get_latest_prices_raise_timeout env self feed_ids e s Hnet Ht).
  rewrite (is_Timeout_RequestException _ Ht).
  unfold logger, Eff.raise, logged. cbn [st_log st_sent].
  rewrite <- app_assoc. reflexivity.
Qed.

Lemma get_latest_prices_timeout_witness :
  fetch_prices
    (Example.world
       (fun _ _ => NetRaise (mkExn ReadTimeout "Read timed out."))
       Example.silent Example.no_eval)
    Example.service (VList [VStr "ETH"]) init_state
  = (Raise (mkExn ReadTimeout "Read timed out."),
     mkState
       [timed_out_entry [VStr "ff61"];
        mkLog ERROR "Error fetching prices: {}"
          [AExn (mkExn ReadTimeout "Read timed out.")]]
       [mkRequest "https://hermes.example/v2/updates/price/latest"
          [("ids[]", VStr "ff61")] (Some 30)]).
Proof.
  refine (proj2 (proj2 (proj2
    (get_latest_prices_timeout
       (Example.world
          (fun _ _ => NetRaise (mkExn ReadTimeout "Read timed out."))
          Example.silent Example.no_eval)
       (HermesClient.mk "https://hermes.example") [VStr "ff61"]
       (mkExn ReadTimeout "Read timed out.") init_state _ _)))
    Example.service (VList [VStr "ETH"])
    (PriceFeed.mk (VStr "ff61") (VStr "ETHEREUM / US DOLLAR")) [] _ _ _);
    reflexivity.
Defined.

Lemma fetch_prices_empty (env : Env) (svc : PriceService.t)
    (tickers : pyval) (s : state) :
  process_tickers svc tickers = Ok [] ->
  fetch_prices env svc tickers s
  = (Ok [],
     mkState
       (st_log s ++ [mkLog WARNING "No price feeds found for tickers: {}"
                       [AVal tickers]])
       (st_sent s)).
Proof.
  intros Hp. unfold fetch_prices, try_except, Eff.bind, Eff.lift. rewrite Hp.
  reflexivity.
Qed.

(** C8.  Resolving no ticker gives no feed, and whenever resolution gives
    no feed [fetch_prices] returns the empty list: it raises nothing, logs
    one warning and sends no request. *)
Theorem fetch_prices_no_feeds (env : Env) (svc : PriceService.t)
    (tickers : pyval) (s : state) :
  process_tickers svc tickers = Ok [] ->
  process_tickers svc (VList []) = Ok []
  /\ fetch_prices env svc (VList []) s
     = (Ok [],
        mkState
          (st_log s ++ [mkLog WARNING "No price feeds found for tickers: {}"
                          [AVal (VList [])]])
          (st_sent s))
  /\ fetch_prices env svc tickers s
     = (Ok [],
        mkState
          (st_log s ++ [mkLog WARNING "No price feeds found for tickers: {}"
                          [AVal tickers]])
          (st_sent s)).
Proof.
  intros Hp. split; [reflexivity|]. split.
  - reflexivity.
  - exact (fetch_prices_empty env svc tickers s Hp).
Qed.

(** Under the configured level the warning is a call that writes
    nothing. *)
Remark fetch_prices_no_feeds_written (env : Env) (svc : PriceService.t)
    (tickers : pyval) (s : state) :
  process_tickers svc tickers = Ok [] ->
  written (snd (fetch_prices env svc tickers s)) = written s.
Proof.
  intros Hp. rewrite (fetch_prices_empty env svc tickers s Hp).
  unfold written. cbn [snd st_log]. rewrite filter_app. cbn.
  apply app_nil_r.
Qed.

Lemma fetch_prices_no_feeds_witness :
  fetch_prices Example.env0 Example.service (VList [VStr "DOGE"]) init_state
  = (Ok [],
     mkState
       [mkLog WARNING "No price feeds found for tickers: {}"
          [AVal (VList [VStr "DOGE"])]]
       []).
Proof.
  apply (fetch_prices_no_feeds Example.env0 Example.service
           (VList [VStr "DOGE"]) init_state).
  reflexivity.
Defined.

(** *** Loading the catalog *)

(** C4, as stated, fails: a catalog with an entry that has neither id nor
    description is loaded without an error. *)
Lemma init_accepts_bare_entry :
  lacks_required_field Example.bare_entry = true
  /\ init Example.bare_world "https://hermes.example" init_state
     = (Ok (PriceService.mk (HermesClient.mk "https://hermes.example")
              (VList [Example.bare_entry])),
        mkState [] [feeds_request "https://hermes.example"]).
Proof. split; reflexivity. Qed.

End FetchFacts.

(** ** The conversation handler *)

Module HandlerFacts.
Import Py Eff HermesClient PriceService Trace IntentClassifier Raises.

(** *** What the pipeline can raise

    Every exception the resolve / fetch / normalise chain raises on its own
    is an [Exception]; so is what it re-raises, when the HTTP session raises
    nothing else. *)

Create HintDb exc.

Lemma exc_ok {A} (a : A) : raises_Exception (Ok a).
Proof. intros e H. discriminate. Qed.

Lemma exc_ret {A} (a : A) : raises_Exception (Py.ret a).
Proof. intros e H. discriminate. Qed.

Lemma exc_raise {A} (e : exn) :
  is_Exception (exn_cls e) = true -> raises_Exception (@Raise A e).
Proof. intros H e' E. injection E as <-. exact H. Qed.

Lemma exc_bind {A B} (r : result A) (k : A -> result B) :
  raises_Exception r -> (forall a, raises_Exception (k a)) ->
  raises_Exception (Py.bind r k).
Proof.
  intros Hr Hk e. destruct r as [a | e']; cbn [Py.bind].
  - apply Hk.
  - intros E. injection E as <-. apply Hr. reflexivity.
Qed.

Lemma exc_if {A} (b : bool) (x y : result A) :
  raises_Exception x -> raises_Exception y ->
  raises_Exception (if b then x else y).
Proof. destruct b; auto. Qed.

#[local] Hint Resolve exc_ok exc_ret exc_if : exc.
#[local] Hint Extern 1 (raises_Exception (Raise _)) =>
  apply exc_raise; reflexivity : exc.
#[local] Hint Extern 2 (raises_Exception (Py.bind _ _)) =>
  apply exc_bind; [| intros ?] : exc.

Lemma exc_getitem (v : pyval) (k : string) : raises_Exception (getitem v k).
Proof.
  destruct v; cbn [getitem]; auto with exc.
  destruct (dict_get d k); auto with exc.
Qed.

Lemma exc_contains (v : pyval) (k : string) : raises_Exception (contains v k).
Proof. destruct v; cbn [contains]; auto with exc. Qed.

Lemma exc_iter (v : pyval) : raises_Exception (iter v).
Proof. destruct v; cbn [iter]; auto with exc. Qed.

Lemma exc_float (env : Env) (v : pyval) : raises_Exception (float env v).
Proof.
  unfold float. destruct v; auto with exc.
  - destruct (binary_normalize _ _ _ _ _); auto with exc.
  - destruct (binary_normalize _ _ _ _ _); auto with exc.
  - destruct (strtod env s); auto with exc.
Qed.

Lemma exc_pow (env : Env) (x : pyfloat) : raises_Exception (pow env x).
Proof. unfold pow. destruct (pow10 env x); auto with exc. Qed.

Lemma exc_fromtimestamp (ts : pyval) :
  raises_Exception (Datetime.fromtimestamp_utc ts).
Proof.
  unfold Datetime.fromtimestamp_utc.
  destruct (match ts with VInt t => Some t | VBool b => Some (Z.b2z b)
                     | _ => None end); auto with exc.
Qed.

Lemma exc_astimezone (zone : Z -> Z * string) (dt : Datetime.datetime) :
  raises_Exception (Datetime.astimezone zone dt).
Proof.
  unfold Datetime.astimezone. destruct (zone _) as [off name].
  destruct (_ || _); auto with exc.
Qed.

#[local] Hint Resolve exc_getitem exc_contains exc_iter exc_float exc_pow
  exc_fromtimestamp exc_astimezone : exc.

Lemma exc_base_is (item ticker : pyval) :
  raises_Exception (base_is item ticker).
Proof. unfold base_is. auto 10 with exc. Qed.

Lemma exc_feed_of (item : pyval) : raises_Exception (feed_of item).
Proof. unfold feed_of. auto 10 with exc. Qed.

#[local] Hint Resolve exc_base_is exc_feed_of : exc.

Lemma exc_feeds_for (ticker : pyval) (items : list pyval) :
  raises_Exception (feeds_for ticker items).
Proof.
  induction items as [| item items IH]; cbn [feeds_for]; auto 10 with exc.
Qed.

#[local] Hint Resolve exc_feeds_for : exc.

Lemma exc_extend_all (self : t) (tickers : list pyval)
    (acc : list PriceFeed.t) :
  raises_Exception (extend_all self tickers acc).
Proof.
  revert acc. induction tickers as [| ticker tickers IH]; intros acc;
    cbn [extend_all]; auto 10 with exc.
Qed.

#[local] Hint Resolve exc_extend_all : exc.

Lemma exc_process_tickers (self : t) (tickers : pyval) :
  raises_Exception (process_tickers self tickers).
Proof. unfold process_tickers. auto 10 with exc. Qed.

Lemma exc_scaled (env : Env) (price : pyval) (field : string) :
  raises_Exception (scaled env price field).
Proof. unfold scaled. auto 20 with exc. Qed.

Lemma exc_next_description (feeds : list PriceFeed.t) (price : pyval) :
  raises_Exception (next_description feeds price).
Proof.
  induction feeds as [| f feeds IH]; cbn [next_description];
    auto 10 with exc.
Qed.

Lemma exc_display_time (env : Env) (price : pyval) :
  raises_Exception (display_time env price).
Proof. unfold display_time. auto 20 with exc. Qed.

#[local] Hint Resolve exc_scaled exc_next_description exc_display_time : exc.

Lemma exc_price_data (env : Env) (feeds : list PriceFeed.t) (price : pyval) :
  raises_Exception (price_data env feeds price).
Proof. unfold price_data. auto 20 with exc. Qed.

#[local] Hint Resolve exc_price_data : exc.

Lemma exc_normalize (env : Env) (feeds : list PriceFeed.t)
    (prices : list pyval) :
  raises_Exception (normalize env feeds prices).
Proof.
  unfold normalize.
  induction prices as [| p prices IH]; cbn [Comprehension.mapM];
    auto 10 with exc.
Qed.

#[local] Hint Resolve exc_process_tickers exc_normalize : exc.

Lemma excM_ret {A} (a : A) : raisesM_Exception (Eff.ret a).
Proof. intros s e s' H. discriminate. Qed.

Lemma excM_raise {A} (e : exn) :
  is_Exception (exn_cls e) = true -> raisesM_Exception (@Eff.raise A e).
Proof. intros H s e' s' E. injection E as <- _. exact H. Qed.

Lemma excM_lift {A} (r : result A) :
  raises_Exception r -> raisesM_Exception (lift r).
Proof. intros H s e s' E. injection E as E _. exact (H e E). Qed.

Lemma excM_logger (l : level) (fmt : string) (args : list log_arg) :
  raisesM_Exception (logger l fmt args).
Proof. intros s e s' H. discriminate. Qed.

Lemma excM_bind {A B} (m : M A) (k : A -> M B) :
  raisesM_Exception m -> (forall a, raisesM_Exception (k a)) ->
  raisesM_Exception (Eff.bind m k).
Proof.
  intros Hm Hk s e s'. unfold Eff.bind.
  destruct (m s) as [[a | e'] s1] eqn:E.
  - apply Hk.
  - intros H. injection H as <- _. exact (Hm s e' s1 E).
Qed.

Lemma excM_try_except {A} (m : M A) (c : exn_class -> bool)
    (h : exn -> M A) :
  raisesM_Exception m ->
  (forall e, is_Exception (exn_cls e) = true -> raisesM_Exception (h e)) ->
  raisesM_Exception (try_except m c h).
Proof.
  intros Hm Hh s e s'. unfold try_except.
  destruct (m s) as [[a | e'] s1] eqn:E; [discriminate|].
  destruct (c (exn_cls e')).
  - apply Hh. exact (Hm s e' s1 E).
  - intros H. injection H as <- _. exact (Hm s e' s1 E).
Qed.

Lemma excM_try_binding {A B} (m : M A) (k : A -> M B)
    (h : option A -> exn -> M B) :
  raisesM_Exception m -> (forall a, raisesM_Exception (k a)) ->
  (forall o e, is_Exception (exn_cls e) = true -> raisesM_Exception (h o e)) ->
  raisesM_Exception (try_binding m k h).
Proof.
  intros Hm Hk Hh s e s'. unfold try_binding.
  destruct (m s) as [[a | e'] s1] eqn:E.
  - destruct (k a s1) as [[b | e'] s2] eqn:E'; [discriminate|].
    apply Hh. exact (Hk a s1 e' s2 E').
  - apply Hh. exact (Hm s e' s1 E).
Qed.

Section Session.
Variable env : Env.
Hypothesis Hnet : session_raises_Exception env.

Lemma excM_session_get (r : request) :
  raisesM_Exception (session_get env r).
Proof.
  intros s e s'. unfold session_get, Eff.bind, send.
  destruct (http_get env (st_sent s) r) as [e' | c b] eqn:E;
    [| discriminate].
  intros H. injection H as <- _. exact (Hnet _ _ _ E).
Qed.

Lemma excM_checked_data (r : response) : raisesM_Exception (checked_data r).
Proof.
  unfold checked_data, raise_for_status, json.
  apply excM_bind.
  - destruct (_ && _); [apply excM_raise; reflexivity|].
    destruct (_ && _); [apply excM_raise; reflexivity | apply excM_ret].
  - intros _. apply excM_bind.
    + destruct (body r); [apply excM_ret | apply excM_raise; reflexivity].
    + intros data.
      destruct (negb (is_dict data)); [apply excM_raise; reflexivity|].
      apply excM_bind; [apply excM_lift; auto with exc|].
      intros has.
      destruct (negb has); [apply excM_raise; reflexivity | apply excM_ret].
Qed.

Lemma excM_latest_prices_except (feed_ids : list pyval)
    (o : option response) (e : exn) :
  is_Exception (exn_cls e) = true ->
  raisesM_Exception (latest_prices_except feed_ids o e).
Proof.
  intros He. unfold latest_prices_except. cbv zeta. rewrite He.
  repeat match goal with
         | |- raisesM_Exception (if ?b then _ else _) => destruct b
         | |- raisesM_Exception (match ?o with Some _ => _ | None => _ end) =>
             destruct o
         | |- raisesM_Exception (Eff.bind _ _) =>
             apply excM_bind; [apply excM_logger | intros _; cbv beta]
         | |- raisesM_Exception (Eff.raise _) =>
             apply excM_raise; first [exact He | reflexivity]
         end.
Qed.

Lemma excM_get_latest_prices (self : HermesClient.t)
    (feed_ids : list pyval) :
  raisesM_Exception (get_latest_prices env self feed_ids).
Proof.
  unfold get_latest_prices. apply excM_try_binding.
  - apply excM_session_get.
  - apply excM_checked_data.
  - intros o e. apply excM_latest_prices_except.
Qed.

Lemma excM_fetch_prices (self : PriceService.t) (tickers : pyval) :
  raisesM_Exception (fetch_prices env self tickers).
Proof.
  unfold fetch_prices. apply excM_try_except.
  - apply excM_bind; [apply excM_lift; auto with exc|].
    intros [| f fs].
    + apply excM_bind; [apply excM_logger | intros _; apply excM_ret].
    + apply excM_bind; [apply excM_get_latest_prices|]. intros data.
      apply excM_bind; [apply excM_lift; auto with exc|]. intros parsed.
      apply excM_bind; [apply excM_lift; auto with exc|]. intros prices.
      apply excM_lift. auto with exc.
  - intros e He.
    apply excM_bind; [apply excM_logger | intros _; apply excM_raise, He].
Qed.

End Session.

(** C7.  For a message the classifier reports as a price request,
    [handle_message] raises nothing: it returns the list of records that
    [fetch_prices] returns, and when looking up the tickers or
    [fetch_prices] raises, it logs the exception and returns the string
    ["An error occurred: "] followed by its text.  The failures of the HTTP
    session are taken to be [Exception]s. *)
Theorem handle_message_price_request (env : Env) (self : PriceService.t)
    (message : string) (s s1 : state) (analysis flag : pyval) :
  session_raises_Exception env ->
  analyze_message env message s = (Ok analysis, s1) ->
  getitem analysis "is_price_request" = Ok flag ->
  truthy flag = true ->
  (exists out s',
      handle_message env self message s = (Ok out, s')
      /\ ((exists l, out = Prices l) \/ (exists text, out = Value (VStr text))))
  /\ (forall e,
        getitem analysis "tickers" = Raise e ->
        handle_message env self message s
        = (Ok (error_reply e),
           add_log s1 [info_entry analysis; handling_entry e]))
  /\ (forall tickers l s3,
        getitem analysis "tickers" = Ok tickers ->
        fetch_prices env self tickers (add_log s1 [info_entry analysis])
        = (Ok l, s3) ->
        handle_message env self message s = (Ok (Prices l), s3))
  /\ (forall tickers e s3,
        getitem analysis "tickers" = Ok tickers ->
        fetch_prices env self tickers (add_log s1 [info_entry analysis])
        = (Raise e, s3) ->
        handle_message env self message s
        = (Ok (error_reply e), add_log s3 [handling_entry e])).
Proof.
  intros Hnet Ha Hf Ht.
  assert (U : handle_message env self message s
              = match getitem analysis "tickers" with
                | Raise e =>
                    (Ok (error_reply e),
                     add_log s1 [info_entry analysis; handling_entry e])
                | Ok tickers =>
                    match fetch_prices env self tickers
                            (add_log s1 [info_entry analysis]) with
                    | (Ok l, s3) => (Ok (Prices l), s3)
                    | (Raise e, s3) =>
                        if is_Exception (exn_cls e)
                        then (Ok (error_reply e),
                              add_log s3 [handling_entry e])
                        else (Raise e, s3)
                    end
                end).
  { unfold handle_message, try_except, Eff.bind. rewrite Ha.
    unfold logger, lift. cbn [st_log st_sent]. rewrite Hf, Ht.
    fold (info_entry analysis). fold (add_log s1 [info_entry analysis]).
    destruct (getitem analysis "tickers") as [tickers | e] eqn:Hk.
    - destruct (fetch_prices env self tickers _) as [[l | e] s3];
        [reflexivity|].
      destruct (is_Exception (exn_cls e)); reflexivity.
    - rewrite (exc_getitem analysis "tickers" e Hk).
      unfold add_log, Eff.ret. cbn [st_log st_sent].
      rewrite <- app_assoc. reflexivity. }
  repeat split.
  - rewrite U. destruct (getitem analysis "tickers") as [tickers | e].
    + destruct (fetch_prices env self tickers _) as [[l | e] s3] eqn:Hp.
      * eauto 6.
      * rewrite (excM_fetch_prices env Hnet self tickers _ _ _ Hp).
        unfold error_reply. eauto 6.
    + unfold error_reply. eauto 6.
  - intros e Hk. rewrite U, Hk. reflexivity.
  - intros tickers l s3 Hk Hp. rewrite U, Hk, Hp. reflexivity.
  - intros tickers e s3 Hk Hp. rewrite U, Hk, Hp.
    rewrite (excM_fetch_prices env Hnet self tickers _ _ _ Hp). reflexivity.
Qed.

(** *** The classifier's reply *)

(** C2, as stated, fails: a reply outside the schema is neither rejected
    nor reported.  Its flag, the string ["False"], is true for [if], so the
    message is handled as a price request for no ticker, and the answer is
    the empty list instead of the reply for the user. *)
Lemma handle_message_unvalidated_reply :
  conforms Example.value_quoted = false
  /\ analyze_message Example.quoting "Hello" init_state
     = (Ok Example.value_quoted, init_state)
  /\ handle_message Example.quoting Example.service "Hello" init_state
     = (Ok (Prices []),
        mkState
          [info_entry Example.value_quoted;
           mkLog WARNING "No price feeds found for tickers: {}"
             [AVal (VList [])]]
          []).
Proof. repeat split. Qed.

(** C2, amended.  The text of the reply is given to [eval] and the value
    that comes out is the analysis, whatever it is: nothing is checked
    against a schema.  When the evaluation raises an [Exception],
    [analyze_message] logs it and raises it again, and [handle_message]
    catches it, logs it and returns the string ["An error occurred: "]
    followed by its text. *)
Theorem analyze_message_eval (env : Env) (self : PriceService.t)
    (message src : string) (s : state) :
  chat_create env (prompt message) = Ok (Some src) ->
  (forall v,
      py_eval env src = Ok v ->
      analyze_message env message s = (Ok v, s))
  /\ (forall e,
        py_eval env src = Raise e ->
        is_Exception (exn_cls e) = true ->
        analyze_message env message s = (Raise e, add_log s [gpt_entry e])
        /\ handle_message env self message s
           = (Ok (error_reply e),
              add_log s [gpt_entry e; handling_entry e])).
Proof.
  intros Hc. split.
  - intros v Hv. unfold analyze_message, try_except, Eff.bind, lift.
    rewrite Hc. cbn [eval]. rewrite Hv. reflexivity.
  - intros e He Hx.
    assert (A : analyze_message env message s
                = (Raise e, add_log s [gpt_entry e])).
    { unfold analyze_message, try_except, Eff.bind, lift.
      rewrite Hc. cbn [eval]. rewrite He, Hx. reflexivity. }
    split; [exact A|].
    unfold handle_message, try_except. unfold Eff.bind at 1.
    rewrite A, Hx. unfold Eff.bind, logger, Eff.ret, add_log.
    cbn [st_log st_sent]. rewrite <- app_assoc. reflexivity.
Qed.

Lemma analyze_message_eval_witness :
  analyze_message Example.quoting "Hello" init_state
  = (Ok Example.value_quoted, init_state)
  /\ handle_message
       (Example.world Example.offline (fun _ => Ok (Some "1/0"))
          Example.eval_replies)
       Example.service "Hello" init_state
     = (Ok (Value (VStr "An error occurred: division by zero")),
        mkState
          [gpt_entry (mkExn (OtherException "ZeroDivisionError")
                        "division by zero");
           handling_entry (mkExn (OtherException "ZeroDivisionError")
                             "division by zero")]
          []).
Proof.
  split.
  - exact (proj1 (analyze_message_eval Example.quoting Example.service "Hello"
                    Example.reply_quoted init_state eq_refl)
             Example.value_quoted eq_refl).
  - exact (proj2 (proj2 (analyze_message_eval
                    (Example.world Example.offline (fun _ => Ok (Some "1/0"))
                       Example.eval_replies)
                    Example.service "Hello" "1/0" init_state eq_refl)
             (mkExn (OtherException "ZeroDivisionError") "division by zero")
             eq_refl eq_refl)).
Defined.

(** An exception that is not an [Exception], such as the [SystemExit] of
    an evaluated [exit()], goes through both handlers. *)
Remark handle_message_system_exit (self : PriceService.t) (message : string)
    (s : state) :
  handle_message
    (Example.world Example.offline (fun _ => Ok (Some "exit()"))
       (fun _ => Raise (mkExn SystemExit EmptyString)))
    self message s
  = (Raise (mkExn SystemExit EmptyString), s).
Proof. destruct s. reflexivity. Qed.

Lemma handle_message_price_request_witness :
  handle_message Example.timing_out Example.service "How much is ETH?" init_state
  = (Ok (Value (VStr "An error occurred: Read timed out.")),
     mkState
       [info_entry Example.value_eth;
        timed_out_entry [VStr "ff61"];
        mkLog ERROR "Error fetching prices: {}" [AExn Example.read_timeout];
        handling_entry Example.read_timeout]
       [latest_request (HermesClient.mk "https://hermes.example")
          [VStr "ff61"]]).
Proof.
  assert (Hnet : session_raises_Exception Example.timing_out).
  { intros sent r e H. injection H as <-. reflexivity. }
  destruct (handle_message_price_request Example.timing_out Example.service
              "How much is ETH?" init_state init_state Example.value_eth
              (VBool true) Hnet eq_refl eq_refl eq_refl)
    as (_ & _ & _ & H).
  exact (H (VList [VStr "ETH"]) Example.read_timeout _ eq_refl eq_refl).
Defined.

End HandlerFacts.

(** ** The service at work *)

Module EndToEnd.
Import Py Eff PriceService Trace.

(** The catalog is loaded with one request, which has no timeout. *)
Example init_loads_catalog :
  init (Example.asking_eth []) Example.base_url init_state
  = (Ok Example.service, mkState [] [feeds_request Example.base_url]).
Proof. reflexivity. Qed.

(** A price request for ETH: one request for the latest prices and one
    record, 3450.12 with a confidence of 1.5. *)
Example handle_message_eth :
  handle_message (Example.asking_eth [Example.eth_point]) Example.service
    "How much is ETH?" init_state
  = (Ok (Prices
           [PriceData.mk (VStr "ff61")
              (S754_finite false 7586894114445066 (-41))
              (S754_finite false 6755399441055744 (-52))
              (VStr "ETHEREUM / US DOLLAR")
              "March 03, 2024 02:15 PM EST"]),
     mkState [info_entry Example.value_eth]
       [latest_request (HermesClient.mk Example.base_url) [VStr "ff61"]]).
Proof. vm_compute. reflexivity. Qed.

(** When the answer holds a point of a feed that was not resolved, the
    user gets no record at all: the failed lookup has an empty text. *)
Example handle_message_stray_point :
  handle_message
    (Example.asking_eth [Example.eth_point; Example.stray_point])
    Example.service "How much is ETH?" init_state
  = (Ok (Value (VStr "An error occurred: ")),
     mkState [info_entry Example.value_eth; handling_entry stop_iteration]
       [latest_request (HermesClient.mk Example.base_url) [VStr "ff61"]]).
Proof. vm_compute. reflexivity. Qed.

(** A reply within the schema that is not a price request is answered
    with its [chat_response], and nothing is fetched. *)
Example handle_message_chat :
  handle_message
    (Example.world Example.offline (fun _ => Ok (Some "hi"))
       (fun _ =>
          Ok (Example.obj [("is_price_request", VBool false);
                           ("tickers", VList []);
                           ("chat_response", VStr "Hi!")])))
    Example.service "Hello" init_state
  = (Ok (Value (VStr "Hi!")),
     mkState
       [info_entry (Example.obj [("is_price_request", VBool false);
                                 ("tickers", VList []);
                                 ("chat_response", VStr "Hi!")])]
       []).
Proof. reflexivity. Qed.

End EndToEnd.

(** ** More on the Hermes client *)

Module ClientFacts.
Import Py Eff HermesClient PriceService Trace Shapes.

Lemma latest_prices_except_raises (feed_ids : list pyval)
    (o : option response) (e : exn) (s : state) :
  exists e' s', latest_prices_except feed_ids o e s = (Raise e', s').
Proof.
  unfold latest_prices_except.
  destruct (is_Timeout _); [eexists _, _; reflexivity|].
  destruct (is_ConnectionError _); [eexists _, _; reflexivity|].
  destruct (is_HTTPError _); [destruct o; eexists _, _; reflexivity|].
  destruct (is_ValueError _); [eexists _, _; reflexivity|].
  destruct (is_Exception _); eexists _, _; reflexivity.
Qed.

Lemma checked_data_ok (c : Z) (body : option pyval) (s : state) :
  is_error_status c = false ->
  forall d parsed,
    body = Some (VDict d) -> dict_get d "parsed" = Some parsed ->
    checked_data (mkResponse c body) s = (Ok (VDict d), s).
Proof.
  intros Hc d parsed -> Hp. unfold is_error_status in Hc.
  unfold checked_data, raise_for_status, json, Eff.bind, Eff.lift.
  cbn [status_code HermesClient.body].
  destruct (Z.leb_spec 400 c), (Z.ltb_spec c 500), (Z.leb_spec 500 c),
    (Z.ltb_spec c 600); cbn [andb] in Hc |- *; try discriminate; try lia;
    cbn [Eff.ret is_dict negb contains]; rewrite Hp; reflexivity.
Qed.

Lemma checked_data_ok_inv (r : response) (s : state) (data : pyval)
    (s' : state) :
  checked_data r s = (Ok data, s') ->
  is_error_status (status_code r) = false
  /\ body r = Some data /\ has_parsed data = true /\ s' = s.
Proof.
  unfold checked_data, raise_for_status, json, Eff.bind, Eff.lift,
    Eff.raise, Eff.ret.
  destruct r as [c b]. cbn [status_code body].
  destruct ((400 <=? c) && (c <? 500)) eqn:A; [discriminate|].
  destruct ((500 <=? c) && (c <? 600)) eqn:B; [discriminate|].
  destruct b as [v |]; [| discriminate].
  destruct v as [| | | | | d]; try discriminate.
  cbn [is_dict negb contains].
  destruct (dict_get d "parsed") eqn:Hd; cbn [negb]; [| discriminate].
  intros H. injection H as <-. subst s'.
  split; [| split; [reflexivity | split; [| reflexivity]]].
  - unfold is_error_status.
    apply andb_false_iff in A, B. apply andb_false_iff.
    rewrite Z.leb_gt, Z.ltb_ge in *. lia.
  - unfold has_parsed. rewrite Hd. reflexivity.
Qed.

(** X1.  [get_latest_prices] returns exactly when the service answers with
    a status outside 400..599 and a JSON object that has a ["parsed"]
    member; what it returns is that object, untouched, and nothing is
    logged. *)
Theorem get_latest_prices_ok_iff (env : Env) (self : HermesClient.t)
    (feed_ids : list pyval) (s s' : state) (data : pyval) :
  get_latest_prices env self feed_ids s = (Ok data, s')
  <-> (exists c,
          http_get env (st_sent s) (latest_request self feed_ids)
          = NetResponse c (Some data)
          /\ is_error_status c = false /\ has_parsed data = true)
      /\ s' = sent_one s (latest_request self feed_ids).
Proof.
  unfold get_latest_prices. fold (latest_request self feed_ids).
  set (req := latest_request self feed_ids).
  unfold try_binding, session_get, Eff.bind, send.
  destruct (http_get env (st_sent s) req) as [e | c b] eqn:Hnet.
  - cbn [Eff.raise]. split.
    + intros H.
      destruct (latest_prices_except_raises feed_ids None e
                  (mkState (st_log s) (st_sent s ++ [req])))
        as (e' & s1 & He).
      rewrite He in H. discriminate.
    + intros [(c & Hc & _) _]. discriminate.
  - cbn [Eff.ret]. fold (sent_one s req).
    destruct (checked_data (mkResponse c b) (sent_one s req))
      as [[d | e] s1] eqn:Hk.
    + apply checked_data_ok_inv in Hk. cbn [status_code body] in Hk.
      destruct Hk as (Hc & -> & Hp & ->). split.
      * intros H. injection H as <- <-. split; [| reflexivity].
        exists c. auto.
      * intros [(c' & Hc' & _ & _) ->]. injection Hc' as <- <-.
        reflexivity.
    + split.
      * intros H.
        destruct (latest_prices_except_raises feed_ids
                    (Some (mkResponse c b)) e s1) as (e' & s2 & He).
        rewrite He in H. discriminate.
      * intros [(c' & Hc' & Hs & Hp) _]. injection Hc' as <- ->.
        destruct data as [| | | | | d]; try discriminate.
        unfold has_parsed in Hp.
        destruct (dict_get d "parsed") as [parsed |] eqn:Hd;
          [| discriminate].
        rewrite (checked_data_ok c (Some (VDict d)) _ Hs d parsed eq_refl Hd)
          in Hk.
        discriminate.
Qed.

(** X2.  An answer with a good status but without a usable body (not
    JSON, not an object, or an object without ["parsed"]) makes
    [get_latest_prices] raise a [ValueError], logged once as an invalid
    response format. *)
Theorem get_latest_prices_unusable_body (env : Env) (self : HermesClient.t)
    (feed_ids : list pyval) (s : state) (c : Z) (body : option pyval) :
  http_get env (st_sent s) (latest_request self feed_ids)
  = NetResponse c body ->
  is_error_status c = false ->
  unusable_body body = true ->
  exists e,
    is_ValueError (exn_cls e) = true
    /\ (forall v, body = Some v ->
                  e = mkExn ValueError "Unexpected API response format")
    /\ get_latest_prices env self feed_ids s
       = (Raise e,
          logged s [invalid_format_entry e]
            [latest_request self feed_ids]).
Proof.
  intros Hnet Hc Hb.
  unfold get_latest_prices. fold (latest_request self feed_ids).
  unfold try_binding, session_get, Eff.bind, send. rewrite Hnet.
  cbn [Eff.ret]. unfold checked_data, raise_for_status, json, Eff.bind.
  cbn [status_code HermesClient.body].
  unfold is_error_status in Hc.
  assert (A : (400 <=? c) && (c <? 500) = false).
  { apply andb_false_iff in Hc. apply andb_false_iff.
    rewrite Z.leb_gt, Z.ltb_ge in *. lia. }
  assert (B : (500 <=? c) && (c <? 600) = false).
  { apply andb_false_iff in Hc. apply andb_false_iff.
    rewrite Z.leb_gt, Z.ltb_ge in *. lia. }
  rewrite A, B. cbn [Eff.ret].
  destruct body as [v |].
  - exists (mkExn ValueError "Unexpected API response format").
    split; [reflexivity|]. split; [reflexivity|].
    cbn [unusable_body] in Hb. apply negb_true_iff in Hb.
    cbn [Eff.ret].
    destruct v as [| | | | | d]; try reflexivity.
    cbn [is_dict negb Eff.lift contains]. unfold has_parsed in Hb.
    destruct (dict_get d "parsed"); [discriminate | reflexivity].
  - exists (mkExn JSONDecodeError "Expecting value").
    split; [reflexivity|]. split; [discriminate | reflexivity].
Qed.

Lemma get_latest_prices_unusable_body_witness :
  get_latest_prices
    (Scenario.answering
       (NetResponse 200 (Some (Example.obj [("binary", VList [])]))))
    Scenario.client Scenario.eth_ids init_state
  = (Raise (mkExn ValueError "Unexpected API response format"),
     mkState
       [invalid_format_entry
          (mkExn ValueError "Unexpected API response format")]
       [latest_request Scenario.client Scenario.eth_ids]).
Proof.
  destruct (get_latest_prices_unusable_body
              (Scenario.answering
                 (NetResponse 200 (Some (Example.obj [("binary", VList [])]))))
              Scenario.client Scenario.eth_ids init_state 200
              (Some (Example.obj [("binary", VList [])]))
              eq_refl eq_refl eq_refl) as (e & _ & He & H).
  rewrite (He _ eq_refl) in H. exact H.
Defined.

(** X3.  A status from 400 to 599 makes [get_latest_prices] raise an
    [HTTPError], logged once with the status; the body is not read, be it
    a well-formed answer. *)
Theorem get_latest_prices_error_status (env : Env) (self : HermesClient.t)
    (feed_ids : list pyval) (s : state) (c : Z) (body : option pyval) :
  http_get env (st_sent s) (latest_request self feed_ids)
  = NetResponse c body ->
  is_error_status c = true ->
  exists e,
    exn_cls e = HTTPError
    /\ get_latest_prices env self feed_ids s
       = (Raise e,
          logged s [http_error_entry c e] [latest_request self feed_ids]).
Proof.
  intros Hnet Hc.
  unfold get_latest_prices. fold (latest_request self feed_ids).
  unfold try_binding, session_get, Eff.bind, send. rewrite Hnet.
  cbn [Eff.ret]. unfold checked_data, raise_for_status, Eff.bind.
  cbn [status_code]. unfold is_error_status in Hc.
  apply andb_true_iff in Hc as [H1 H2].
  apply Z.leb_le in H1. apply Z.ltb_lt in H2.
  destruct (Z.leb_spec 400 c); [| lia].
  destruct (Z.ltb_spec c 500); cbn [andb].
  - eexists. split; [| reflexivity]. reflexivity.
  - destruct (Z.leb_spec 500 c); [| lia].
    destruct (Z.ltb_spec c 600); [| lia]. cbn [andb].
    eexists. split; [| reflexivity]. reflexivity.
Qed.

Lemma get_latest_prices_error_status_witness :
  exists e,
    exn_cls e = HTTPError
    /\ get_latest_prices
         (Scenario.answering
            (NetResponse 503 (Some (Example.obj [("parsed", VList [])]))))
         Scenario.client Scenario.eth_ids init_state
       = (Raise e,
          logged init_state [http_error_entry 503 e]
            [latest_request Scenario.client Scenario.eth_ids]).
Proof.
  apply (get_latest_prices_error_status
           (Scenario.answering
              (NetResponse 503 (Some (Example.obj [("parsed", VList [])]))))
           Scenario.client Scenario.eth_ids init_state 503
           (Some (Example.obj [("parsed", VList [])])));
    reflexivity.
Defined.

(** X4.  What the session raises is raised again as it is, after one
    logger call at level ERROR; a timeout while connecting is logged as a
    timeout, any other connection error as a connection error.  (An
    [HTTPError] never comes from the session itself, and an exception that
    is no [Exception] is the subject of X19.) *)
Theorem get_latest_prices_session_failure (env : Env)
    (self : HermesClient.t) (feed_ids : list pyval) (s : state) (e : exn) :
  http_get env (st_sent s) (latest_request self feed_ids) = NetRaise e ->
  is_Exception (exn_cls e) = true ->
  is_HTTPError (exn_cls e) = false ->
  exists entry,
    log_level entry = ERROR
    /\ get_latest_prices env self feed_ids s
       = (Raise e, logged s [entry] [latest_request self feed_ids])
    /\ (exn_cls e = ConnectTimeout -> entry = timed_out_entry feed_ids)
    /\ (exn_cls e = ConnectionError -> entry = connection_entry e).
Proof.
  intros Hnet Hx Hh.
  unfold get_latest_prices. fold (latest_request self feed_ids).
  unfold try_binding, session_get, Eff.bind, send. rewrite Hnet.
  cbn [Eff.raise]. unfold latest_prices_except. rewrite Hh, Hx.
  destruct (exn_cls e) eqn:C; cbn [is_Timeout is_ConnectionError is_ValueError];
    try discriminate;
    (eexists; split; [| split; [reflexivity | split; intros; try discriminate;
                                  reflexivity]]; reflexivity).
Qed.

Lemma get_latest_prices_session_failure_witness :
  get_latest_prices
    (Scenario.answering (NetRaise Scenario.connection_refused))
    Scenario.client Scenario.eth_ids init_state
  = (Raise Scenario.connection_refused,
     mkState [connection_entry Scenario.connection_refused]
       [latest_request Scenario.client Scenario.eth_ids]).
Proof.
  destruct (get_latest_prices_session_failure
              (Scenario.answering (NetRaise Scenario.connection_refused))
              Scenario.client Scenario.eth_ids init_state
              Scenario.connection_refused eq_refl eq_refl eq_refl)
    as (entry & _ & H & _ & C).
  rewrite (C eq_refl) in H. exact H.
Defined.

Lemma get_latest_prices_ok (env : Env) (self : HermesClient.t)
    (feed_ids : list pyval) (s : state) (c : Z)
    (d : list (string * pyval)) (parsed : pyval) :
  http_get env (st_sent s) (latest_request self feed_ids)
  = NetResponse c (Some (VDict d)) ->
  is_error_status c = false ->
  dict_get d "parsed" = Some parsed ->
  get_latest_prices env self feed_ids s
  = (Ok (VDict d), sent_one s (latest_request self feed_ids)).
Proof.
  intros Hnet Hc Hp.
  unfold get_latest_prices. fold (latest_request self feed_ids).
  unfold try_binding, session_get, Eff.bind, send. rewrite Hnet.
  cbn [Eff.ret]. fold (sent_one s (latest_request self feed_ids)).
  rewrite (checked_data_ok c (Some (VDict d)) _ Hc d parsed eq_refl Hp).
  reflexivity.
Qed.

Lemma get_latest_prices_no_parsed (env : Env) (self : HermesClient.t)
    (feed_ids : list pyval) (s : state) (c : Z) (v : pyval) :
  http_get env (st_sent s) (latest_request self feed_ids)
  = NetResponse c (Some v) ->
  is_error_status c = false ->
  has_parsed v = false ->
  get_latest_prices env self feed_ids s
  = (Raise (mkExn ValueError "Unexpected API response format"),
     logged s
       [invalid_format_entry
          (mkExn ValueError "Unexpected API response format")]
       [latest_request self feed_ids]).
Proof.
  intros Hnet Hc Hb.
  unfold get_latest_prices. fold (latest_request self feed_ids).
  unfold try_binding, session_get, Eff.bind, send. rewrite Hnet.
  cbn [Eff.ret]. unfold checked_data, raise_for_status, json, Eff.bind.
  cbn [status_code HermesClient.body].
  unfold is_error_status in Hc.
  assert (A : (400 <=? c) && (c <? 500) = false).
  { apply andb_false_iff in Hc. apply andb_false_iff.
    rewrite Z.leb_gt, Z.ltb_ge in *. lia. }
  assert (B : (500 <=? c) && (c <? 600) = false).
  { apply andb_false_iff in Hc. apply andb_false_iff.
    rewrite Z.leb_gt, Z.ltb_ge in *. lia. }
  rewrite A, B. cbn [Eff.ret].
  destruct v as [| | | | | d]; try reflexivity.
  cbn [is_dict negb Eff.lift contains]. unfold has_parsed in Hb.
  destruct (dict_get d "parsed"); [discriminate | reflexivity].
Qed.

End ClientFacts.

(** ** More on the resolution of tickers *)

Module ResolutionFacts.
Import Py Eff PriceService FeedCatalog Shapes.

Lemma extend_all_acc (self : t) (tickers : list pyval)
    (acc : list PriceFeed.t) :
  extend_all self tickers acc
  = Py.bind (extend_all self tickers []) (fun r => Ok (acc ++ r)%list).
Proof.
  revert acc. induction tickers as [| ticker tickers IH]; intros acc.
  - cbn. rewrite app_nil_r. reflexivity.
  - cbn [extend_all].
    destruct (iter (price_feeds self)) as [items |]; [| reflexivity].
    cbn [Py.bind].
    destruct (feeds_for ticker items) as [feeds |]; [| reflexivity].
    cbn [Py.bind]. rewrite (IH (acc ++ feeds)%list), (IH ([] ++ feeds)%list).
    destruct (extend_all self tickers []) as [r |]; [| reflexivity].
    cbn [Py.bind app]. rewrite app_assoc. reflexivity.
Qed.

Lemma extend_all_app (self : t) (ts1 ts2 : list pyval)
    (acc : list PriceFeed.t) :
  extend_all self (ts1 ++ ts2) acc
  = Py.bind (extend_all self ts1 acc) (fun a => extend_all self ts2 a).
Proof.
  revert acc. induction ts1 as [| ticker ts1 IH]; intros acc.
  - reflexivity.
  - cbn [app extend_all].
    destruct (iter (price_feeds self)) as [items |]; [| reflexivity].
    cbn [Py.bind].
    destruct (feeds_for ticker items) as [feeds |]; [| reflexivity].
    cbn [Py.bind]. apply IH.
Qed.

Lemma process_tickers_list (self : t) (tickers : list pyval) :
  process_tickers self (VList tickers) = extend_all self tickers [].
Proof. destruct tickers; reflexivity. Qed.

(** X5.  Resolving a list of tickers is resolving its parts one after the
    other and appending the results; the first part that raises decides
    the exception.  This holds for any catalog and any tickers. *)
Theorem process_tickers_app (self : t) (ts1 ts2 : list pyval) :
  process_tickers self (VList (ts1 ++ ts2))
  = Py.bind (process_tickers self (VList ts1))
      (fun a =>
         Py.bind (process_tickers self (VList ts2))
           (fun b => Ok (a ++ b)%list)).
Proof.
  rewrite !process_tickers_list, extend_all_app.
  destruct (extend_all self ts1 []) as [a |]; [| reflexivity].
  cbn [Py.bind]. apply extend_all_acc.
Qed.

Lemma feeds_for_sound (ticker : pyval) (items : list pyval)
    (feeds : list PriceFeed.t) :
  feeds_for ticker items = Ok feeds ->
  forall f, In f feeds ->
    exists item,
      In item items /\ base_is item ticker = Ok true /\ feed_of item = Ok f.
Proof.
  revert feeds. induction items as [| item items IH]; intros feeds.
  - cbn. intros H. injection H as <-. intros f [].
  - cbn [feeds_for].
    destruct (base_is item ticker) as [[|] |] eqn:Hb; cbn [Py.bind];
      [| | discriminate].
    + destruct (feed_of item) as [g |] eqn:Hg; cbn [Py.bind];
        [| discriminate].
      destruct (feeds_for ticker items) as [fs |]; cbn [Py.bind Py.ret];
        [| discriminate].
      intros H. injection H as <-. intros f [<- | Hf].
      * exists item. cbn. auto.
      * destruct (IH fs eq_refl f Hf) as (it & Hi & Hrest).
        exists it. cbn. auto.
    + intros H f Hf. destruct (IH feeds H f Hf) as (it & Hi & Hrest).
      exists it. cbn. auto.
Qed.

Lemma extend_all_sound (self : t) (tickers : list pyval)
    (acc feeds : list PriceFeed.t) :
  extend_all self tickers acc = Ok feeds ->
  forall f, In f feeds ->
    In f acc
    \/ exists items item ticker,
         iter (price_feeds self) = Ok items
         /\ In item items /\ In ticker tickers
         /\ base_is item ticker = Ok true /\ feed_of item = Ok f.
Proof.
  revert acc feeds. induction tickers as [| ticker tickers IH];
    intros acc feeds.
  - cbn. intros H. injection H as <-. auto.
  - cbn [extend_all].
    destruct (iter (price_feeds self)) as [items |] eqn:Hi; [| discriminate].
    cbn [Py.bind].
    destruct (feeds_for ticker items) as [fs |] eqn:Hf; [| discriminate].
    cbn [Py.bind]. intros H f Hin.
    destruct (IH _ _ H f Hin) as [Ha | (its & it & t & E & I1 & I2 & R)].
    + apply in_app_or in Ha as [Ha | Ha]; [auto|].
      destruct (feeds_for_sound ticker items fs Hf f Ha) as (it & I1 & R).
      right. exists items, it, ticker. cbn. intuition.
    + right. exists its, it, t. cbn. intuition.
Qed.

(** X6.  Whatever the catalog holds, every feed that resolution returns
    was built from an entry of the catalog for a ticker of the request
    whose base symbol equals that ticker: resolution invents no feed. *)
Theorem process_tickers_sound (self : t) (tickers : pyval)
    (feeds : list PriceFeed.t) (f : PriceFeed.t) :
  process_tickers self tickers = Ok feeds ->
  In f feeds ->
  exists items ts item ticker,
    iter (price_feeds self) = Ok items /\ iter tickers = Ok ts
    /\ In item items /\ In ticker ts
    /\ base_is item ticker = Ok true /\ feed_of item = Ok f.
Proof.
  unfold process_tickers.
  destruct (negb (truthy tickers)).
  - cbn. intros H. injection H as <-. intros [].
  - destruct (iter tickers) as [ts |] eqn:Ht; [| discriminate].
    cbn [Py.bind]. intros H Hin.
    destruct (extend_all_sound self ts [] feeds H f Hin)
      as [[] | (its & it & t & E & I1 & I2 & R)].
    exists its, ts, it, t. intuition.
Qed.

Lemma process_tickers_sound_witness :
  exists items ts item ticker,
    iter (price_feeds Example.service) = Ok items
    /\ iter (VList [VStr "ETH"]) = Ok ts
    /\ In item items /\ In ticker ts
    /\ base_is item ticker = Ok true
    /\ feed_of item
       = Ok (PriceFeed.mk (VStr "ff61") (VStr "ETHEREUM / US DOLLAR")).
Proof.
  apply (process_tickers_sound Example.service (VList [VStr "ETH"])
           [PriceFeed.mk (VStr "ff61") (VStr "ETHEREUM / US DOLLAR")]).
  - reflexivity.
  - left. reflexivity.
Defined.

Lemma feeds_for_skip (item ticker : pyval) (pre post : list pyval) :
  base_is item ticker = Ok false ->
  feeds_for ticker (pre ++ item :: post) = feeds_for ticker (pre ++ post).
Proof.
  intros H. induction pre as [| x pre IH]; cbn [app feeds_for].
  - rewrite H. reflexivity.
  - rewrite IH. reflexivity.
Qed.

Lemma extend_all_skip (client : HermesClient.t) (item : pyval)
    (pre post tickers : list pyval) (acc : list PriceFeed.t) :
  matches_none item tickers = true ->
  extend_all (mk client (VList (pre ++ item :: post))) tickers acc
  = extend_all (mk client (VList (pre ++ post))) tickers acc.
Proof.
  revert acc. induction tickers as [| ticker tickers IH]; intros acc H.
  - reflexivity.
  - cbn [matches_none forallb] in H. apply andb_true_iff in H as [Hb Hm].
    destruct (base_is item ticker) as [[|] |] eqn:E; try discriminate.
    cbn [extend_all price_feeds iter Py.bind].
    rewrite (feeds_for_skip item ticker pre post E).
    destruct (feeds_for ticker (pre ++ post)) as [feeds |]; [| reflexivity].
    cbn [Py.bind]. apply IH. exact Hm.
Qed.



Lemma base_is_well_formed (item ticker : pyval) :
  well_formed item = true -> exists b, base_is item ticker = Ok b.
Proof.
  unfold well_formed, base_is.
  destruct item as [| | | | | d]; try discriminate.
  cbn [getitem].
  destruct (dict_get d "id"); [| discriminate].
  destruct (dict_get d "attributes") as [[| | | | | a] |]; try discriminate.
  intros _. cbn [Py.bind contains getitem].
  destruct (dict_get a "base"); cbn [Py.bind Py.ret]; eauto.
Qed.

Lemma feeds_for_broken (ticker : pyval) (pre post : list pyval)
    (bad : pyval) (e : exn) :
  forallb well_formed pre = true ->
  getitem bad "attributes" = Raise e ->
  feeds_for ticker (pre ++ bad :: post) = Raise e.
Proof.
  intros Hpre Hbad. induction pre as [| item pre IH].
  - cbn [app feeds_for]. unfold base_is. rewrite Hbad. reflexivity.
  - cbn [forallb] in Hpre. apply andb_true_iff in Hpre as [Hw Hpre].
    cbn [app feeds_for].
    destruct (base_is_well_formed item ticker Hw) as [b Hb]. rewrite Hb.
    cbn [Py.bind]. destruct b; [| exact (IH Hpre)].
    rewrite (ResolverFacts.feed_of_descriptor item Hw). cbn [Py.bind].
    rewrite (IH Hpre). reflexivity.
Qed.

(** X8.  One entry without attributes is enough to make every resolution
    of at least one ticker fail: when the entries before it are well
    formed, the [KeyError] (or [TypeError]) of reading its attributes is
    raised whichever the tickers are. *)
Theorem process_tickers_broken_entry (client : HermesClient.t)
    (pre post : list pyval) (bad : pyval) (e : exn)
    (ticker : pyval) (tickers : list pyval) :
  forallb well_formed pre = true ->
  getitem bad "attributes" = Raise e ->
  process_tickers (mk client (VList (pre ++ bad :: post)))
    (VList (ticker :: tickers))
  = Raise e.
Proof.
  intros Hpre Hbad. rewrite process_tickers_list.
  cbn [extend_all price_feeds iter Py.bind].
  rewrite (feeds_for_broken ticker pre post bad e Hpre Hbad). reflexivity.
Qed.

Lemma process_tickers_broken_entry_witness :
  process_tickers
    (mk Scenario.client
       (VList (Example.catalog_items
               ++ Example.obj [("id", VStr "dead")] :: [])))
    (VList [VStr "DOGE"])
  = Raise (key_error "attributes").
Proof.
  apply (process_tickers_broken_entry Scenario.client Example.catalog_items
           [] (Example.obj [("id", VStr "dead")]) (key_error "attributes")
           (VStr "DOGE") []); reflexivity.
Defined.

(** *** The exceptions of resolution *)

Lemma kt_bind {A B} (r : result A) (k : A -> result B) :
  raises_Key_or_Type r -> (forall a, raises_Key_or_Type (k a)) ->
  raises_Key_or_Type (Py.bind r k).
Proof.
  intros Hr Hk e. destruct r as [a | e']; cbn [Py.bind].
  - apply Hk.
  - intros E. injection E as <-. apply Hr. reflexivity.
Qed.

Lemma kt_ok {A} (a : A) : raises_Key_or_Type (Ok a).
Proof. intros e H. discriminate. Qed.

Lemma kt_getitem (v : pyval) (k : string) : raises_Key_or_Type (getitem v k).
Proof.
  intros e. destruct v; cbn [getitem]; try (intros H; injection H as <-; auto).
  destruct (dict_get d k); intros H; [discriminate|].
  injection H as <-. auto.
Qed.

Lemma kt_contains (v : pyval) (k : string) :
  raises_Key_or_Type (contains v k).
Proof.
  intros e. destruct v; cbn [contains]; intros H; try discriminate;
    injection H as <-; auto.
Qed.

Lemma kt_iter (v : pyval) : raises_Key_or_Type (iter v).
Proof.
  intros e. destruct v; cbn [iter]; intros H; try discriminate;
    injection H as <-; auto.
Qed.

Lemma kt_base_is (item ticker : pyval) :
  raises_Key_or_Type (base_is item ticker).
Proof.
  unfold base_is.
  apply kt_bind; [apply kt_getitem | intros attrs].
  apply kt_bind; [apply kt_contains | intros [|]]; [| apply kt_ok].
  apply kt_bind; [apply kt_getitem | intros attrs'].
  apply kt_bind; [apply kt_getitem | intros base]. apply kt_ok.
Qed.

Lemma kt_feed_of (item : pyval) : raises_Key_or_Type (feed_of item).
Proof.
  unfold feed_of.
  apply kt_bind; [apply kt_getitem | intros i].
  apply kt_bind; [apply kt_getitem | intros attrs].
  apply kt_bind; [apply kt_getitem | intros d]. apply kt_ok.
Qed.

Lemma kt_feeds_for (ticker : pyval) (items : list pyval) :
  raises_Key_or_Type (feeds_for ticker items).
Proof.
  induction items as [| item items IH]; cbn [feeds_for]; [apply kt_ok|].
  apply kt_bind; [apply kt_base_is | intros [|]]; [| exact IH].
  apply kt_bind; [apply kt_feed_of | intros f].
  apply kt_bind; [exact IH | intros fs]. apply kt_ok.
Qed.

Lemma kt_extend_all (self : t) (tickers : list pyval)
    (acc : list PriceFeed.t) :
  raises_Key_or_Type (extend_all self tickers acc).
Proof.
  revert acc. induction tickers as [| ticker tickers IH]; intros acc;
    cbn [extend_all]; [apply kt_ok|].
  apply kt_bind; [apply kt_iter | intros items].
  apply kt_bind; [apply kt_feeds_for | intros feeds]. apply IH.
Qed.

Lemma kt_process_tickers (self : t) (tickers : pyval) :
  raises_Key_or_Type (process_tickers self tickers).
Proof.
  unfold process_tickers. destruct (negb (truthy tickers)); [apply kt_ok|].
  apply kt_bind; [apply kt_iter | intros ts]. apply kt_extend_all.
Qed.

End ResolutionFacts.

(** ** More on normalisation and the fetch path *)

Module PipelineFacts.
Import Py Eff HermesClient PriceService Trace PriceNormalizer Shapes.

Lemma next_description_in (feeds : list PriceFeed.t) (p i d : pyval) :
  getitem p "id" = Ok i ->
  next_description feeds p = Ok d ->
  exists f,
    In f feeds /\ py_eq (PriceFeed.id f) i = true
    /\ PriceFeed.description f = d.
Proof.
  intros Hi. induction feeds as [| f feeds IH]; [discriminate|].
  cbn [next_description]. rewrite Hi. cbn [Py.bind].
  destruct (py_eq (PriceFeed.id f) i) eqn:E.
  - cbn [Py.ret]. intros H. injection H as <-. exists f. cbn. auto.
  - intros H. destruct (IH H) as (g & Hg & Rest). exists g. cbn. auto.
Qed.

(** X10.  In a successful normalisation every record carries the
    description of one of the feeds it was given, and the id of that feed
    equals the id of the record: no record is described by a feed with
    another id, or by none. *)
Theorem normalize_descriptions (env : Env) (feeds : list PriceFeed.t)
    (prices : list pyval) (records : list PriceData.t) (r : PriceData.t) :
  normalize env feeds prices = Ok records ->
  In r records ->
  exists f,
    In f feeds
    /\ py_eq (PriceFeed.id f) (PriceData.id r) = true
    /\ PriceData.description r = PriceFeed.description f.
Proof.
  unfold normalize. revert records.
  induction prices as [| p prices IH]; intros records.
  - cbn. intros H. injection H as <-. intros [].
  - cbn [Comprehension.mapM].
    destruct (price_data env feeds p) as [r0 |] eqn:Hp; [| discriminate].
    cbn [Py.bind].
    destruct (Comprehension.mapM (price_data env feeds) prices) as [rs |];
      [| discriminate].
    cbn [Py.bind Py.ret]. intros H. injection H as <-.
    intros [<- | Hin]; [| exact (IH rs eq_refl Hin)].
    unfold price_data in Hp.
    destruct (getitem p "id") as [i |] eqn:Hi; [| discriminate].
    cbn [Py.bind] in Hp.
    destruct (scaled env p "price"); [| discriminate]. cbn [Py.bind] in Hp.
    destruct (scaled env p "conf"); [| discriminate]. cbn [Py.bind] in Hp.
    destruct (next_description feeds p) as [d |] eqn:Hd; [| discriminate].
    cbn [Py.bind] in Hp.
    destruct (display_time env p); [| discriminate].
    cbn [Py.bind Py.ret] in Hp. injection Hp as <-.
    destruct (next_description_in feeds p i d Hi Hd) as (f & Hf & He & Hdesc).
    exists f. cbn [PriceData.id PriceData.description]. auto.
Qed.

Lemma normalize_descriptions_witness :
  exists f,
    In f [PriceFeed.mk (VStr "e62d") (VStr "BITCOIN / US DOLLAR");
          PriceFeed.mk (VStr "ff61") (VStr "ETHEREUM / US DOLLAR")]
    /\ py_eq (PriceFeed.id f) (VStr "ff61") = true
    /\ VStr "ETHEREUM / US DOLLAR" = PriceFeed.description f.
Proof.
  apply (normalize_descriptions Example.env0
           [PriceFeed.mk (VStr "e62d") (VStr "BITCOIN / US DOLLAR");
            PriceFeed.mk (VStr "ff61") (VStr "ETHEREUM / US DOLLAR")]
           [Example.eth_point]
           [PriceData.mk (VStr "ff61")
              (S754_finite false 7586894114445066 (-41))
              (S754_finite false 6755399441055744 (-52))
              (VStr "ETHEREUM / US DOLLAR") "March 03, 2024 02:15 PM EST"]
           (PriceData.mk (VStr "ff61")
              (S754_finite false 7586894114445066 (-41))
              (S754_finite false 6755399441055744 (-52))
              (VStr "ETHEREUM / US DOLLAR") "March 03, 2024 02:15 PM EST")).
  - vm_compute. reflexivity.
  - left. reflexivity.
Defined.

(** X11.  The exception of a failed normalisation is that of the first
    raw point that does not convert: the points after it are not looked
    at, and the records of the points before it are dropped. *)
Theorem normalize_first_failure (env : Env) (feeds : list PriceFeed.t)
    (pre post : list pyval) (p : pyval) (e : exn) :
  forallb (fun q => is_ok (price_data env feeds q)) pre = true ->
  price_data env feeds p = Raise e ->
  normalize env feeds (pre ++ p :: post) = Raise e.
Proof.
  unfold normalize. intros Hpre Hp.
  induction pre as [| q pre IH]; cbn [app Comprehension.mapM].
  - rewrite Hp. reflexivity.
  - cbn [forallb] in Hpre. apply andb_true_iff in Hpre as [Hq Hpre].
    destruct (price_data env feeds q); [| discriminate]. cbn [Py.bind].
    rewrite (IH Hpre). reflexivity.
Qed.

Lemma normalize_first_failure_witness :
  normalize Example.env0
    [PriceFeed.mk (VStr "ff61") (VStr "ETHEREUM / US DOLLAR")]
    [Example.eth_point;
     Example.raw "ff61" "n/a" "1" (-8) 1709493300;
     Example.stray_point]
  = Raise (mkExn ValueError "could not convert string to float: 'n/a'").
Proof.
  apply (normalize_first_failure Example.env0
           [PriceFeed.mk (VStr "ff61") (VStr "ETHEREUM / US DOLLAR")]
           [Example.eth_point] [Example.stray_point]
           (Example.raw "ff61" "n/a" "1" (-8) 1709493300)
           (mkExn ValueError "could not convert string to float: 'n/a'"));
    vm_compute; reflexivity.
Defined.

(** X12.  The fetch path composes resolution, one request and
    normalisation: when the tickers resolve to at least one feed, the
    service answers with a good status and an object whose ["parsed"]
    member is iterable, and its points normalise, [fetch_prices] returns
    the records of those points, having sent that one request and logged
    nothing. *)
Theorem fetch_prices_success (env : Env) (svc : PriceService.t)
    (tickers : pyval) (f : PriceFeed.t) (fs : list PriceFeed.t)
    (s : state) (c : Z) (d : list (string * pyval)) (parsed : pyval)
    (points : list pyval) (records : list PriceData.t) :
  process_tickers svc tickers = Ok (f :: fs) ->
  http_get env (st_sent s)
    (latest_request (hermes_client svc) (map PriceFeed.id (f :: fs)))
  = NetResponse c (Some (VDict d)) ->
  is_error_status c = false ->
  dict_get d "parsed" = Some parsed ->
  iter parsed = Ok points ->
  normalize env (f :: fs) points = Ok records ->
  fetch_prices env svc tickers s
  = (Ok records,
     sent_one s
       (latest_request (hermes_client svc) (map PriceFeed.id (f :: fs)))).
Proof.
  intros Hp Hnet Hc Hd Hi Hn.
  unfold fetch_prices, try_except, Eff.bind, Eff.lift. rewrite Hp.
  rewrite (ClientFacts.get_latest_prices_ok env (hermes_client svc) _ s c d
             parsed Hnet Hc Hd).
  cbn [getitem]. rewrite Hd, Hi, Hn. reflexivity.
Qed.

Lemma fetch_prices_success_witness :
  fetch_prices (Example.asking_eth [Example.eth_point]) Example.service
    (VList [VStr "ETH"]) init_state
  = (Ok [PriceData.mk (VStr "ff61")
           (S754_finite false 7586894114445066 (-41))
           (S754_finite false 6755399441055744 (-52))
           (VStr "ETHEREUM / US DOLLAR") "March 03, 2024 02:15 PM EST"],
     sent_one init_state (latest_request Scenario.client Scenario.eth_ids)).
Proof.
  apply (fetch_prices_success (Example.asking_eth [Example.eth_point])
           Example.service (VList [VStr "ETH"])
           (PriceFeed.mk (VStr "ff61") (VStr "ETHEREUM / US DOLLAR")) []
           init_state 200 [("parsed", VList [Example.eth_point])]
           (VList [Example.eth_point]) [Example.eth_point]);
    vm_compute; reflexivity.
Defined.

(** X13.  Resolution fails with a [KeyError] or a [TypeError] and with
    nothing else, and when it does [fetch_prices] raises that exception
    without a request and without a logger call. *)
Theorem fetch_prices_resolution_failure (env : Env) (svc : PriceService.t)
    (tickers : pyval) (e : exn) (s : state) :
  process_tickers svc tickers = Raise e ->
  (exn_cls e = KeyError \/ exn_cls e = TypeError)
  /\ fetch_prices env svc tickers s = (Raise e, s).
Proof.
  intros Hp.
  pose proof (ResolutionFacts.kt_process_tickers svc tickers e Hp) as K.
  split; [exact K|].
  unfold fetch_prices, try_except, Eff.bind, Eff.lift. rewrite Hp.
  destruct K as [-> | ->]; reflexivity.
Qed.

Lemma fetch_prices_resolution_failure_witness :
  fetch_prices Example.env0 Example.service (VInt 7) init_state
  = (Raise (mkExn TypeError "'int' object is not iterable"), init_state).
Proof.
  apply (fetch_prices_resolution_failure Example.env0 Example.service
           (VInt 7) (mkExn TypeError "'int' object is not iterable")
           init_state).
  reflexivity.
Defined.

Lemma fetch_prices_sent (env : Env) (svc : PriceService.t)
    (tickers : pyval) (s : state) :
  st_sent (snd (fetch_prices env svc tickers s))
  = match process_tickers svc tickers with
    | Ok (f :: fs) =>
        (st_sent s
         ++ [latest_request (hermes_client svc)
               (map PriceFeed.id (f :: fs))])%list
    | _ => st_sent s
    end.
Proof.
  unfold fetch_prices, try_except, Eff.bind, Eff.lift.
  destruct (process_tickers svc tickers) as [[| f fs] | e].
  - reflexivity.
  - pose proof (FetchFacts.get_latest_prices_sent env (hermes_client svc)
                  (map PriceFeed.id (f :: fs)) s) as G.
    destruct (get_latest_prices env (hermes_client svc) _ s)
      as [[data | e] s1]; cbn [snd] in G.
    + destruct (getitem data "parsed") as [parsed | e];
        [| destruct (is_RequestException (exn_cls e)); exact G].
      destruct (iter parsed) as [points | e];
        [| destruct (is_RequestException (exn_cls e)); exact G].
      destruct (normalize env (f :: fs) points) as [rs | e];
        [exact G | destruct (is_RequestException (exn_cls e)); exact G].
    + destruct (is_RequestException (exn_cls e)); exact G.
  - destruct (is_RequestException (exn_cls e)); reflexivity.
Qed.

(** X14.  [fetch_prices] sends a request exactly when the tickers resolve
    to at least one feed; the request is then the only one, whatever comes
    back, and asks for the ids of the resolved feeds in their order. *)
Theorem fetch_prices_requests (env : Env) (svc : PriceService.t)
    (tickers : pyval) (s : state) :
  st_sent (snd (fetch_prices env svc tickers s))
  = match process_tickers svc tickers with
    | Ok (f :: fs) =>
        (st_sent s
         ++ [latest_request (hermes_client svc)
               (map PriceFeed.id (f :: fs))])%list
    | _ => st_sent s
    end.
Proof. exact (fetch_prices_sent env svc tickers s). Qed.

(** X15.  An answer with a good status and a JSON body that is no object
    with a ["parsed"] member ends [fetch_prices] with the [ValueError] of
    the client, logged once: this failure is not logged as an error of
    fetching, unlike those of the request itself. *)
Theorem fetch_prices_unusable_answer (env : Env) (svc : PriceService.t)
    (tickers : pyval) (f : PriceFeed.t) (fs : list PriceFeed.t)
    (s : state) (c : Z) (v : pyval) :
  process_tickers svc tickers = Ok (f :: fs) ->
  http_get env (st_sent s)
    (latest_request (hermes_client svc) (map PriceFeed.id (f :: fs)))
  = NetResponse c (Some v) ->
  is_error_status c = false ->
  has_parsed v = false ->
  fetch_prices env svc tickers s
  = (Raise (mkExn ValueError "Unexpected API response format"),
     logged s
       [invalid_format_entry
          (mkExn ValueError "Unexpected API response format")]
       [latest_request (hermes_client svc) (map PriceFeed.id (f :: fs))]).
Proof.
  intros Hp Hnet Hc Hv.
  unfold fetch_prices, try_except, Eff.bind, Eff.lift. rewrite Hp.
  rewrite (ClientFacts.get_latest_prices_no_parsed env (hermes_client svc)
             _ s c v Hnet Hc Hv).
  reflexivity.
Qed.

Lemma fetch_prices_unusable_answer_witness :
  fetch_prices (Scenario.answering (NetResponse 200 (Some (VList []))))
    Example.service (VList [VStr "ETH"]) init_state
  = (Raise (mkExn ValueError "Unexpected API response format"),
     logged init_state
       [invalid_format_entry
          (mkExn ValueError "Unexpected API response format")]
       [latest_request Scenario.client Scenario.eth_ids]).
Proof.
  apply (fetch_prices_unusable_answer
           (Scenario.answering (NetResponse 200 (Some (VList []))))
           Example.service (VList [VStr "ETH"])
           (PriceFeed.mk (VStr "ff61") (VStr "ETHEREUM / US DOLLAR")) []
           init_state 200 (VList [])); reflexivity.
Defined.

End PipelineFacts.

(** ** More on the conversation handler *)

Module ConversationFacts.
Import Py Eff HermesClient PriceService Trace Raises Shapes.

Lemma excM_analyze_message (env : Env) (message : string) :
  collaborators_raise_Exception env ->
  raisesM_Exception (analyze_message env message).
Proof.
  intros (_ & Hchat & Heval). unfold analyze_message.
  apply HandlerFacts.excM_try_except.
  - apply HandlerFacts.excM_bind.
    + apply HandlerFacts.excM_lift. intros e He. exact (Hchat _ _ He).
    + intros [src |]; apply HandlerFacts.excM_lift; cbn [eval].
      * intros e He. exact (Heval _ _ He).
      * apply HandlerFacts.exc_raise. reflexivity.
  - intros e He. apply HandlerFacts.excM_bind;
      [apply HandlerFacts.excM_logger
      | intros _; apply HandlerFacts.excM_raise, He].
Qed.

(** X16.  When the flag of the analysis is false for [if],
    [handle_message] returns the [chat_response] of the analysis as it is,
    whatever the tickers are, and sends no request; an analysis without
    [chat_response] is answered with the error string of the [KeyError]. *)
Theorem handle_message_chat_reply (env : Env) (self : PriceService.t)
    (message : string) (s s1 : state) (analysis flag : pyval) :
  analyze_message env message s = (Ok analysis, s1) ->
  getitem analysis "is_price_request" = Ok flag ->
  truthy flag = false ->
  handle_message env self message s
  = match getitem analysis "chat_response" with
    | Ok v => (Ok (Value v), add_log s1 [info_entry analysis])
    | Raise e =>
        (Ok (error_reply e),
         add_log s1 [info_entry analysis; handling_entry e])
    end.
Proof.
  intros Ha Hf Ht.
  unfold handle_message, try_except, Eff.bind. rewrite Ha.
  unfold logger, lift. cbn [st_log st_sent]. rewrite Hf, Ht.
  destruct (getitem analysis "chat_response") as [v | e] eqn:Hc.
  - reflexivity.
  - rewrite (HandlerFacts.exc_getitem analysis "chat_response" e Hc).
    unfold add_log, Eff.ret. cbn [st_log st_sent].
    rewrite <- app_assoc. reflexivity.
Qed.

Lemma handle_message_chat_reply_witness :
  handle_message
    (Example.world Example.offline (fun _ => Ok (Some "hi"))
       (fun _ =>
          Ok (Example.obj [("is_price_request", VInt 0);
                           ("tickers", VList [VStr "BTC"]);
                           ("chat_response", VStr "Hi!")])))
    Example.service "Hello" init_state
  = (Ok (Value (VStr "Hi!")),
     add_log init_state
       [info_entry (Example.obj [("is_price_request", VInt 0);
                                 ("tickers", VList [VStr "BTC"]);
                                 ("chat_response", VStr "Hi!")])]).
Proof.
  apply (handle_message_chat_reply
           (Example.world Example.offline (fun _ => Ok (Some "hi"))
              (fun _ =>
                 Ok (Example.obj [("is_price_request", VInt 0);
                                  ("tickers", VList [VStr "BTC"]);
                                  ("chat_response", VStr "Hi!")])))
           Example.service "Hello" init_state init_state
           (Example.obj [("is_price_request", VInt 0);
                         ("tickers", VList [VStr "BTC"]);
                         ("chat_response", VStr "Hi!")])
           (VInt 0)); reflexivity.
Defined.

Lemma handle_message_returns (env : Env) (self : PriceService.t)
    (message : string) (s : state) :
  collaborators_raise_Exception env ->
  exists out s', handle_message env self message s = (Ok out, s').
Proof.
  intros Hc. unfold handle_message, try_except.
  match goal with
  | |- context [Eff.bind ?m ?k s] =>
      assert (B : raisesM_Exception (Eff.bind m k));
      [| destruct (Eff.bind m k s) as [[out | e] s1] eqn:E ]
  end.
  - apply HandlerFacts.excM_bind; [apply excM_analyze_message, Hc|].
    intros analysis.
    apply HandlerFacts.excM_bind; [apply HandlerFacts.excM_logger|].
    intros _.
    apply HandlerFacts.excM_bind;
      [apply HandlerFacts.excM_lift, HandlerFacts.exc_getitem|].
    intros flag. destruct (truthy flag).
    + apply HandlerFacts.excM_bind;
        [apply HandlerFacts.excM_lift, HandlerFacts.exc_getitem|].
      intros tickers.
      apply HandlerFacts.excM_bind;
        [apply HandlerFacts.excM_fetch_prices, Hc|].
      intros l. apply HandlerFacts.excM_ret.
    + apply HandlerFacts.excM_bind;
        [apply HandlerFacts.excM_lift, HandlerFacts.exc_getitem|].
      intros r. apply HandlerFacts.excM_ret.
  - eauto.
  - rewrite (B s e s1 E). unfold Eff.bind, logger, Eff.ret. eauto.
Qed.

(** X17.  When the session, the classifier and [eval] raise nothing but
    [Exception]s, [handle_message] raises nothing for any message: it
    returns a list of records or some other value. *)
Theorem handle_message_never_raises (env : Env) (self : PriceService.t)
    (message : string) (s : state) :
  collaborators_raise_Exception env ->
  exists out s', handle_message env self message s = (Ok out, s').
Proof. exact (handle_message_returns env self message s). Qed.

Lemma handle_message_never_raises_witness :
  exists out s',
    handle_message Example.timing_out Example.service "How much is ETH?"
      init_state
    = (Ok out, s').
Proof.
  apply (handle_message_never_raises Example.timing_out Example.service
           "How much is ETH?" init_state).
  split; [| split].
  - intros sent r e H. injection H as <-. reflexivity.
  - intros p e H. discriminate.
  - intros src e. unfold Example.timing_out, Example.world. cbn [py_eval].
    unfold Example.eval_replies.
    destruct (String.eqb src Example.reply_eth); [discriminate|].
    destruct (String.eqb src Example.reply_quoted); [discriminate|].
    destruct (String.eqb src "1/0"); intros H; injection H as <-;
      reflexivity.
Defined.

(** X19.  An exception that is no [Exception] (an interrupt, the exit of
    the interpreter), raised by the classifier call or by [eval], goes
    through [analyze_message] and [handle_message] untouched: neither logs
    it and neither turns it into a reply. *)
Theorem handle_message_base_exception (env : Env) (self : PriceService.t)
    (message : string) (s : state) (e : exn) :
  chat_create env (prompt message) = Raise e
  \/ (exists src,
        chat_create env (prompt message) = Ok (Some src)
        /\ py_eval env src = Raise e) ->
  is_Exception (exn_cls e) = false ->
  analyze_message env message s = (Raise e, s)
  /\ handle_message env self message s = (Raise e, s).
Proof.
  intros Hr Hx.
  assert (A : analyze_message env message s = (Raise e, s)).
  { unfold analyze_message, try_except, Eff.bind, lift.
    destruct Hr as [Hc | (src & Hc & He)]; rewrite Hc.
    - rewrite Hx. reflexivity.
    - cbn [eval]. rewrite He, Hx. reflexivity. }
  split; [exact A|].
  unfold handle_message, try_except. unfold Eff.bind at 1.
  rewrite A, Hx. reflexivity.
Qed.

Lemma handle_message_base_exception_witness :
  handle_message
    (Example.world Example.offline (fun _ => Raise Scenario.interrupted)
       Example.no_eval)
    Example.service "Hello" init_state
  = (Raise Scenario.interrupted, init_state).
Proof.
  apply (handle_message_base_exception
           (Example.world Example.offline
              (fun _ => Raise Scenario.interrupted) Example.no_eval)
           Example.service "Hello" init_state Scenario.interrupted).
  - left. reflexivity.
  - reflexivity.
Defined.

(** X20.  An analysis from which the flag cannot be read (a dictionary
    without [is_price_request], or a value that is no dictionary) is
    answered with the error string of the [KeyError] or [TypeError];
    nothing is resolved and nothing is fetched. *)
Theorem handle_message_unreadable_analysis (env : Env)
    (self : PriceService.t) (message : string) (s s1 : state)
    (analysis : pyval) (e : exn) :
  analyze_message env message s = (Ok analysis, s1) ->
  getitem analysis "is_price_request" = Raise e ->
  (exn_cls e = KeyError \/ exn_cls e = TypeError)
  /\ handle_message env self message s
     = (Ok (error_reply e),
        add_log s1 [info_entry analysis; handling_entry e]).
Proof.
  intros Ha Hf.
  split; [exact (ResolutionFacts.kt_getitem _ _ e Hf)|].
  unfold handle_message, try_except, Eff.bind. rewrite Ha.
  unfold logger, lift. cbn [st_log st_sent]. rewrite Hf.
  rewrite (HandlerFacts.exc_getitem _ _ e Hf).
  unfold add_log, Eff.ret. cbn [st_log st_sent].
  rewrite <- app_assoc. reflexivity.
Qed.

Lemma handle_message_unreadable_analysis_witness :
  handle_message
    (Example.world Example.offline (fun _ => Ok (Some "42"))
       (fun _ => Ok (VInt 42)))
    Example.service "Hello" init_state
  = (Ok (Value (VStr "An error occurred: 'int' object is not subscriptable")),
     add_log init_state
       [info_entry (VInt 42);
        handling_entry
          (mkExn TypeError "'int' object is not subscriptable")]).
Proof.
  apply (handle_message_unreadable_analysis
           (Example.world Example.offline (fun _ => Ok (Some "42"))
              (fun _ => Ok (VInt 42)))
           Example.service "Hello" init_state init_state (VInt 42)
           (mkExn TypeError "'int' object is not subscriptable"));
    reflexivity.
Defined.

End ConversationFacts.

(** ** The interactive loop *)

Module MainFacts.
Import Py Eff HermesClient PriceService Main Trace Raises Shapes.

Lemma init_no_catalog (env : Env) (base_url : string) (s : state) :
  no_catalog (http_get env (st_sent s) (feeds_request base_url)) = true ->
  exists e,
    init env base_url s = (Raise e, sent_one s (feeds_request base_url)).
Proof.
  unfold init, get_price_feeds, session_get, Eff.bind, send.
  cbn [BASE_URL]. fold (feeds_request base_url).
  fold (sent_one s (feeds_request base_url)).
  destruct (http_get env (st_sent s) (feeds_request base_url))
    as [e | c body]; cbn [no_catalog].
  - intros _. eexists. reflexivity.
  - unfold raise_for_status, json, Eff.ret, Eff.raise, is_error_status.
    cbn [status_code HermesClient.body].
    destruct (Z.leb_spec 400 c), (Z.ltb_spec c 500), (Z.leb_spec 500 c),
      (Z.ltb_spec c 600); cbn [andb orb]; try lia;
      try (intros _; eexists; reflexivity);
      destruct body; try discriminate; intros _; eexists; reflexivity.
Qed.

(** X21.  When the catalog cannot be loaded (the session raises, the
    status is an error, or the body is not JSON), [main] ends with the
    exception before it greets: nothing is written, no input is read, and
    the catalog request is the only one sent. *)
Theorem main_no_catalog (env : Env) (base_url : string) (fuel : nat)
    (inputs : list event) (s : state) :
  no_catalog (http_get env (st_sent s) (feeds_request base_url)) = true ->
  exists e,
    main env base_url fuel inputs s
    = ((Raised e, []), sent_one s (feeds_request base_url)).
Proof.
  intros H. destruct (init_no_catalog env base_url s H) as [e He].
  exists e. unfold main. rewrite He. reflexivity.
Qed.

Lemma main_no_catalog_witness :
  exists e,
    main (Scenario.answering (NetResponse 503 None)) Example.base_url 5
      [Line "How much is ETH?"] init_state
    = ((Raised e, []),
       sent_one init_state (feeds_request Example.base_url)).
Proof.
  apply (main_no_catalog (Scenario.answering (NetResponse 503 None))
           Example.base_url 5 [Line "How much is ETH?"] init_state).
  reflexivity.
Defined.

Lemma turn_ends (env : Env) (service : PriceService.t) (ev : event)
    (s : state) :
  ends_loop ev = true ->
  exists o, turn env service (Some ev) s = ((Stop, o), s).
Proof.
  destruct ev as [text |]; cbn [ends_loop turn].
  - intros ->. eexists. reflexivity.
  - intros _. eexists. reflexivity.
Qed.

(** X22.  The word [exit], in upper or lower case or mixed, ends the loop
    at once: the classifier is not called, nothing is logged or sent, and
    after the catalog is loaded [main] writes the greeting, the prompt and
    the farewell. *)
Theorem main_exit (env : Env) (base_url text : string) (fuel : nat)
    (rest : list event) (s s1 : state) (service : PriceService.t) :
  String.eqb (lower text) "exit" = true ->
  init env base_url s = (Ok service, s1) ->
  loop (S fuel) env service (Line text :: rest) s1
  = ((Exited, asked ++ [Print "Goodbye!"])%list, s1)
  /\ main env base_url (S fuel) (Line text :: rest) s
     = ((Exited, greeting ++ asked ++ [Print "Goodbye!"])%list, s1).
Proof.
  intros Hx Hi.
  assert (L : loop (S fuel) env service (Line text :: rest) s1
              = ((Exited, asked ++ [Print "Goodbye!"])%list, s1)).
  { cbn [loop hd_error turn]. rewrite Hx. reflexivity. }
  split; [exact L|]. unfold main. rewrite Hi, L. reflexivity.
Qed.

Lemma main_exit_witness :
  main (Example.asking_eth []) Example.base_url 1
    [Line "ExIt"; Line "How much is ETH?"] init_state
  = ((Exited, greeting ++ asked ++ [Print "Goodbye!"])%list,
     sent_one init_state (feeds_request Example.base_url)).
Proof.
  apply (main_exit (Example.asking_eth []) Example.base_url "ExIt" 0
           [Line "How much is ETH?"] init_state
           (sent_one init_state (feeds_request Example.base_url))
           Example.service); reflexivity.
Defined.

Lemma loop_step (fuel : nat) (env : Env) (service : PriceService.t)
    (inputs : list event) (s : state) :
  loop (S fuel) env service inputs s
  = match turn env service (hd_error inputs) s with
    | ((Stop, o), s') => ((Exited, o), s')
    | ((Propagate e, o), s') => ((Raised e, o), s')
    | ((Next, o), s') =>
        let '((r, o'), s'') := loop fuel env service (tl inputs) s' in
        ((r, (o ++ o')%list), s'')
    end.
Proof. reflexivity. Qed.

Lemma loop_ends (env : Env) (service : PriceService.t)
    (pre rest : list event) (ev : event) :
  ends_loop ev = true ->
  forall (extra : nat) (s : state),
    loop (S (List.length pre) + extra) env service (pre ++ ev :: rest) s
    = loop (S (List.length pre)) env service (pre ++ [ev]) s
    /\ fst (fst (loop (S (List.length pre)) env service (pre ++ [ev]) s))
       <> Running.
Proof.
  intros He. induction pre as [| x pre IH]; intros extra s.
  - cbn [List.length Nat.add app]. rewrite !loop_step. cbn [hd_error].
    destruct (turn_ends env service ev s He) as [o ->].
    split; [reflexivity | discriminate].
  - change (S (List.length (x :: pre)) + extra)%nat
      with (S (S (List.length pre) + extra)).
    change (S (List.length (x :: pre))) with (S (S (List.length pre))).
    cbn [app].
    rewrite (loop_step (S (List.length pre) + extra)),
      (loop_step (S (List.length pre))).
    cbn [hd_error tl].
    destruct (turn env service (Some x) s) as [[[| | e] o] s1].
    + destruct (IH extra s1) as [E N]. rewrite E.
      destruct (loop (S (List.length pre)) env service (pre ++ [ev]) s1)
        as [[r o'] s2].
      split; [reflexivity | exact N].
    + split; [reflexivity | discriminate].
    + split; [reflexivity | discriminate].
Qed.

(** X23.  The loop ends at the first [exit] or interrupt at the latest:
    with one turn for each event up to that one it ends ([Exited], or
    [Raised] for an exception that is no [Exception]), more turns change
    nothing, and the events after that one are never read. *)
Theorem loop_terminates (env : Env) (service : PriceService.t)
    (pre rest : list event) (ev : event) (extra : nat) (s : state) :
  ends_loop ev = true ->
  loop (S (List.length pre) + extra) env service (pre ++ ev :: rest) s
  = loop (S (List.length pre)) env service (pre ++ [ev]) s
  /\ fst (fst (loop (S (List.length pre)) env service (pre ++ [ev]) s))
     <> Running.
Proof. intros He. exact (loop_ends env service pre rest ev He extra s). Qed.

Lemma loop_terminates_witness :
  loop (2 + 7) (Example.asking_eth [Example.eth_point]) Example.service
    ([Line "How much is ETH?"] ++ Interrupt :: [Line "exit"]) init_state
  = loop 2 (Example.asking_eth [Example.eth_point]) Example.service
      ([Line "How much is ETH?"] ++ [Interrupt]) init_state
  /\ fst (fst (loop 2 (Example.asking_eth [Example.eth_point])
                 Example.service
                 ([Line "How much is ETH?"] ++ [Interrupt]) init_state))
     <> Running.
Proof.
  apply (loop_terminates (Example.asking_eth [Example.eth_point])
           Example.service [Line "How much is ETH?"] [Line "exit"]
           Interrupt 7 init_state).
  reflexivity.
Defined.

Lemma print_price_raises (r : PriceData.t) (o : list out) (e : exn) :
  print_price r = (o, Raise e) -> exn_cls e = TypeError.
Proof.
  unfold print_price, len.
  destruct (PriceData.description r); intros H; try discriminate;
    injection H as _ <-; reflexivity.
Qed.

Lemma print_prices_raises (l : list PriceData.t) (o : list out) (e : exn) :
  print_prices l = (o, Raise e) -> exn_cls e = TypeError.
Proof.
  revert o. induction l as [| r l IH]; intros o; cbn [print_prices].
  - discriminate.
  - destruct (print_price r) as [o1 [[] | e1]] eqn:E1.
    + destruct (print_prices l) as [o2 r2]. intros H. injection H as _ ->.
      exact (IH o2 eq_refl).
    + intros H. injection H as _ <-. exact (print_price_raises r o1 e1 E1).
Qed.

Lemma print_response_raises (response : reply) (o : list out) (e : exn) :
  print_response response = (o, Raise e) -> exn_cls e = TypeError.
Proof.
  destruct response as [l | v]; cbn [print_response].
  - apply print_prices_raises.
  - destruct v as [| | | | [| x l] |]; discriminate.
Qed.

Lemma turn_goes_on (env : Env) (service : PriceService.t)
    (inputs : list event) (s : state) :
  collaborators_raise_Exception env ->
  forallb (fun ev => negb (ends_loop ev)) inputs = true ->
  exists o s',
    turn env service (hd_error inputs) s = ((Next, o), s').
Proof.
  intros Hc Hi. destruct inputs as [| [text |] rest]; cbn [hd_error].
  - eexists _, _. reflexivity.
  - cbn [forallb ends_loop] in Hi. apply andb_true_iff in Hi as [Hx _].
    apply negb_true_iff in Hx. cbn [turn]. rewrite Hx.
    destruct (ConversationFacts.handle_message_returns env service text s Hc)
      as (response & s1 & ->).
    destruct (print_response response) as [o [[] | e]] eqn:P.
    + eexists _, _. reflexivity.
    + unfold loop_except.
      rewrite (print_response_raises response o e P).
      eexists _, _. reflexivity.
  - cbn [forallb ends_loop negb andb] in Hi. discriminate.
Qed.

Lemma forallb_tl {A} (f : A -> bool) (l : list A) :
  forallb f l = true -> forallb f (tl l) = true.
Proof.
  destruct l; [auto|]. cbn. intros H. apply andb_true_iff in H. apply H.
Qed.

Lemma loop_runs (env : Env) (service : PriceService.t) :
  collaborators_raise_Exception env ->
  forall (fuel : nat) (inputs : list event) (s : state),
    forallb (fun ev => negb (ends_loop ev)) inputs = true ->
    fst (fst (loop fuel env service inputs s)) = Running.
Proof.
  intros Hc. induction fuel as [| fuel IH]; intros inputs s Hi.
  - reflexivity.
  - rewrite loop_step.
    destruct (turn_goes_on env service inputs s Hc Hi) as (o & s1 & ->).
    pose proof (IH (tl inputs) s1 (forallb_tl _ _ Hi)) as R.
    destruct (loop fuel env service (tl inputs) s1) as [[r o'] s2].
    exact R.
Qed.

Lemma loop_eof (env : Env) (service : PriceService.t) (fuel : nat)
    (s : state) :
  loop fuel env service [] s
  = ((Running, List.concat (repeat eof_turn fuel)), s).
Proof.
  induction fuel as [| fuel IH]; [reflexivity|].
  rewrite loop_step. cbn [hd_error tl turn]. unfold loop_except.
  cbn [eof_error exn_cls is_KeyboardInterrupt is_Exception].
  rewrite IH. reflexivity.
Qed.

(** X24.  Without [exit] and without an interrupt the loop never ends:
    when the collaborators raise nothing but [Exception]s, it is still
    running after any number of turns, and once the input is at its end
    each turn writes the prompt and the error of reading past the end, and
    nothing else happens. *)
Theorem loop_never_ends (env : Env) (service : PriceService.t)
    (fuel : nat) (inputs : list event) (s : state) :
  collaborators_raise_Exception env ->
  forallb (fun ev => negb (ends_loop ev)) inputs = true ->
  fst (fst (loop fuel env service inputs s)) = Running
  /\ loop fuel env service [] s
     = ((Running, List.concat (repeat eof_turn fuel)), s).
Proof.
  intros Hc Hi. split.
  - exact (loop_runs env service Hc fuel inputs s Hi).
  - exact (loop_eof env service fuel s).
Qed.

Lemma loop_never_ends_witness :
  fst (fst (loop 9 Example.timing_out Example.service
              [Line "How much is ETH?"] init_state))
  = Running
  /\ loop 9 Example.timing_out Example.service [] init_state
     = ((Running, List.concat (repeat eof_turn 9)), init_state).
Proof.
  apply (loop_never_ends Example.timing_out Example.service 9
           [Line "How much is ETH?"] init_state).
  - split; [| split].
    + intros sent r e H. injection H as <-. reflexivity.
    + intros p e H. discriminate.
    + intros src e. unfold Example.timing_out, Example.world.
      cbn [py_eval]. unfold Example.eval_replies.
      destruct (String.eqb src Example.reply_eth); [discriminate|].
      destruct (String.eqb src Example.reply_quoted); [discriminate|].
      destruct (String.eqb src "1/0"); intros H; injection H as <-;
        reflexivity.
  - reflexivity.
Defined.

(** X25.  A price request whose tickers resolve to no feed is answered
    with silence: the turn logs the analysis and the warning, sends
    nothing, and writes nothing after the prompt. *)
Theorem turn_no_feeds (env : Env) (service : PriceService.t)
    (text : string) (s s1 : state) (analysis flag tickers : pyval) :
  String.eqb (lower text) "exit" = false ->
  analyze_message env text s = (Ok analysis, s1) ->
  getitem analysis "is_price_request" = Ok flag ->
  truthy flag = true ->
  getitem analysis "tickers" = Ok tickers ->
  process_tickers service tickers = Ok [] ->
  turn env service (Some (Line text)) s
  = ((Next, asked),
     add_log s1 [info_entry analysis; no_feeds_entry tickers]).
Proof.
  intros Hx Ha Hf Ht Hk Hp. cbn [turn]. rewrite Hx.
  assert (H : handle_message env service text s
              = (Ok (Prices []),
                 add_log s1 [info_entry analysis; no_feeds_entry tickers])).
  { unfold handle_message, try_except, Eff.bind. rewrite Ha.
    unfold logger, lift. cbn [st_log st_sent]. rewrite Hf, Ht, Hk.
    rewrite (FetchFacts.fetch_prices_empty env service tickers _ Hp).
    unfold Eff.ret, add_log, info_entry, no_feeds_entry.
    cbn [st_log st_sent]. rewrite <- app_assoc. reflexivity. }
  rewrite H. reflexivity.
Qed.

Lemma turn_no_feeds_witness :
  turn
    (Example.world Example.offline (fun _ => Ok (Some "doge"))
       (fun _ =>
          Ok (Example.obj [("is_price_request", VBool true);
                           ("tickers", VList [VStr "DOGE"])])))
    Example.service (Some (Line "How much is DOGE?")) init_state
  = ((Next, asked),
     add_log init_state
       [info_entry (Example.obj [("is_price_request", VBool true);
                                 ("tickers", VList [VStr "DOGE"])]);
        no_feeds_entry (VList [VStr "DOGE"])]).
Proof.
  apply (turn_no_feeds
           (Example.world Example.offline (fun _ => Ok (Some "doge"))
              (fun _ =>
                 Ok (Example.obj [("is_price_request", VBool true);
                                  ("tickers", VList [VStr "DOGE"])])))
           Example.service "How much is DOGE?" init_state init_state
           (Example.obj [("is_price_request", VBool true);
                         ("tickers", VList [VStr "DOGE"])])
           (VBool true) (VList [VStr "DOGE"])); reflexivity.
Defined.

(** X26.  An interrupt that arrives while the prices are fetched is not
    reported as an error: it passes the handlers of the client, of
    [fetch_prices] and of [handle_message] without a logger call, and the
    loop writes its farewell and ends. *)
Theorem turn_interrupt_while_fetching (env : Env)
    (service : PriceService.t) (text : string) (s s1 : state)
    (analysis flag tickers : pyval) (f : PriceFeed.t)
    (fs : list PriceFeed.t) (e : exn) :
  String.eqb (lower text) "exit" = false ->
  analyze_message env text s = (Ok analysis, s1) ->
  getitem analysis "is_price_request" = Ok flag ->
  truthy flag = true ->
  getitem analysis "tickers" = Ok tickers ->
  process_tickers service tickers = Ok (f :: fs) ->
  http_get env (st_sent s1)
    (latest_request (hermes_client service) (map PriceFeed.id (f :: fs)))
  = NetRaise e ->
  exn_cls e = KeyboardInterrupt ->
  turn env service (Some (Line text)) s
  = ((Stop, asked ++ [Print (nl ++ "Goodbye!")])%list,
     sent_one (add_log s1 [info_entry analysis])
       (latest_request (hermes_client service)
          (map PriceFeed.id (f :: fs)))).
Proof.
  intros Hx Ha Hf Ht Hk Hp Hnet Hc. cbn [turn]. rewrite Hx.
  destruct e as [c msg]. cbn [exn_cls] in Hc. subst c.
  assert (H : handle_message env service text s
              = (Raise (mkExn KeyboardInterrupt msg),
                 sent_one (add_log s1 [info_entry analysis])
                   (latest_request (hermes_client service)
                      (map PriceFeed.id (f :: fs))))).
  { unfold handle_message, try_except, Eff.bind. rewrite Ha.
    unfold logger, lift. cbn [st_log st_sent]. rewrite Hf, Ht, Hk.
    unfold fetch_prices, try_except, Eff.bind, lift. rewrite Hp.
    unfold get_latest_prices.
    fold (latest_request (hermes_client service)
            (map PriceFeed.id (f :: fs))).
    unfold try_binding, session_get, Eff.bind, send.
    cbn [st_log st_sent]. rewrite Hnet. reflexivity. }
  rewrite H. reflexivity.
Qed.

Lemma turn_interrupt_while_fetching_witness :
  turn (Scenario.answering (NetRaise Scenario.interrupted)) Example.service
    (Some (Line "How much is ETH?")) init_state
  = ((Stop, asked ++ [Print (nl ++ "Goodbye!")])%list,
     sent_one (add_log init_state [info_entry Example.value_eth])
       (latest_request Scenario.client Scenario.eth_ids)).
Proof.
  apply (turn_interrupt_while_fetching
           (Scenario.answering (NetRaise Scenario.interrupted))
           Example.service "How much is ETH?" init_state init_state
           Example.value_eth (VBool true) (VList [VStr "ETH"])
           (PriceFeed.mk (VStr "ff61") (VStr "ETHEREUM / US DOLLAR")) []
           Scenario.interrupted); reflexivity.
Defined.

Lemma print_prices_lines (l : list PriceData.t) :
  forallb has_len l = true -> print_prices l = (lines_of l, Ok tt).
Proof.
  induction l as [| r l IH]; [reflexivity|].
  cbn [forallb print_prices lines_of flat_map]. intros H.
  apply andb_true_iff in H as [Hr Hl]. unfold has_len in Hr.
  unfold print_price.
  destruct (len (PriceData.description r)) as [n |]; [| discriminate].
  rewrite (IH Hl). reflexivity.
Qed.

(** X27.  Records are written in their order, five lines each, the rule
    under a description as long as the description.  A record whose
    description has no length (a number, [None]) stops the writing after
    its heading with a [TypeError]: the records before it are written, the
    rest of it and the records after it are not. *)
Theorem print_prices_stops (pre post : list PriceData.t) (r : PriceData.t)
    (e : exn) :
  forallb has_len pre = true ->
  len (PriceData.description r) = Raise e ->
  print_prices pre = (lines_of pre, Ok tt)
  /\ print_response (Prices (pre ++ r :: post))
     = ((lines_of pre ++ [PrintDescription (PriceData.description r)])%list,
        Raise e)
  /\ exn_cls e = TypeError.
Proof.
  intros Hpre Hr. split; [exact (print_prices_lines pre Hpre)|]. split.
  - cbn [print_response]. induction pre as [| q pre IH].
    + cbn [app print_prices lines_of flat_map]. unfold print_price.
      rewrite Hr. reflexivity.
    + cbn [forallb] in Hpre. apply andb_true_iff in Hpre as [Hq Hpre].
      cbn [app print_prices lines_of flat_map]. unfold has_len in Hq.
      unfold print_price.
      destruct (len (PriceData.description q)) as [n |]; [| discriminate].
      rewrite (IH Hpre). fold (lines_of pre). unfold record_lines.
      rewrite <- app_assoc. reflexivity.
  - unfold len in Hr. destruct (PriceData.description r); try discriminate;
      injection Hr as <-; reflexivity.
Qed.

Lemma print_prices_stops_witness :
  print_response
    (Prices
       ([PriceData.mk (VStr "ff61") (S754_zero false) (S754_zero false)
           (VStr "ETH") "now"]
        ++ PriceData.mk (VStr "c96b") (S754_zero false) (S754_zero false)
             VNone "now"
           :: [PriceData.mk (VStr "e62d") (S754_zero false)
                 (S754_zero false) (VStr "BTC") "now"]))
  = ([PrintDescription (VStr "ETH"); PrintRule 3;
      PrintPrice (S754_zero false); PrintConfidence (S754_zero false);
      PrintTime "now"; PrintDescription VNone],
     Raise (mkExn TypeError "object of type 'NoneType' has no len()")).
Proof.
  apply (print_prices_stops
           [PriceData.mk (VStr "ff61") (S754_zero false) (S754_zero false)
              (VStr "ETH") "now"]
           [PriceData.mk (VStr "e62d") (S754_zero false) (S754_zero false)
              (VStr "BTC") "now"]
           (PriceData.mk (VStr "c96b") (S754_zero false) (S754_zero false)
              VNone "now")
           (mkExn TypeError "object of type 'NoneType' has no len()"));
    reflexivity.
Defined.

End MainFacts.

(** ** Loading the catalog, and what an incomplete entry does later *)

Module CatalogFacts.
Import Py Eff HermesClient PriceService Trace FeedCatalog Shapes.

Lemma base_is_attributes (d a : list (string * pyval)) (ticker : pyval) :
  dict_get d "attributes" = Some (VDict a) ->
  base_is (VDict d) ticker
  = Ok (match dict_get a "base" with
        | Some b => py_eq b ticker
        | None => false
        end).
Proof.
  intros Ha. unfold base_is. cbn [getitem]. rewrite Ha.
  cbn [Py.bind contains getitem].
  destruct (dict_get a "base"); reflexivity.
Qed.

Lemma feed_of_incomplete (d a : list (string * pyval)) :
  dict_get d "attributes" = Some (VDict a) ->
  dict_get d "id" = None \/ dict_get a "description" = None ->
  feed_of (VDict d)
  = Raise (key_error (match dict_get d "id" with
                      | None => "id"
                      | Some _ => "description"
                      end)).
Proof.
  intros Ha Hl. unfold feed_of. cbn [getitem].
  destruct (dict_get d "id") as [i |]; [| reflexivity].
  destruct Hl as [Hl | Hl]; [discriminate|].
  cbn [Py.bind]. rewrite Ha. cbn [Py.bind getitem]. rewrite Hl.
  reflexivity.
Qed.

Lemma feeds_for_well_formed (ticker : pyval) (items : list pyval) :
  forallb well_formed items = true ->
  exists feeds, feeds_for ticker items = Ok feeds.
Proof.
  induction items as [| item items IH]; cbn [forallb feeds_for].
  - eauto.
  - intros H. apply andb_true_iff in H as [Hw Hi].
    destruct (ResolutionFacts.base_is_well_formed item ticker Hw) as [b ->].
    destruct (IH Hi) as [fs Hfs]. cbn [Py.bind]. destruct b.
    + rewrite (ResolverFacts.feed_of_descriptor item Hw). cbn [Py.bind].
      rewrite Hfs. cbn. eauto.
    + eauto.
Qed.

Lemma feeds_for_hit (ticker bad : pyval) (pre post : list pyval) (e : exn) :
  forallb well_formed pre = true ->
  base_is bad ticker = Ok true ->
  feed_of bad = Raise e ->
  feeds_for ticker (pre ++ bad :: post) = Raise e.
Proof.
  intros Hpre Hb Hf. induction pre as [| item pre IH].
  - cbn [app feeds_for]. rewrite Hb. cbn [Py.bind]. rewrite Hf. reflexivity.
  - cbn [forallb] in Hpre. apply andb_true_iff in Hpre as [Hw Hpre].
    cbn [app feeds_for].
    destruct (ResolutionFacts.base_is_well_formed item ticker Hw) as [b ->].
    cbn [Py.bind]. destruct b; [| exact (IH Hpre)].
    rewrite (ResolverFacts.feed_of_descriptor item Hw). cbn [Py.bind].
    rewrite (IH Hpre). reflexivity.
Qed.

Lemma extend_all_well_formed (client : HermesClient.t)
    (items tickers : list pyval) (acc : list PriceFeed.t) :
  forallb well_formed items = true ->
  exists feeds, extend_all (mk client (VList items)) tickers acc = Ok feeds.
Proof.
  intros Hw. revert acc.
  induction tickers as [| ticker tickers IH]; intros acc.
  - cbn. eauto.
  - cbn [extend_all price_feeds iter Py.bind].
    destruct (feeds_for_well_formed ticker items Hw) as [fs ->].
    cbn [Py.bind]. apply IH.
Qed.

Lemma forallb_well_formed_app (pre post : list pyval) :
  forallb well_formed pre = true -> forallb well_formed post = true ->
  forallb well_formed (pre ++ post) = true.
Proof. intros H1 H2. rewrite forallb_app, H1, H2. reflexivity. Qed.

Lemma extend_all_hit (client : HermesClient.t) (d a : list (string * pyval))
    (pre post tickers : list pyval) (e : exn) :
  dict_get d "attributes" = Some (VDict a) ->
  feed_of (VDict d) = Raise e ->
  forallb well_formed pre = true ->
  forallb well_formed post = true ->
  matches_none (VDict d) tickers = false ->
  forall acc,
    extend_all (mk client (VList (pre ++ VDict d :: post))) tickers acc
    = Raise e.
Proof.
  intros Ha Hf Hpre Hpost.
  induction tickers as [| ticker tickers IH]; intros Hm acc.
  - discriminate.
  - cbn [matches_none forallb] in Hm.
    cbn [extend_all price_feeds iter Py.bind].
    pose proof (base_is_attributes d a ticker Ha) as Hb.
    destruct (match dict_get a "base" with
              | Some b => py_eq b ticker
              | None => false
              end).
    + rewrite (feeds_for_hit ticker (VDict d) pre post e Hpre Hb Hf).
      reflexivity.
    + rewrite Hb in Hm. cbn [andb] in Hm.
      rewrite (ResolutionFacts.feeds_for_skip (VDict d) ticker pre post Hb).
      destruct (feeds_for_well_formed ticker (pre ++ post)
                  (forallb_well_formed_app pre post Hpre Hpost)) as [fs ->].
      cbn [Py.bind]. apply IH. exact Hm.
Qed.

(** C4, amended.  Loading the catalog sends one request, without a
    timeout.  It raises what the session raises, an [HTTPError] for a status
    from 400 to 599 and a [JSONDecodeError] for a body that is not JSON;
    any JSON body is accepted as the catalog, its entries unread.  In a
    catalog whose other entries have an id and a description, an entry
    with attributes but without id or without description, wherever it
    stands, is passed over as long as no requested ticker equals its base
    symbol, wherever the ticker stands, and makes [process_tickers] raise a
    [KeyError] for the missing field as soon as one does. *)
Theorem init_outcome (env : Env) (base_url : string) (s : state)
    (client : HermesClient.t) (d a : list (string * pyval))
    (pre post tickers : list pyval) :
  (let s' := logged s [] [feeds_request base_url] in
   match http_get env (st_sent s) (feeds_request base_url) with
   | NetRaise e => init env base_url s = (Raise e, s')
   | NetResponse c body =>
       if (400 <=? c) && (c <? 600) then
         exists msg, init env base_url s = (Raise (mkExn HTTPError msg), s')
       else
         match body with
         | None =>
             init env base_url s
             = (Raise (mkExn JSONDecodeError "Expecting value"), s')
         | Some v =>
             init env base_url s
             = (Ok (PriceService.mk (HermesClient.mk base_url) v), s')
         end
   end)
  /\ (dict_get d "attributes" = Some (VDict a) ->
      dict_get d "id" = None \/ dict_get a "description" = None ->
      forallb well_formed pre = true ->
      forallb well_formed post = true ->
      (matches_none (VDict d) tickers = true ->
       exists feeds,
         process_tickers
           (PriceService.mk client (VList (pre ++ VDict d :: post)))
           (VList tickers)
         = Ok feeds
         /\ process_tickers (PriceService.mk client (VList (pre ++ post)))
              (VList tickers)
            = Ok feeds)
      /\ (matches_none (VDict d) tickers = false ->
          process_tickers
            (PriceService.mk client (VList (pre ++ VDict d :: post)))
            (VList tickers)
          = Raise (key_error (match dict_get d "id" with
                              | None => "id"
                              | Some _ => "description"
                              end)))).
Proof.
  split.
  - cbv zeta. unfold init, get_price_feeds, session_get, Eff.bind, send.
    cbn [BASE_URL]. fold (feeds_request base_url).
    destruct (http_get env (st_sent s) (feeds_request base_url))
      as [e | c body].
    + unfold logged. cbn [st_log]. rewrite app_nil_r. reflexivity.
    + unfold raise_for_status, json, Eff.ret, Eff.raise, logged.
      cbn [status_code HermesClient.body st_log]. rewrite app_nil_r.
      destruct (Z.leb_spec 400 c), (Z.ltb_spec c 500), (Z.leb_spec 500 c),
        (Z.ltb_spec c 600); cbn [andb]; try lia; eauto;
        destruct body; reflexivity.
  - intros Ha Hl Hpre Hpost. split.
    + intros Hm.
      rewrite (ResolutionFacts.process_tickers_list _ tickers).
      rewrite (ResolutionFacts.process_tickers_list _ tickers).
      rewrite (ResolutionFacts.extend_all_skip client (VDict d) pre post
                 tickers [] Hm).
      destruct (extend_all_well_formed client (pre ++ post) tickers []
                  (forallb_well_formed_app pre post Hpre Hpost))
        as [feeds Hf].
      exists feeds. auto.
    + intros Hm. rewrite ResolutionFacts.process_tickers_list.
      apply (extend_all_hit client d a pre post tickers _ Ha
               (feed_of_incomplete d a Ha Hl) Hpre Hpost Hm).
Qed.

Lemma init_outcome_witness :
  init Example.bare_world "https://hermes.example" init_state
  = (Ok (PriceService.mk (HermesClient.mk "https://hermes.example")
           (VList [Example.bare_entry])),
     mkState [] [feeds_request "https://hermes.example"])
  /\ (exists feeds,
        process_tickers
          (PriceService.mk Scenario.client
             (VList (Example.catalog_items
                     ++ Example.bare_entry :: Example.catalog_items)))
          (VList [VStr "ETH"; VStr "SOL"])
        = Ok feeds
        /\ process_tickers
             (PriceService.mk Scenario.client
                (VList (Example.catalog_items ++ Example.catalog_items)))
             (VList [VStr "ETH"; VStr "SOL"])
           = Ok feeds)
  /\ process_tickers
       (PriceService.mk Scenario.client
          (VList (Example.catalog_items
                  ++ Example.bare_entry :: Example.catalog_items)))
       (VList [VStr "ETH"; VStr "BTC"])
     = Raise (key_error "id").
Proof.
  split; [| split].
  - exact (proj1 (init_outcome Example.bare_world "https://hermes.example"
                    init_state Scenario.client [] [] [] [] [])).
  - destruct (proj2 (init_outcome Example.bare_world
                       "https://hermes.example" init_state Scenario.client
                       [("attributes", Example.obj [("base", VStr "BTC")])]
                       [("base", VStr "BTC")]
                       Example.catalog_items Example.catalog_items
                       [VStr "ETH"; VStr "SOL"])
                eq_refl (or_introl eq_refl) eq_refl eq_refl) as [H _].
    exact (H eq_refl).
  - destruct (proj2 (init_outcome Example.bare_world
                       "https://hermes.example" init_state Scenario.client
                       [("attributes", Example.obj [("base", VStr "BTC")])]
                       [("base", VStr "BTC")]
                       Example.catalog_items Example.catalog_items
                       [VStr "ETH"; VStr "BTC"])
                eq_refl (or_introl eq_refl) eq_refl eq_refl) as [_ H].
    exact (H eq_refl).
Defined.

End CatalogFacts.

(** ** Scaling by the exponent *)

Module ScalingFacts.
Import Py Eff PriceService QArith_base QArith Qpower Qabs Rational.
Local Open Scope Z_scope.












(** With correctly rounded [strtod] and [pow] the price of the
    specification's example is within half a unit in the last place of
    123.45, and so is the confidence interval of 0.67. *)
Example test_asset_nearest :
  (Qabs (inject_Z 8687021468732621 * Qpower (inject_Z 2) (-46)
         - decimal 12345 (-2)) <= Qpower (inject_Z 2) (-47))%Q
  /\ (Qabs (inject_Z 6034823500676465 * Qpower (inject_Z 2) (-53)
            - decimal 67 (-2)) <= Qpower (inject_Z 2) (-54))%Q.
Proof. split; vm_compute; discriminate. Qed.

End ScalingFacts.
